(** * Reservation and pricing engine of the bus booking API

    A shallow embedding of the reservation logic found in
    [src/models/Hiring.js], [src/models/Booking.js] (which also contains the
    Route model), [src/controllers/bookingController.js] and
    [src/controllers/hiringController.js].

    Modelling conventions.
    - A JavaScript [Date] is its [getTime()] value: an integer number of
      milliseconds ([Instant := Z]).  Subtracting two dates gives a [Z].
    - A JavaScript [Number] holding money, a rate or a duration is an exact
      rational ([Q]); [Math.round], [Math.ceil] and [Math.max] are the exact
      operations.  Comparisons of such numbers are the boolean tests
      [Qle_bool] / [Qlt_bool].
    - Status labels, policy names and rate types are the strings of the
      source.
    - The document store is a record of lists; a [Model.find(query)] is
      [List.filter] with the query as a test, [Model.findById] is
      [List.find], [save] of a new document appends it and [save] of a
      loaded document replaces the stored one with the same id.  Request
      validation by express-validator, schema validation, free-text
      notes, status-history and socket notifications are not part of the
      model.
    - [new Date()] and [crypto.randomBytes] are inputs of the operations
      ([now], [rnd]). *)

From Stdlib Require Import ZArith QArith Qround Qminmax List String Bool Lia Lqa.
Import ListNotations.

Local Open Scope string_scope.
Local Open Scope Z_scope.
Local Open Scope Q_scope.

(** ** JavaScript helpers *)

Definition Instant := Z.
Definition ObjectId := Z.

(** [a < b] on numbers. *)
Definition Qlt_bool (a b : Q) : bool := negb (Qle_bool b a).

(** [Math.round(x * 100) / 100]; [Math.round] is [floor (x + 1/2)]. *)
Definition round2 (x : Q) : Q := inject_Z (Qfloor (x * 100 + (1 # 2))) / 100.

(** [Math.ceil]. *)
Definition ceil (x : Q) : Q := inject_Z (Qceiling x).

(** [Array.prototype.includes] on an array of strings. *)
Definition includes (l : list string) (s : string) : bool :=
  existsb (String.eqb s) l.

(** [String.prototype.toLowerCase] on ASCII text. *)
Definition lowerAscii (c : Ascii.ascii) : Ascii.ascii :=
  let n := Ascii.nat_of_ascii c in
  if ((65 <=? n) && (n <=? 90))%nat then Ascii.ascii_of_nat (n + 32) else c.

Fixpoint toLowerCase (s : string) : string :=
  match s with
  | EmptyString => EmptyString
  | String c rest => String (lowerAscii c) (toLowerCase rest)
  end.

(** Result of a model method: it returns or it throws an [Error]. *)
Inductive outcome (A : Type) : Type :=
| Returned (a : A)
| Thrown (message : string).
Arguments Returned {A} a.
Arguments Thrown {A} message.

Definition msPerHour : Q := 1000 * 60 * 60.
Definition msPerDay : Q := 1000 * 60 * 60 * 24.

(** One entry of a [payments] array. *)
Record Payment := mkPayment {
  amount : Q;
  date : Instant;
  method : string;
  transactionId : string;
  pstatus : string
}.

(** The reducer [(sum, payment) => payment.status === 'Completed' ? sum +
    payment.amount : sum] folded from 0, as written three times in
    Hiring.js and once in rejectHiring. *)
Definition completedTotal (payments : list Payment) : Q :=
  fold_left
    (fun sum payment =>
       if String.eqb (pstatus payment) "Completed"
       then sum + amount payment else sum)
    payments 0.

(** The reducer [(sum, payment) => sum + payment.amount] folded from 0, as
    written in the controllers. *)
Definition plainTotal (payments : list Payment) : Q :=
  fold_left (fun sum payment => sum + amount payment) payments 0.

(** ** The Hiring model (src/models/Hiring.js) *)

Module Hiring.

Record Charge := mkCharge { description : string; chargeAmount : Q }.

Record t := mk {
  _id : ObjectId;
  hiringNumber : string;
  status : string;
  numberOfPassengers : Q;
  startDate : Instant;
  endDate : Instant;
  isRoundTrip : bool;
  estimatedDistance : Q;
  baseRate : Q;
  rateType : string;
  additionalCharges : list Charge;
  additionalServices : list string;
  driverAllowance : Q;
  overtimeRate : Q;
  totalCost : Q;
  totalFare : Q;
  deposit : Q;
  paymentStatus : string;
  payments : list Payment;
  user : ObjectId;
  bus : ObjectId;
  cancellationPolicy : string;
  refundAmount : Q
}.

Definition set_status (v : string) (h : t) : t :=
  mk (_id h) (hiringNumber h) v (numberOfPassengers h) (startDate h) (endDate h)
     (isRoundTrip h) (estimatedDistance h) (baseRate h) (rateType h)
     (additionalCharges h) (additionalServices h) (driverAllowance h)
     (overtimeRate h) (totalCost h) (totalFare h) (deposit h)
     (paymentStatus h) (payments h) (user h) (bus h) (cancellationPolicy h)
     (refundAmount h).

Definition set_numberOfPassengers (v : Q) (h : t) : t :=
  mk (_id h) (hiringNumber h) (status h) v (startDate h) (endDate h)
     (isRoundTrip h) (estimatedDistance h) (baseRate h) (rateType h)
     (additionalCharges h) (additionalServices h) (driverAllowance h)
     (overtimeRate h) (totalCost h) (totalFare h) (deposit h)
     (paymentStatus h) (payments h) (user h) (bus h) (cancellationPolicy h)
     (refundAmount h).

Definition set_startDate (v : Instant) (h : t) : t :=
  mk (_id h) (hiringNumber h) (status h) (numberOfPassengers h) v (endDate h)
     (isRoundTrip h) (estimatedDistance h) (baseRate h) (rateType h)
     (additionalCharges h) (additionalServices h) (driverAllowance h)
     (overtimeRate h) (totalCost h) (totalFare h) (deposit h)
     (paymentStatus h) (payments h) (user h) (bus h) (cancellationPolicy h)
     (refundAmount h).

Definition set_endDate (v : Instant) (h : t) : t :=
  mk (_id h) (hiringNumber h) (status h) (numberOfPassengers h) (startDate h) v
     (isRoundTrip h) (estimatedDistance h) (baseRate h) (rateType h)
     (additionalCharges h) (additionalServices h) (driverAllowance h)
     (overtimeRate h) (totalCost h) (totalFare h) (deposit h)
     (paymentStatus h) (payments h) (user h) (bus h) (cancellationPolicy h)
     (refundAmount h).

Definition set_rateType (v : string) (h : t) : t :=
  mk (_id h) (hiringNumber h) (status h) (numberOfPassengers h) (startDate h)
     (endDate h) (isRoundTrip h) (estimatedDistance h) (baseRate h) v
     (additionalCharges h) (additionalServices h) (driverAllowance h)
     (overtimeRate h) (totalCost h) (totalFare h) (deposit h)
     (paymentStatus h) (payments h) (user h) (bus h) (cancellationPolicy h)
     (refundAmount h).

Definition set_additionalServices (v : list string) (h : t) : t :=
  mk (_id h) (hiringNumber h) (status h) (numberOfPassengers h) (startDate h)
     (endDate h) (isRoundTrip h) (estimatedDistance h) (baseRate h)
     (rateType h) (additionalCharges h) v (driverAllowance h) (overtimeRate h)
     (totalCost h) (totalFare h) (deposit h) (paymentStatus h) (payments h)
     (user h) (bus h) (cancellationPolicy h) (refundAmount h).

Definition set_totalCost (v : Q) (h : t) : t :=
  mk (_id h) (hiringNumber h) (status h) (numberOfPassengers h) (startDate h)
     (endDate h) (isRoundTrip h) (estimatedDistance h) (baseRate h)
     (rateType h) (additionalCharges h) (additionalServices h)
     (driverAllowance h) (overtimeRate h) v (totalFare h) (deposit h)
     (paymentStatus h) (payments h) (user h) (bus h) (cancellationPolicy h)
     (refundAmount h).

Definition set_totalFare (v : Q) (h : t) : t :=
  mk (_id h) (hiringNumber h) (status h) (numberOfPassengers h) (startDate h)
     (endDate h) (isRoundTrip h) (estimatedDistance h) (baseRate h)
     (rateType h) (additionalCharges h) (additionalServices h)
     (driverAllowance h) (overtimeRate h) (totalCost h) v (deposit h)
     (paymentStatus h) (payments h) (user h) (bus h) (cancellationPolicy h)
     (refundAmount h).

Definition set_paymentStatus (v : string) (h : t) : t :=
  mk (_id h) (hiringNumber h) (status h) (numberOfPassengers h) (startDate h)
     (endDate h) (isRoundTrip h) (estimatedDistance h) (baseRate h)
     (rateType h) (additionalCharges h) (additionalServices h)
     (driverAllowance h) (overtimeRate h) (totalCost h) (totalFare h)
     (deposit h) v (payments h) (user h) (bus h) (cancellationPolicy h)
     (refundAmount h).

Definition set_payments (v : list Payment) (h : t) : t :=
  mk (_id h) (hiringNumber h) (status h) (numberOfPassengers h) (startDate h)
     (endDate h) (isRoundTrip h) (estimatedDistance h) (baseRate h)
     (rateType h) (additionalCharges h) (additionalServices h)
     (driverAllowance h) (overtimeRate h) (totalCost h) (totalFare h)
     (deposit h) (paymentStatus h) v (user h) (bus h) (cancellationPolicy h)
     (refundAmount h).

Definition set_bus (v : ObjectId) (h : t) : t :=
  mk (_id h) (hiringNumber h) (status h) (numberOfPassengers h) (startDate h)
     (endDate h) (isRoundTrip h) (estimatedDistance h) (baseRate h)
     (rateType h) (additionalCharges h) (additionalServices h)
     (driverAllowance h) (overtimeRate h) (totalCost h) (totalFare h)
     (deposit h) (paymentStatus h) (payments h) (user h) v
     (cancellationPolicy h) (refundAmount h).

Definition set_refundAmount (v : Q) (h : t) : t :=
  mk (_id h) (hiringNumber h) (status h) (numberOfPassengers h) (startDate h)
     (endDate h) (isRoundTrip h) (estimatedDistance h) (baseRate h)
     (rateType h) (additionalCharges h) (additionalServices h)
     (driverAllowance h) (overtimeRate h) (totalCost h) (totalFare h)
     (deposit h) (paymentStatus h) (payments h) (user h) (bus h)
     (cancellationPolicy h) v.

(** [HiringSchema.methods.calculateTotalCost] (Hiring.js 189-251).  The
    method stores the rounded cost in [this.totalCost] and returns it. *)
Definition calculateTotalCost (this : t) : outcome (t * Q) :=
  let durationInMs := (endDate this - startDate this)%Z in
  let durationInHours := inject_Z durationInMs / msPerHour in
  let durationInDays := durationInHours / 24 in
  let totalCost :=
    if String.eqb (rateType this) "Per Day" then
      baseRate this * ceil durationInDays
    else if String.eqb (rateType this) "Per Hour" then
      baseRate this * ceil durationInHours
    else if String.eqb (rateType this) "Per Kilometer" then
      baseRate this * estimatedDistance this
    else if String.eqb (rateType this) "Fixed" then
      baseRate this
    else
      baseRate this * ceil durationInDays in
  let totalCost :=
    if Qlt_bool 0 (driverAllowance this)
    then totalCost + driverAllowance this else totalCost in
  let standardHoursPerDay := 8 in
  let totalStandardHours := ceil durationInDays * standardHoursPerDay in
  let totalCost :=
    if Qlt_bool totalStandardHours durationInHours
       && Qlt_bool 0 (overtimeRate this)
    then totalCost + (durationInHours - totalStandardHours) * overtimeRate this
    else totalCost in
  let totalCost :=
    fold_left (fun acc charge => acc + chargeAmount charge)
              (additionalCharges this) totalCost in
  let totalCost := if isRoundTrip this then totalCost * (9 # 10) else totalCost in
  let rounded := round2 totalCost in
  Returned (set_totalCost rounded this, rounded).

(** Virtual [totalPaid] (Hiring.js 545-552). *)
Definition totalPaid (this : t) : Q := completedTotal (payments this).

(** Virtual [remainingBalance] (Hiring.js 555-558). *)
Definition remainingBalance (this : t) : Q :=
  Qmax 0 (totalCost this - totalPaid this).

(** The tier chain of [handleCancellation] (Hiring.js 398-442), by policy
    name and days left before the start. *)
Definition refundPercentageOf (policy : string) (daysToDeparture : Q) : Q :=
  if String.eqb policy "Standard" then
    if Qlt_bool 14 daysToDeparture then 9 # 10
    else if Qlt_bool 7 daysToDeparture then 3 # 4
    else if Qlt_bool 3 daysToDeparture then 1 # 2
    else if Qlt_bool 1 daysToDeparture then 1 # 4
    else 0
  else if String.eqb policy "Flexible" then
    if Qlt_bool 7 daysToDeparture then 1
    else if Qlt_bool 3 daysToDeparture then 8 # 10
    else if Qlt_bool 1 daysToDeparture then 1 # 2
    else 0
  else if String.eqb policy "Strict" then
    if Qlt_bool 30 daysToDeparture then 3 # 4
    else if Qlt_bool 14 daysToDeparture then 1 # 2
    else if Qlt_bool 7 daysToDeparture then 1 # 4
    else 0
  else 0.

Record CancellationResult := mkCancellationResult {
  cr_refundAmount : Q;
  cr_refundPercentage : Q
}.

(** [HiringSchema.methods.handleCancellation] (Hiring.js 391-486). *)
Definition handleCancellation (this : t) (now : Instant) (rnd : string)
  : outcome (t * CancellationResult) :=
  let daysToDeparture := inject_Z (startDate this - now) / msPerDay in
  let refundPercentage :=
    refundPercentageOf (cancellationPolicy this) daysToDeparture in
  let totalPaid := completedTotal (payments this) in
  let refundAmount := round2 (totalPaid * refundPercentage) in
  let this :=
    if Qlt_bool 0 refundAmount then
      let this :=
        set_payments
          (payments this ++
             [mkPayment (- refundAmount) now "Refund" ("REF-" ++ rnd) "Completed"])
          this in
      if Qle_bool totalPaid refundAmount
      then set_paymentStatus "Refunded" this
      else set_paymentStatus "Partially Refunded" this
    else this in
  Returned (this, mkCancellationResult refundAmount refundPercentage).

Record PaymentData := mkPaymentData {
  pd_amount : Q;
  pd_method : string;
  pd_transactionId : string
}.

Record PaymentResult := mkPaymentResult {
  pr_payment : Payment;
  pr_paymentStatus : string;
  pr_hiringStatus : string
}.

(** [HiringSchema.methods.processPayment] (Hiring.js 489-542).  An empty
    [method] or [transactionId] is the falsy value replaced by a default. *)
Definition processPayment (this : t) (paymentData : PaymentData)
           (now : Instant) (rnd : string) : outcome (t * PaymentResult) :=
  let amount := pd_amount paymentData in
  if Qle_bool amount 0 then Thrown "Invalid payment amount"
  else
    let payment :=
      mkPayment amount now
        (if String.eqb (pd_method paymentData) "" then "Other"
         else pd_method paymentData)
        (if String.eqb (pd_transactionId paymentData) "" then "PAY-" ++ rnd
         else pd_transactionId paymentData)
        "Completed" in
    let this := set_payments (payments this ++ [payment]) this in
    let totalPaid := completedTotal (payments this) in
    let this :=
      if Qle_bool (totalCost this) totalPaid then set_paymentStatus "Paid" this
      else if Qlt_bool 0 totalPaid then set_paymentStatus "Partially Paid" this
      else set_paymentStatus "Pending" this in
    let this :=
      if Qle_bool (deposit this) totalPaid && String.eqb (status this) "Pending"
      then set_status "Confirmed" this else this in
    Returned (this, mkPaymentResult payment (paymentStatus this) (status this)).

End Hiring.

(** ** The Route model (second part of src/models/Booking.js) *)

Module Route.

Record StopPoint := mkStopPoint { stopName : string; stopFare : Q }.

Record t := mk {
  _id : ObjectId;
  stopPoints : list StopPoint;
  baseFare : Q;
  peakTimeMultiplier : Q;
  weekendMultiplier : Q;
  holidayMultiplier : Q;
  seasonalMultiplier : Q;
  childrenDiscount : Q;
  seniorDiscount : Q
}.

(** The [options] argument of [calculateFare], with its defaults. *)
Record Options := mkOptions {
  isChild : bool;
  isSenior : bool;
  isPeakTime : bool;
  isWeekend : bool;
  isHoliday : bool;
  isSeasonal : bool;
  stopPoint : option string;
  date : option Instant
}.

(** The object that [calculateFare] returns (the echoed factor, multiplier
    and discount sub-objects are left out). *)
Record FareQuote := mkFareQuote { total : Q; base : Q }.

(** [RouteSchema.methods.calculateFare] (Booking.js 661-726).  Inside the
    method the names [isPeakTime] and [isWeekend] are the destructured
    booleans, which shadow the helper functions of the same name: when a
    [date] is given and the flag is false, the call [isPeakTime(checkDate)]
    (or [isWeekend(checkDate)]) applies a boolean and raises a TypeError. *)
Definition calculateFare (this : t) (options : Options) : outcome FareQuote :=
  let fare := baseFare this in
  let fare :=
    match stopPoint options with
    | Some wanted =>
        match find (fun s => String.eqb (stopName s) wanted) (stopPoints this) with
        | Some stop => if Qeq_bool (stopFare stop) 0 then fare else stopFare stop
        | None => fare
        end
    | None => fare
    end in
  let finish (isPeakTimeValue isWeekendValue : bool) : outcome FareQuote :=
    let fare := if isPeakTimeValue then fare * peakTimeMultiplier this else fare in
    let fare := if isWeekendValue then fare * weekendMultiplier this else fare in
    let fare := if isHoliday options then fare * holidayMultiplier this else fare in
    let fare := if isSeasonal options then fare * seasonalMultiplier this else fare in
    let fare := if isChild options then fare * (1 - childrenDiscount this) else fare in
    let fare := if isSenior options then fare * (1 - seniorDiscount this) else fare in
    Returned (mkFareQuote (round2 fare) (baseFare this)) in
  match date options with
  | None => finish (isPeakTime options) (isWeekend options)
  | Some _ =>
      if isPeakTime options then
        if isWeekend options then finish true true
        else Thrown "TypeError: isWeekend is not a function"
      else Thrown "TypeError: isPeakTime is not a function"
  end.

End Route.

(** ** The Booking model (first part of src/models/Booking.js) *)





Module Booking.

Record Passenger := mkPassenger {
  name : string;
  age : Z;
  seatNumber : string;
  passengerType : string
}.

(** The refund fields of [transaction]. *)
Module Transaction.
Record t := mk {
  refundAmount : Q;
  refundDate : Instant;
  refundTransactionId : string
}.
End Transaction.

Record t := mk {
  _id : ObjectId;
  bookingNumber : string;
  bookingType : string;
  status : string;
  passengers : list Passenger;
  seatNumbers : list string;
  route : ObjectId;
  bus : ObjectId;
  departureDate : Instant;
  returnDate : option Instant;
  totalFare : Q;
  paymentStatus : string;
  payments : list Payment;
  transaction : option Transaction.t;
  user : ObjectId;
  promoCode : option string;
  discountApplied : Q;
  refundAmount : Q
}.

Definition set_status (v : string) (b : t) : t :=
  mk (_id b) (bookingNumber b) (bookingType b) v (passengers b)
     (seatNumbers b) (route b) (bus b) (departureDate b) (returnDate b)
     (totalFare b) (paymentStatus b) (payments b) (transaction b) (user b)
     (promoCode b) (discountApplied b) (refundAmount b).

Definition set_paymentStatus (v : string) (b : t) : t :=
  mk (_id b) (bookingNumber b) (bookingType b) (status b) (passengers b)
     (seatNumbers b) (route b) (bus b) (departureDate b) (returnDate b)
     (totalFare b) v (payments b) (transaction b) (user b)
     (promoCode b) (discountApplied b) (refundAmount b).

Definition set_payments (v : list Payment) (b : t) : t :=
  mk (_id b) (bookingNumber b) (bookingType b) (status b) (passengers b)
     (seatNumbers b) (route b) (bus b) (departureDate b) (returnDate b)
     (totalFare b) (paymentStatus b) v (transaction b) (user b)
     (promoCode b) (discountApplied b) (refundAmount b).

Definition set_transaction (v : option Transaction.t) (b : t) : t :=
  mk (_id b) (bookingNumber b) (bookingType b) (status b) (passengers b)
     (seatNumbers b) (route b) (bus b) (departureDate b) (returnDate b)
     (totalFare b) (paymentStatus b) (payments b) v (user b)
     (promoCode b) (discountApplied b) (refundAmount b).

Definition set_refundAmount (v : Q) (b : t) : t :=
  mk (_id b) (bookingNumber b) (bookingType b) (status b) (passengers b)
     (seatNumbers b) (route b) (bus b) (departureDate b) (returnDate b)
     (totalFare b) (paymentStatus b) (payments b) (transaction b) (user b)
     (promoCode b) (discountApplied b) v.

Definition set_passengers (v : list Passenger) (b : t) : t :=
  mk (_id b) (bookingNumber b) (bookingType b) (status b) v (seatNumbers b)
     (route b) (bus b) (departureDate b) (returnDate b) (totalFare b)
     (paymentStatus b) (payments b) (transaction b) (user b) (promoCode b)
     (discountApplied b) (refundAmount b).

Definition set_departureDate (v : Instant) (b : t) : t :=
  mk (_id b) (bookingNumber b) (bookingType b) (status b) (passengers b)
     (seatNumbers b) (route b) (bus b) v (returnDate b) (totalFare b)
     (paymentStatus b) (payments b) (transaction b) (user b) (promoCode b)
     (discountApplied b) (refundAmount b).

Definition set_returnDate (v : option Instant) (b : t) : t :=
  mk (_id b) (bookingNumber b) (bookingType b) (status b) (passengers b)
     (seatNumbers b) (route b) (bus b) (departureDate b) v (totalFare b)
     (paymentStatus b) (payments b) (transaction b) (user b) (promoCode b)
     (discountApplied b) (refundAmount b).

Definition set_route (v : ObjectId) (b : t) : t :=
  mk (_id b) (bookingNumber b) (bookingType b) (status b) (passengers b)
     (seatNumbers b) v (bus b) (departureDate b) (returnDate b) (totalFare b)
     (paymentStatus b) (payments b) (transaction b) (user b) (promoCode b)
     (discountApplied b) (refundAmount b).

Definition set_bus (v : ObjectId) (b : t) : t :=
  mk (_id b) (bookingNumber b) (bookingType b) (status b) (passengers b)
     (seatNumbers b) (route b) v (departureDate b) (returnDate b)
     (totalFare b) (paymentStatus b) (payments b) (transaction b) (user b)
     (promoCode b) (discountApplied b) (refundAmount b).

Definition set_totalFare (v : Q) (b : t) : t :=
  mk (_id b) (bookingNumber b) (bookingType b) (status b) (passengers b)
     (seatNumbers b) (route b) (bus b) (departureDate b) (returnDate b) v
     (paymentStatus b) (payments b) (transaction b) (user b) (promoCode b)
     (discountApplied b) (refundAmount b).

Definition getDay (d : Instant) : Z := ((d / 86400000 + 4) mod 7)%Z.




(** The tier chain of [handleCancellation] (Booking.js 338-352). *)
Definition refundPercentageOf (hoursToDeparture : Q) : Q :=
  if Qlt_bool 72 hoursToDeparture then 1
  else if Qlt_bool 48 hoursToDeparture then 3 # 4
  else if Qlt_bool 24 hoursToDeparture then 1 # 2
  else if Qlt_bool 12 hoursToDeparture then 1 # 4
  else 0.

Record CancellationResult := mkCancellationResult {
  cr_refundAmount : Q;
  cr_refundPercentage : Q;
  cr_refundTransactionId : string
}.

(** [BookingSchema.methods.handleCancellation] (Booking.js 331-386). *)
Definition handleCancellation (this : t) (now : Instant) (rnd : string)
  : outcome (t * CancellationResult) :=
  let hoursToDeparture := inject_Z (departureDate this - now) / msPerHour in
  let refundPercentage := refundPercentageOf hoursToDeparture in
  let refundAmount := totalFare this * refundPercentage in
  let this :=
    set_transaction
      (Some (Transaction.mk (round2 refundAmount) now ("REF-" ++ rnd))) this in
  let this :=
    if Qeq_bool refundPercentage 1 then set_paymentStatus "Refunded" this
    else if Qlt_bool 0 refundPercentage
         then set_paymentStatus "Partially Refunded" this
         else this in
  Returned (this, mkCancellationResult refundAmount refundPercentage ("REF-" ++ rnd)).

Record StatusChange := mkStatusChange { oldStatus : string; newStatus : string }.

(** [BookingSchema.methods.updateStatus] (Booking.js 297-328). *)
Definition updateStatus (this : t) (newStatus : string) (now : Instant)
           (rnd : string) : outcome (t * StatusChange) :=
  let validStatuses :=
    ["Pending"; "Confirmed"; "Cancelled"; "Completed"; "No-Show"; "Refunded"] in
  if negb (includes validStatuses newStatus)
  then Thrown ("Invalid status: " ++ newStatus)
  else
    let oldStatus := status this in
    let this := set_status newStatus this in
    if String.eqb newStatus "Cancelled" || String.eqb newStatus "Refunded" then
      match handleCancellation this now rnd with
      | Thrown m => Thrown m
      | Returned (this, _) => Returned (this, mkStatusChange oldStatus newStatus)
      end
    else Returned (this, mkStatusChange oldStatus newStatus).

End Booking.

(** ** The document store *)

Record HiringRates := mkHiringRates { dailyRate : Q; perKilometer : Q }.

Record Bus := mkBus {
  bus_id : ObjectId;
  busNumber : string;
  busStatus : string;
  capacity : Z;
  hiringRates : option HiringRates
}.

Record Store := mkStore {
  bookings : list Booking.t;
  hirings : list Hiring.t;
  buses : list Bus;
  routes : list Route.t
}.

(** The authenticated user of a request ([req.user]). *)
Record User := mkUser { userId : ObjectId; role : string }.

(** What a controller sends: [res.status(code).json(...)] with status
    ['success'] and a data object, or with status ['error'] and a message. *)
Inductive response (D : Type) : Type :=
| success (code : Z) (data : D)
| error (code : Z) (message : string).
Arguments success {D} code data.
Arguments error {D} code message.

(** [x || d] on numbers: [0] is falsy. *)
Definition orElse (x d : Q) : Q := if Qeq_bool x 0 then d else x.

(** Whether a key is present in the request body. *)
Definition present {A : Type} (field : option A) : bool :=
  match field with
  | Some _ => true
  | None => false
  end.

(** Mongo range condition [{ $gte: lo, $lte: hi }]. *)
Definition within (lo hi x : Instant) : bool := ((lo <=? x) && (x <=? hi))%Z.

(** Mongo condition on an optional date field: a missing field matches no
    comparison. *)
Definition onField (test : Instant -> bool) (field : option Instant) : bool :=
  match field with
  | Some d => test d
  | None => false
  end.

Definition saveBooking (b : Booking.t) (store : Store) : Store :=
  mkStore
    (map (fun x => if (Booking._id x =? Booking._id b)%Z then b else x)
         (bookings store))
    (hirings store) (buses store) (routes store).

Definition saveHiring (h : Hiring.t) (store : Store) : Store :=
  mkStore (bookings store)
    (map (fun x => if (Hiring._id x =? Hiring._id h)%Z then h else x)
         (hirings store))
    (buses store) (routes store).

Definition insertBooking (b : Booking.t) (store : Store) : Store :=
  mkStore (bookings store ++ [b]) (hirings store) (buses store) (routes store).

Definition insertHiring (h : Hiring.t) (store : Store) : Store :=
  mkStore (bookings store) (hirings store ++ [h]) (buses store) (routes store).

(** ** Availability check of the Hiring model *)

Module HiringAvailability.

Record Availability := mkAvailability {
  available : bool;
  reason : string;
  conflicting : list string
}.

(** The Booking query of [checkBusAvailability] (Hiring.js 279-298). *)
Definition bookingQuery (this : Hiring.t) (b : Booking.t) : bool :=
  (Booking.bus b =? Hiring.bus this)%Z
  && (within (Hiring.startDate this) (Hiring.endDate this) (Booking.departureDate b)
      || onField (within (Hiring.startDate this) (Hiring.endDate this))
                 (Booking.returnDate b))
  && includes ["Confirmed"; "Pending"] (Booking.status b).

(** The Hiring query of [checkBusAvailability] (Hiring.js 309-329). *)
Definition hiringQuery (this : Hiring.t) (h : Hiring.t) : bool :=
  (Hiring.bus h =? Hiring.bus this)%Z
  && negb (Hiring._id h =? Hiring._id this)%Z
  && (within (Hiring.startDate this) (Hiring.endDate this) (Hiring.startDate h)
      || within (Hiring.startDate this) (Hiring.endDate this) (Hiring.endDate h))
  && includes ["Confirmed"; "Pending"; "In Progress"] (Hiring.status h).

(** [HiringSchema.methods.checkBusAvailability] (Hiring.js 254-352). *)
Definition checkBusAvailability (store : Store) (this : Hiring.t) : Availability :=
  match find (fun b => (bus_id b =? Hiring.bus this)%Z) (buses store) with
  | None => mkAvailability false "Bus not found" []
  | Some bus =>
      if negb (String.eqb (busStatus bus) "Active") then
        mkAvailability false ("Bus is " ++ toLowerCase (busStatus bus)) []
      else
        let bookings := filter (bookingQuery this) (bookings store) in
        if (0 <? Z.of_nat (List.length bookings))%Z then
          mkAvailability false "Bus is already booked during requested period"
                         (map Booking.bookingNumber bookings)
        else
          let hirings := filter (hiringQuery this) (hirings store) in
          if (0 <? Z.of_nat (List.length hirings))%Z then
            mkAvailability false "Bus is already hired during requested period"
                           (map Hiring.hiringNumber hirings)
          else mkAvailability true "" []
  end.

End HiringAvailability.

(** ** src/controllers/bookingController.js *)

Module BookingController.

Record CreateBody := mkCreateBody {
  route : ObjectId;
  bus : ObjectId;
  departureDate : Instant;
  returnDate : option Instant;
  bookingType : string;
  seatNumbers : list string;
  passengers : list Booking.Passenger;
  promoCode : option string
}.

(** The query [{ bus, $or: [{ departureDate: d }, { returnDate: d }],
    status: { $in: ['Pending', 'Confirmed'] } }] of [createBooking]. *)
Definition sameInstantQuery (bus : ObjectId) (d : Instant) (b : Booking.t) : bool :=
  (Booking.bus b =? bus)%Z
  && ((Booking.departureDate b =? d)%Z
      || onField (fun r => (r =? d)%Z) (Booking.returnDate b))
  && includes ["Pending"; "Confirmed"] (Booking.status b).

(** The fare of [createBooking] before rounding (bookingController.js
    330-348; the same lines appear in [updateBooking]). *)
Definition quoteTotalFare (routeData : Route.t) (passengers : list Booking.Passenger)
           (bookingType : string) (promoCode : option string) : Q :=
  let baseFare := orElse (Route.baseFare routeData) 0 in
  let totalFare := baseFare * inject_Z (Z.of_nat (List.length passengers)) in
  let totalFare :=
    if String.eqb bookingType "Round-Trip" then totalFare * (18 # 10)
    else totalFare in
  match promoCode with
  | Some code =>
      if String.eqb code "WELCOME10" then totalFare * (9 # 10) else totalFare
  | None => totalFare
  end.

(** [exports.createBooking] (bookingController.js 216-385). *)
Definition createBooking (store : Store) (body : CreateBody) (user : User)
           (newId : ObjectId) (rnd : string) : Store * response Booking.t :=
  match find (fun r => (Route._id r =? route body)%Z) (routes store) with
  | None => (store, error 400 "Route not found")
  | Some routeData =>
  match find (fun b => (bus_id b =? bus body)%Z) (buses store) with
  | None => (store, error 400 "Bus not found")
  | Some busData =>
      let departureDateTime := departureDate body in
      let busAvailability :=
        filter (sameInstantQuery (bus body) departureDateTime) (bookings store) in
      if (0 <? Z.of_nat (List.length busAvailability))%Z then
        (store, error 400 "Bus is not available on the selected date")
      else
        let returnAvailability :=
          match returnDate body with
          | Some returnDateTime =>
              if String.eqb (bookingType body) "Round-Trip"
              then filter (sameInstantQuery (bus body) returnDateTime) (bookings store)
              else []
          | None => []
          end in
        if (0 <? Z.of_nat (List.length returnAvailability))%Z then
          (store, error 400 "Bus is not available for the return date")
        else
          let existingBookings :=
            if (0 <? Z.of_nat (List.length (seatNumbers body)))%Z then
              filter (fun b =>
                        sameInstantQuery (bus body) departureDateTime b
                        && existsb (includes (seatNumbers body))
                                   (Booking.seatNumbers b))
                     (bookings store)
            else [] in
          if (0 <? Z.of_nat (List.length existingBookings))%Z then
            (store, error 400 "Some selected seats are already booked")
          else
            let totalFare :=
              quoteTotalFare routeData (passengers body) (bookingType body)
                             (promoCode body) in
            let newBooking :=
              Booking.mk newId ("BK-" ++ rnd) (bookingType body) "Pending"
                (passengers body) (seatNumbers body) (route body) (bus body)
                (departureDate body) (returnDate body) (round2 totalFare)
                "Pending" [] None (userId user) (promoCode body) 0 0 in
            (insertBooking newBooking store, success 201 newBooking)
  end end.

Record UpdateBody := mkUpdateBody {
  ub_passengers : option (list Booking.Passenger);
  ub_seatNumbers : option (list string);
  ub_departureDate : option Instant;
  ub_returnDate : option Instant;
  ub_route : option ObjectId;
  ub_bus : option ObjectId;
  ub_status : option string;
  ub_paymentStatus : option string;
  ub_otherKeys : list string
}.

(** [Object.keys(req.body)] for an update request. *)
Definition attemptedFields (body : UpdateBody) : list string :=
  (if present (ub_passengers body) then ["passengers"] else [])
  ++ (if present (ub_seatNumbers body) then ["seatNumbers"] else [])
  ++ (if present (ub_departureDate body) then ["departureDate"] else [])
  ++ (if present (ub_returnDate body) then ["returnDate"] else [])
  ++ (if present (ub_route body) then ["route"] else [])
  ++ (if present (ub_bus body) then ["bus"] else [])
  ++ (if present (ub_status body) then ["status"] else [])
  ++ (if present (ub_paymentStatus body) then ["paymentStatus"] else [])
  ++ ub_otherKeys body.

(** A string taken from the request body, when it is truthy. *)
Definition truthy (field : option string) : option string :=
  match field with
  | Some text => if String.eqb text "" then None else Some text
  | None => None
  end.

(** [exports.updateBooking] (bookingController.js 392-516); the
    free-text [specialRequests] is one of the other keys. *)
Definition updateBooking (store : Store) (id : ObjectId) (body : UpdateBody)
           (user : User) : Store * response Booking.t :=
  match find (fun b => (Booking._id b =? id)%Z) (bookings store) with
  | None => (store, error 404 "Booking not found")
  | Some booking =>
      let isAdmin := String.eqb (role user) "admin" in
      let isOwner := (Booking.user booking =? userId user)%Z in
      if negb isAdmin && negb isOwner then
        (store, error 403 "You are not authorized to update this booking")
      else if String.eqb (Booking.status booking) "Completed"
              || String.eqb (Booking.status booking) "Cancelled" then
        (store, error 400
           ("Cannot update a booking with status: " ++ Booking.status booking))
      else
        let fieldsAllowedForUsers := ["passengers"; "specialRequests"; "seatNumbers"] in
        let unauthorizedFields :=
          filter (fun field => negb (includes fieldsAllowedForUsers field))
                 (attemptedFields body) in
        if negb isAdmin && (0 <? Z.of_nat (List.length unauthorizedFields))%Z then
          (store, error 403
             ("You are not authorized to update the following fields: "
              ++ String.concat ", " unauthorizedFields))
        else
          let booking :=
            match ub_passengers body with
            | Some passengers => Booking.set_passengers passengers booking
            | None => booking
            end in
          let booking :=
            if isAdmin then
              let booking :=
                match ub_departureDate body with
                | Some d => Booking.set_departureDate d booking
                | None => booking
                end in
              let booking :=
                match ub_returnDate body with
                | Some d => Booking.set_returnDate (Some d) booking
                | None => booking
                end in
              let booking :=
                match ub_route body with
                | Some r => Booking.set_route r booking
                | None => booking
                end in
              let booking :=
                match ub_bus body with
                | Some b => Booking.set_bus b booking
                | None => booking
                end in
              let booking :=
                match truthy (ub_status body) with
                | Some status => Booking.set_status status booking
                | None => booking
                end in
              let booking :=
                match truthy (ub_paymentStatus body) with
                | Some paymentStatus => Booking.set_paymentStatus paymentStatus booking
                | None => booking
                end in
              if present (ub_route body) || present (ub_passengers body) then
                match find (fun r => (Route._id r =? Booking.route booking)%Z)
                           (routes store) with
                | Some routeData =>
                    Booking.set_totalFare
                      (round2 (quoteTotalFare routeData (Booking.passengers booking)
                                 (Booking.bookingType booking)
                                 (Booking.promoCode booking)))
                      booking
                | None => booking
                end
              else booking
            else booking in
          (saveBooking booking store, success 200 booking)
  end.

Record StatusData := mkStatusData { sd_status : string }.

(** [exports.updateBookingStatus] (bookingController.js 523-609). *)
Definition updateBookingStatus (store : Store) (id : ObjectId) (status : string)
           (user : User) (now : Instant) : Store * response StatusData :=
  let validStatuses := ["Pending"; "Confirmed"; "Cancelled"; "Completed"; "No-Show"] in
  if negb (includes validStatuses status) then
    (store, error 400
       "Status must be one of: Pending, Confirmed, Cancelled, Completed, No-Show")
  else
    match find (fun b => (Booking._id b =? id)%Z) (bookings store) with
    | None => (store, error 404 "Booking not found")
    | Some booking =>
        if String.eqb (Booking.status booking) "Cancelled"
           && negb (String.eqb status "Cancelled") then
          (store, error 400 "Cannot change status of a cancelled booking")
        else if String.eqb (Booking.status booking) "Completed"
                && negb (String.eqb status "Completed") then
          (store, error 400 "Cannot change status of a completed booking")
        else
          let booking := Booking.set_status status booking in
          (saveBooking booking store, success 200 (mkStatusData (Booking.status booking)))
    end.

Record CancelData := mkCancelData {
  cd_refundAmount : Q;
  cd_refundPercentage : Q
}.

(** [exports.cancelBooking] (bookingController.js 616-724). *)
Definition cancelBooking (store : Store) (id : ObjectId) (user : User)
           (now : Instant) : Store * response CancelData :=
  match find (fun b => (Booking._id b =? id)%Z) (bookings store) with
  | None => (store, error 404 "Booking not found")
  | Some booking =>
      if String.eqb (Booking.status booking) "Cancelled" then
        (store, error 400 "Booking is already cancelled")
      else if String.eqb (Booking.status booking) "Completed" then
        (store, error 400 "Cannot cancel a completed booking")
      else
        let hoursToDepature :=
          inject_Z (Booking.departureDate booking - now) / msPerHour in
        let isAdmin := String.eqb (role user) "admin" in
        if Qlt_bool hoursToDepature 24 && negb isAdmin then
          (store, error 400
             "Bookings cannot be cancelled less than 24 hours before departure")
        else
          let '(refundAmount, refundPercentage) :=
            if String.eqb (Booking.paymentStatus booking) "Paid"
               || String.eqb (Booking.paymentStatus booking) "Partially Paid"
            then
              let refundPercentage :=
                if Qlt_bool 72 hoursToDepature then 1
                else if Qlt_bool 48 hoursToDepature then 3 # 4
                else if Qlt_bool 24 hoursToDepature then 1 # 2
                else if isAdmin then 1 # 2
                else 0 in
              let totalPaid := orElse (plainTotal (Booking.payments booking)) 0 in
              (round2 (totalPaid * refundPercentage), refundPercentage)
            else (0, 0) in
          let booking := Booking.set_status "Cancelled" booking in
          let booking := Booking.set_refundAmount refundAmount booking in
          (saveBooking booking store,
           success 200 (mkCancelData refundAmount refundPercentage))
  end.

Record PaymentBody := mkPaymentBody {
  pb_amount : Q;
  pb_paymentMethod : string;
  pb_transactionId : string
}.

Record PaymentReport := mkPaymentReport {
  rp_paymentStatus : string;
  rp_bookingStatus : string;
  rp_totalPaid : Q;
  rp_remainingBalance : Q
}.

(** [exports.processPayment] (bookingController.js 731-860); the simulated
    gateway always succeeds. *)
Definition processPayment (store : Store) (id : ObjectId) (body : PaymentBody)
           (user : User) (now : Instant) (rnd : string)
  : Store * response PaymentReport :=
  match find (fun b => (Booking._id b =? id)%Z) (bookings store) with
  | None => (store, error 404 "Booking not found")
  | Some booking =>
      if String.eqb (Booking.status booking) "Cancelled" then
        (store, error 400 "Cannot process payment for a cancelled booking")
      else if String.eqb (Booking.paymentStatus booking) "Paid" then
        (store, error 400 "Booking is already fully paid")
      else if Qle_bool (pb_amount body) 0 then
        (store, error 400 "Invalid payment amount")
      else
        let payment :=
          mkPayment (pb_amount body) now
            (if String.eqb (pb_paymentMethod body) "" then "Credit Card"
             else pb_paymentMethod body)
            (if String.eqb (pb_transactionId body) "" then "TXN-" ++ rnd
             else pb_transactionId body)
            "Completed" in
        let booking :=
          Booking.set_payments (Booking.payments booking ++ [payment]) booking in
        let totalPaid := plainTotal (Booking.payments booking) in
        let booking :=
          if Qle_bool (Booking.totalFare booking) totalPaid
          then Booking.set_paymentStatus "Paid" booking
          else Booking.set_paymentStatus "Partially Paid" booking in
        let booking :=
          if String.eqb (Booking.paymentStatus booking) "Paid"
             && String.eqb (Booking.status booking) "Pending"
          then Booking.set_status "Confirmed" booking else booking in
        (saveBooking booking store,
         success 200
           (mkPaymentReport (Booking.paymentStatus booking) (Booking.status booking)
              (plainTotal (Booking.payments booking))
              (Qmax 0 (Booking.totalFare booking
                       - plainTotal (Booking.payments booking)))))
  end.

End BookingController.

(** ** src/controllers/hiringController.js *)

Module HiringController.

Record CreateBody := mkCreateBody {
  bus : ObjectId;
  startDate : Instant;
  endDate : Instant;
  estimatedDistance : Q;
  numberOfPassengers : Q;
  additionalServices : list string
}.

(** The query of [createHiring] (hiringController.js 460-471): the bus,
    one of three window cases, and a status among Pending, Approved and
    Confirmed. *)
Definition conflictQuery (bus : ObjectId) (start end_ : Instant) (h : Hiring.t) : bool :=
  (Hiring.bus h =? bus)%Z
  && (within start end_ (Hiring.startDate h)
      || within start end_ (Hiring.endDate h)
      || ((Hiring.startDate h <=? start)%Z && (end_ <=? Hiring.endDate h)%Z))
  && includes ["Pending"; "Approved"; "Confirmed"] (Hiring.status h).

(** The reducer over [additionalServices] (hiringController.js 501-514). *)
Definition servicesCost (durationDays numberOfPassengers : Q)
           (additionalServices : list string) : Q :=
  fold_left
    (fun sum service =>
       if String.eqb service "driver" then sum + durationDays * 150
       else if String.eqb service "food"
            then sum + numberOfPassengers * durationDays * 50
       else if String.eqb service "guide" then sum + durationDays * 200
       else if String.eqb service "wifi" then sum + 100
       else sum)
    additionalServices 0.

(** The price of [createHiring] before rounding (hiringController.js
    484-517); [updateHiring] has the same lines (685-717), reading the
    stored hiring. *)
Definition quoteTotalFare (busData : Bus) (start end_ : Instant)
           (estimatedDistance numberOfPassengers : Q)
           (additionalServices : list string) : Q :=
  let durationDays := ceil (inject_Z (end_ - start) / msPerDay) in
  let baseDailyRate :=
    match hiringRates busData with
    | Some rates => orElse (dailyRate rates) 500
    | None => 500
    end in
  let distanceBasedPrice :=
    if Qeq_bool estimatedDistance 0 then 0
    else
      let ratePerKm :=
        match hiringRates busData with
        | Some rates => orElse (perKilometer rates) 5
        | None => 5
        end in
      estimatedDistance * ratePerKm in
  let baseTimeFare := durationDays * baseDailyRate in
  let totalFare := Qmax baseTimeFare distanceBasedPrice in
  if (0 <? Z.of_nat (List.length additionalServices))%Z
  then totalFare + servicesCost durationDays numberOfPassengers additionalServices
  else totalFare.

(** [exports.createHiring] (hiringController.js 424-556).  The new
    document carries the controller's fields; the fields it does not set
    take the schema defaults (and 0 where the schema has none). *)
Definition createHiring (store : Store) (body : CreateBody) (user : User)
           (newId : ObjectId) (rnd : string) : Store * response Hiring.t :=
  match find (fun b => (bus_id b =? bus body)%Z) (buses store) with
  | None => (store, error 400 "Bus not found")
  | Some busData =>
      let start := startDate body in
      let end_ := endDate body in
      let existingHirings :=
        filter (conflictQuery (bus body) start end_) (hirings store) in
      if (0 <? Z.of_nat (List.length existingHirings))%Z then
        (store, error 400 "Bus is not available for the selected date range")
      else
        let totalFare :=
          quoteTotalFare busData start end_ (estimatedDistance body)
                         (numberOfPassengers body) (additionalServices body) in
        let newHiring :=
          Hiring.mk newId ("HIR-" ++ rnd) "Pending" (numberOfPassengers body)
            (startDate body) (endDate body) false (estimatedDistance body)
            0 "Per Day" [] (additionalServices body) 0 0 0 (round2 totalFare) 0
            "Unpaid" [] (userId user) (bus body) "Standard" 0 in
        (insertHiring newHiring store, success 201 newHiring)
  end.

Record UpdateBody := mkUpdateBody {
  ub_numberOfPassengers : Q;
  ub_additionalServices : option (list string);
  ub_startDate : option Instant;
  ub_endDate : option Instant;
  ub_bus : option ObjectId
}.

(** [exports.updateHiring] (hiringController.js 563-756).  The text
    fields (purpose, destination, special requests) are left out.  When
    the price is recomputed and the hiring's bus is not in the store,
    [busData.hiringRates] raises a TypeError that the handler answers with
    500. *)
Definition updateHiring (store : Store) (id : ObjectId) (body : UpdateBody)
           (user : User) : Store * response Hiring.t :=
  match find (fun h => (Hiring._id h =? id)%Z) (hirings store) with
  | None => (store, error 404 "Hiring request not found")
  | Some hiring =>
      let isAdmin := String.eqb (role user) "admin" in
      let isOwner := (Hiring.user hiring =? userId user)%Z in
      if negb isAdmin && negb isOwner then
        (store, error 403 "You are not authorized to update this hiring request")
      else if includes ["Completed"; "Cancelled"; "Rejected"] (Hiring.status hiring) then
        (store, error 400
           ("Cannot update a hiring request with status: " ++ Hiring.status hiring))
      else if negb isAdmin && negb (String.eqb (Hiring.status hiring) "Pending") then
        (store, error 403 "You can only update pending hiring requests")
      else
        let hiring :=
          if Qeq_bool (ub_numberOfPassengers body) 0 then hiring
          else Hiring.set_numberOfPassengers (ub_numberOfPassengers body) hiring in
        if negb isAdmin then (saveHiring hiring store, success 200 hiring)
        else
          let hiring :=
            match ub_additionalServices body with
            | Some services => Hiring.set_additionalServices services hiring
            | None => hiring
            end in
          let hiring :=
            match ub_startDate body with
            | Some d => Hiring.set_startDate d hiring
            | None => hiring
            end in
          let hiring :=
            match ub_endDate body with
            | Some d => Hiring.set_endDate d hiring
            | None => hiring
            end in
          let recalculatePrice :=
            present (ub_startDate body) || present (ub_endDate body) in
          let busChange : Hiring.t * bool + string :=
            match ub_bus body with
            | Some bus =>
                if (bus =? Hiring.bus hiring)%Z then inl (hiring, recalculatePrice)
                else
                  match find (fun b => (bus_id b =? bus)%Z) (buses store) with
                  | None => inr "Bus not found"
                  | Some _ =>
                      let existingHirings :=
                        filter (fun h =>
                                  negb (Hiring._id h =? id)%Z
                                  && conflictQuery bus (Hiring.startDate hiring)
                                                   (Hiring.endDate hiring) h)
                               (hirings store) in
                      if (0 <? Z.of_nat (List.length existingHirings))%Z then
                        inr "Selected bus is not available for the date range"
                      else inl (Hiring.set_bus bus hiring, true)
                  end
            | None => inl (hiring, recalculatePrice)
            end in
          match busChange with
          | inr message => (store, error 400 message)
          | inl (hiring, recalculatePrice) =>
              if recalculatePrice then
                match find (fun b => (bus_id b =? Hiring.bus hiring)%Z)
                           (buses store) with
                | None => (store, error 500 "Server error while updating hiring request")
                | Some busData =>
                    let hiring :=
                      Hiring.set_totalFare
                        (round2 (quoteTotalFare busData (Hiring.startDate hiring)
                                   (Hiring.endDate hiring)
                                   (Hiring.estimatedDistance hiring)
                                   (Hiring.numberOfPassengers hiring)
                                   (Hiring.additionalServices hiring)))
                        hiring in
                    let totalPaid := orElse (plainTotal (Hiring.payments hiring)) 0 in
                    let hiring :=
                      if Qle_bool (Hiring.totalFare hiring) totalPaid
                      then Hiring.set_paymentStatus "Paid" hiring
                      else if Qlt_bool 0 totalPaid
                           then Hiring.set_paymentStatus "Partially Paid" hiring
                           else Hiring.set_paymentStatus "Unpaid" hiring in
                    (saveHiring hiring store, success 200 hiring)
                end
              else (saveHiring hiring store, success 200 hiring)
          end
  end.

Record StatusData := mkStatusData { sd_status : string }.

(** [exports.updateHiringStatus] (hiringController.js 763-852). *)
Definition updateHiringStatus (store : Store) (id : ObjectId) (status : string)
           (user : User) (now : Instant) (rnd : string)
  : Store * response StatusData :=
  let validStatuses :=
    ["Pending"; "Approved"; "Confirmed"; "In Progress"; "Completed";
     "Cancelled"; "Rejected"] in
  if negb (includes validStatuses status) then
    (store, error 400
       "Status must be one of: Pending, Approved, Confirmed, In Progress, Completed, Cancelled, Rejected")
  else
    match find (fun h => (Hiring._id h =? id)%Z) (hirings store) with
    | None => (store, error 404 "Hiring request not found")
    | Some hiring =>
        if includes ["Cancelled"; "Completed"; "Rejected"] (Hiring.status hiring) then
          (store, error 400
             ("Cannot change status of a hiring request that is "
              ++ toLowerCase (Hiring.status hiring)))
        else
          let hiring := Hiring.set_status status hiring in
          let hiring :=
            if String.eqb status "Cancelled" then
              match Hiring.handleCancellation hiring now rnd with
              | Returned (hiring, cancellationResult) =>
                  Hiring.set_refundAmount
                    (Hiring.cr_refundAmount cancellationResult) hiring
              | Thrown _ => hiring
              end
            else hiring in
          (saveHiring hiring store, success 200 (mkStatusData (Hiring.status hiring)))
    end.

Record CancelData := mkCancelData {
  cd_refundAmount : Q;
  cd_refundPercentage : Q
}.

(** [exports.cancelHiring] (hiringController.js 859-960). *)
Definition cancelHiring (store : Store) (id : ObjectId) (user : User)
           (now : Instant) (rnd : string) : Store * response CancelData :=
  match find (fun h => (Hiring._id h =? id)%Z) (hirings store) with
  | None => (store, error 404 "Hiring request not found")
  | Some hiring =>
      if String.eqb (Hiring.status hiring) "Cancelled" then
        (store, error 400 "Hiring request is already cancelled")
      else if includes ["Completed"; "Rejected"] (Hiring.status hiring) then
        (store, error 400
           ("Cannot cancel a " ++ toLowerCase (Hiring.status hiring)
            ++ " hiring request"))
      else
        let daysToStart := inject_Z (Hiring.startDate hiring - now) / msPerDay in
        let isAdmin := String.eqb (role user) "admin" in
        if Qlt_bool daysToStart 1 && negb isAdmin then
          (store, error 400
             "Hiring requests cannot be cancelled less than 24 hours before start date")
        else
          match Hiring.handleCancellation hiring now rnd with
          | Thrown _ => (store, error 500 "Error processing cancellation")
          | Returned (hiring, cancellationResult) =>
              let hiring := Hiring.set_status "Cancelled" hiring in
              (saveHiring hiring store,
               success 200
                 (mkCancelData (Hiring.cr_refundAmount cancellationResult)
                               (Hiring.cr_refundPercentage cancellationResult)))
          end
  end.

Record PaymentBody := mkPaymentBody {
  pb_amount : Q;
  pb_paymentMethod : string;
  pb_transactionId : string
}.

Record PaymentReport := mkPaymentReport {
  rp_paymentStatus : string;
  rp_hiringStatus : string;
  rp_totalPaid : Q;
  rp_remainingBalance : Q
}.

(** [exports.processPayment] (hiringController.js 967-1065). *)
Definition processPayment (store : Store) (id : ObjectId) (body : PaymentBody)
           (user : User) (now : Instant) (rnd : string)
  : Store * response PaymentReport :=
  match find (fun h => (Hiring._id h =? id)%Z) (hirings store) with
  | None => (store, error 404 "Hiring request not found")
  | Some hiring =>
      if includes ["Cancelled"; "Rejected"] (Hiring.status hiring) then
        (store, error 400
           ("Cannot process payment for a " ++ toLowerCase (Hiring.status hiring)
            ++ " hiring request"))
      else if String.eqb (Hiring.paymentStatus hiring) "Paid" then
        (store, error 400 "Hiring request is already fully paid")
      else if Qle_bool (pb_amount body) 0 then
        (store, error 400 "Invalid payment amount")
      else
        let paymentData :=
          Hiring.mkPaymentData (pb_amount body)
            (if String.eqb (pb_paymentMethod body) "" then "Credit Card"
             else pb_paymentMethod body)
            (if String.eqb (pb_transactionId body) "" then "TXN-" ++ rnd
             else pb_transactionId body) in
        match Hiring.processPayment hiring paymentData now rnd with
        | Thrown _ => (store, error 500 "Error processing payment")
        | Returned (hiring, paymentResult) =>
            (saveHiring hiring store,
             success 200
               (mkPaymentReport (Hiring.paymentStatus hiring) (Hiring.status hiring)
                  (Hiring.totalPaid hiring) (Hiring.remainingBalance hiring)))
        end
  end.

(** [exports.approveHiring] (hiringController.js 1120-1189). *)
Definition approveHiring (store : Store) (id : ObjectId) (user : User)
           (now : Instant) : Store * response StatusData :=
  match find (fun h => (Hiring._id h =? id)%Z) (hirings store) with
  | None => (store, error 404 "Hiring request not found")
  | Some hiring =>
      if negb (String.eqb (Hiring.status hiring) "Pending") then
        (store, error 400
           ("Only pending hiring requests can be approved. Current status: "
            ++ Hiring.status hiring))
      else
        let hiring := Hiring.set_status "Approved" hiring in
        (saveHiring hiring store, success 200 (mkStatusData (Hiring.status hiring)))
  end.

(** [exports.rejectHiring] (hiringController.js 1196-1296). *)
Definition rejectHiring (store : Store) (id : ObjectId) (reason : string)
           (user : User) (now : Instant) (rnd : string)
  : Store * response StatusData :=
  if String.eqb reason "" then (store, error 400 "Rejection reason is required")
  else
    match find (fun h => (Hiring._id h =? id)%Z) (hirings store) with
    | None => (store, error 404 "Hiring request not found")
    | Some hiring =>
        if negb (String.eqb (Hiring.status hiring) "Pending") then
          (store, error 400
             ("Only pending hiring requests can be rejected. Current status: "
              ++ Hiring.status hiring))
        else
          let hiring := Hiring.set_status "Rejected" hiring in
          let totalPaid := orElse (completedTotal (Hiring.payments hiring)) 0 in
          let hiring :=
            if Qlt_bool 0 totalPaid then
              Hiring.set_paymentStatus "Refunded"
                (Hiring.set_payments
                   (Hiring.payments hiring ++
                      [mkPayment (- totalPaid) now "Refund" ("REF-" ++ rnd)
                                 "Completed"])
                   hiring)
            else hiring in
          (saveHiring hiring store, success 200 (mkStatusData (Hiring.status hiring)))
    end.

End HiringController.

(** ** Requests

    The endpoints of the two controllers that write to the store, as one
    type of requests, and the store after a sequence of them.  (The
    notification and contract endpoints also save the document, but write
    only fields that the model leaves out.) *)

Inductive request : Type :=
| CreateBooking (body : BookingController.CreateBody) (user : User)
                (newId : ObjectId) (rnd : string)
| UpdateBooking (id : ObjectId) (body : BookingController.UpdateBody) (user : User)
| UpdateBookingStatus (id : ObjectId) (status : string) (user : User) (now : Instant)
| CancelBooking (id : ObjectId) (user : User) (now : Instant)
| PayBooking (id : ObjectId) (body : BookingController.PaymentBody) (user : User)
             (now : Instant) (rnd : string)
| CreateHiring (body : HiringController.CreateBody) (user : User)
               (newId : ObjectId) (rnd : string)
| UpdateHiring (id : ObjectId) (body : HiringController.UpdateBody) (user : User)
| UpdateHiringStatus (id : ObjectId) (status : string) (user : User)
                     (now : Instant) (rnd : string)
| CancelHiring (id : ObjectId) (user : User) (now : Instant) (rnd : string)
| PayHiring (id : ObjectId) (body : HiringController.PaymentBody) (user : User)
            (now : Instant) (rnd : string)
| ApproveHiring (id : ObjectId) (user : User) (now : Instant)
| RejectHiring (id : ObjectId) (reason : string) (user : User) (now : Instant)
               (rnd : string).

Definition handle (store : Store) (r : request) : Store :=
  match r with
  | CreateBooking body user newId rnd =>
      fst (BookingController.createBooking store body user newId rnd)
  | UpdateBooking id body user =>
      fst (BookingController.updateBooking store id body user)
  | UpdateBookingStatus id status user now =>
      fst (BookingController.updateBookingStatus store id status user now)
  | CancelBooking id user now =>
      fst (BookingController.cancelBooking store id user now)
  | PayBooking id body user now rnd =>
      fst (BookingController.processPayment store id body user now rnd)
  | CreateHiring body user newId rnd =>
      fst (HiringController.createHiring store body user newId rnd)
  | UpdateHiring id body user =>
      fst (HiringController.updateHiring store id body user)
  | UpdateHiringStatus id status user now rnd =>
      fst (HiringController.updateHiringStatus store id status user now rnd)
  | CancelHiring id user now rnd =>
      fst (HiringController.cancelHiring store id user now rnd)
  | PayHiring id body user now rnd =>
      fst (HiringController.processPayment store id body user now rnd)
  | ApproveHiring id user now =>
      fst (HiringController.approveHiring store id user now)
  | RejectHiring id reason user now rnd =>
      fst (HiringController.rejectHiring store id reason user now rnd)
  end.

Definition run (store : Store) (requests : list request) : Store :=
  fold_left handle requests store.

(** The statuses that the controllers guard against change. *)
Definition guardedBookingStatuses : list string := ["Cancelled"; "Completed"].
Definition guardedHiringStatuses : list string := ["Cancelled"; "Completed"; "Rejected"].

(** ** How a request changes a stored reservation *)

(** A ledger entry that is a completed payment of a positive amount. *)
Definition positiveEntry (p : Payment) : Prop :=
  0 < amount p /\ pstatus p = "Completed".

(** A ledger entry whose status is Completed. *)
Definition completedEntry (p : Payment) : Prop := pstatus p = "Completed".

(** [new] replaces [old]: same id, the status is kept when it is a guarded
    one, and the ledger has only grown by completed entries. *)
Definition bookingStep (old new : Booking.t) : Prop :=
  Booking._id new = Booking._id old
  /\ (includes guardedBookingStatuses (Booking.status old) = true ->
      Booking.status new = Booking.status old)
  /\ exists extra,
      Booking.payments new = (Booking.payments old ++ extra)%list
      /\ Forall completedEntry extra.

(** [new] replaces [old]: same id and deposit, the status is kept when it
    is a guarded one, and either the hiring ends up Cancelled or Rejected
    or its ledger has only grown by positive completed payments. *)
Definition hiringStep (old new : Hiring.t) : Prop :=
  Hiring._id new = Hiring._id old
  /\ Hiring.deposit new = Hiring.deposit old
  /\ (includes guardedHiringStatuses (Hiring.status old) = true ->
      Hiring.status new = Hiring.status old)
  /\ (includes ["Cancelled"; "Rejected"] (Hiring.status new) = true
      \/ exists extra,
          Hiring.payments new = (Hiring.payments old ++ extra)%list
          /\ Forall positiveEntry extra).

(** What one request can do to the store: nothing, insert a fresh booking
    or a fresh hiring, or replace one stored document by a step of it. *)
Definition effect (store store' : Store) : Prop :=
  store' = store
  \/ (exists b, store' = insertBooking b store /\ Booking.payments b = [])
  \/ (exists h, store' = insertHiring h store
                /\ Hiring.status h = "Pending"
                /\ Hiring.deposit h = 0
                /\ Hiring.payments h = [])
  \/ (exists old new,
         find (fun b => (Booking._id b =? Booking._id new)%Z) (bookings store) = Some old
         /\ store' = saveBooking new store
         /\ bookingStep old new)
  \/ (exists old new,
         find (fun h => (Hiring._id h =? Hiring._id new)%Z) (hirings store) = Some old
         /\ store' = saveHiring new store
         /\ hiringStep old new).


(** ** The specification's vocabulary *)

(** Overlap of two windows as the specification defines it:
    [s1 <= e2 AND s2 <= e1]. *)
Definition overlaps (s1 e1 s2 e2 : Instant) : bool :=
  ((s1 <=? e2) && (s2 <=? e1))%Z.

(** The statuses the specification calls live. *)
Definition liveStatuses : list string :=
  ["Pending"; "Confirmed"; "Approved"; "In Progress"].











(** The seat-booking refund table of the specification, by hours left. *)
Definition specRefundFraction (t : Q) : Q :=
  if Qlt_bool 72 t then 1
  else if Qlt_bool 48 t then 3 # 4
  else if Qlt_bool 24 t then 1 # 2
  else if Qlt_bool 12 t then 1 # 4
  else 0.

(** The four rate types of the schema. *)
Definition knownRateTypes : list string :=
  ["Per Day"; "Per Hour"; "Per Kilometer"; "Fixed"].

(** ** Concrete scenarios *)

Module Scenario.

Local Open Scope Z_scope.

Definition day : Z := 86400000.
Definition hour : Z := 3600000.

(** The instant [n] days after the epoch. *)
Definition atDay (n : Z) : Instant := n * day.

Definition owner : User := mkUser 7 "user".
Definition admin : User := mkUser 1 "admin".

Definition bus1 : Bus := mkBus 1 "BUS-1" "Active" 40 None.

(** A route with base fare 100 and weekend multiplier 1.2. *)
Definition route1 : Route.t :=
  Route.mk 1 [] 100 1 (12 # 10) (12 # 10) 1 (1 # 2) (3 # 10).

Definition adult : Booking.Passenger := Booking.mkPassenger "A" 30 "1A" "Adult".

Definition storeOf (bs : list Booking.t) (hs : list Hiring.t) : Store :=
  mkStore bs hs [bus1] [route1].

(** A hiring of bus 1 at 500 per day, with the given id, status, policy,
    window, total and ledger. *)
Definition hiringOf (id : ObjectId) (status policy : string)
           (start end_ : Instant) (total : Q) (ledger : list Payment) : Hiring.t :=
  Hiring.mk id "HIR-0001" status 20 start end_ false 120 500 "Per Day" [] [] 0 0
    total total 0 "Pending" ledger 7 1 policy 0.

(** A one-way booking of bus 1 departing on day 10, with the given id,
    status, payment status, total and ledger. *)
Definition bookingOf (id : ObjectId) (status paymentStatus : string)
           (total : Q) (ledger : list Payment) : Booking.t :=
  Booking.mk id "BK-0001" "One-Way" status [adult] ["1A"] 1 1 (10 * day) None
    total paymentStatus ledger None 7 None 0 0.

Definition bookingBody (departure : Instant) (ret : option Instant)
           (bookingType : string) : BookingController.CreateBody :=
  BookingController.mkCreateBody 1 1 departure ret bookingType [] [adult] None.

Definition hiringBody (start end_ : Instant) : HiringController.CreateBody :=
  HiringController.mkCreateBody 1 start end_ 0 20 [].

(** Bus 1 is hired, and the hiring confirmed, from day 10 to day 13. *)
Definition outerHiring : Hiring.t :=
  hiringOf 1 "Confirmed" "Standard" (10 * day) (13 * day) 1500 [].
Definition hiredStore : Store := storeOf [] [outerHiring].

(** A hiring request for bus 1 from day 11 to day 12. *)
Definition innerHiring : Hiring.t :=
  hiringOf 2 "Pending" "Standard" (11 * day) (12 * day) 500 [].

(** Bus 1 has a pending booking departing on day 10. *)
Definition pendingBooking : Booking.t := bookingOf 1 "Pending" "Pending" 100 [].
Definition bookedStore : Store := storeOf [pendingBooking] [].

(** A confirmed booking of 200, fully paid. *)
Definition fullPayment : Payment := mkPayment 200 0 "Cash" "TXN-0001" "Completed".
Definition paidBooking : Booking.t := bookingOf 1 "Confirmed" "Paid" 200 [fullPayment].
Definition paidStore : Store := storeOf [paidBooking] [].

(** The same booking marked No-Show. *)
Definition noShowBooking : Booking.t := bookingOf 1 "No-Show" "Paid" 200 [fullPayment].
Definition noShowStore : Store := storeOf [noShowBooking] [].

(** The same booking cancelled, and a cancelled hiring. *)
Definition cancelledBooking : Booking.t :=
  bookingOf 1 "Cancelled" "Paid" 200 [fullPayment].
Definition cancelledStore : Store :=
  storeOf [cancelledBooking]
          [hiringOf 1 "Cancelled" "Standard" (10 * day) (13 * day) 1500 []].

(** Bus 1 has a confirmed round trip leaving on day 10 and returning on
    day 13. *)
Definition roundTripBooking : Booking.t :=
  Booking.mk 2 "BK-0002" "Round-Trip" "Confirmed" [adult] ["1A"] 1 1 (10 * day)
    (Some (13 * day)) 180 "Pending" [] None 7 None 0 0.


(** A refunded booking and a refunded hiring. *)
Definition refundedStore : Store :=
  storeOf [bookingOf 1 "Refunded" "Refunded" 200 [fullPayment]]
          [hiringOf 1 "Refunded" "Standard" (10 * day) (13 * day) 1500 []].

(** A hiring whose rate type is none of the schema's four. *)
Definition weeklyHiring : Hiring.t := Hiring.set_rateType "Per Week" innerHiring.

(** A pending hiring of 200 under the Flexible policy, nothing paid. *)
Definition flexibleHiring : Hiring.t :=
  hiringOf 3 "Pending" "Flexible" (10 * day) (13 * day) 200 [].

(** Saturday 3 January 1970, 12:00 UTC. *)
Definition saturdayNoon : Instant := 2 * day + 12 * hour.

(** Requests aimed at the cancelled booking and the cancelled hiring. *)
Definition requestsOnCancelled : list request :=
  [UpdateBookingStatus 1 "Confirmed" admin (atDay 2);
   PayBooking 1 (BookingController.mkPaymentBody 50 "Cash" "TXN-0005") owner
              (atDay 2) "0A1B2C3D";
   UpdateHiringStatus 1 "Confirmed" admin (atDay 2) "0A1B2C3D";
   ApproveHiring 1 admin (atDay 3)].



End Scenario.

(** ** Further methods and virtuals of the Hiring model *)

Module HiringMethods.

(** Virtual [durationDays] (Hiring.js 561-566). *)
Definition durationDays (this : Hiring.t) : Q :=
  let durationInMs := (Hiring.endDate this - Hiring.startDate this)%Z in
  ceil (inject_Z durationInMs / msPerDay).

(** Virtual [durationHours] (Hiring.js 569-574). *)
Definition durationHours (this : Hiring.t) : Q :=
  let durationInMs := (Hiring.endDate this - Hiring.startDate this)%Z in
  ceil (inject_Z durationInMs / msPerHour).

Record StatusChange := mkStatusChange { oldStatus : string; newStatus : string }.

(** [HiringSchema.methods.updateStatus] (Hiring.js 355-388). *)
Definition updateStatus (this : Hiring.t) (newStatus : string) (now : Instant)
           (rnd : string) : outcome (Hiring.t * StatusChange) :=
  let validStatuses :=
    ["Pending"; "Confirmed"; "Cancelled"; "In Progress"; "Completed"; "Refunded"] in
  if negb (includes validStatuses newStatus)
  then Thrown ("Invalid status: " ++ newStatus)
  else
    let oldStatus := Hiring.status this in
    let this := Hiring.set_status newStatus this in
    if String.eqb newStatus "Cancelled" || String.eqb newStatus "Refunded" then
      match Hiring.handleCancellation this now rnd with
      | Thrown m => Thrown m
      | Returned (this, _) => Returned (this, mkStatusChange oldStatus newStatus)
      end
    else Returned (this, mkStatusChange oldStatus newStatus).

End HiringMethods.

(** ** The availability method of the Bus model (src/models/Bus.js) *)

Module BusModel.

(** The Booking query of [isAvailable] (Bus.js 114-121). *)
Definition bookingQuery (this : Bus) (startDate endDate : Instant) (b : Booking.t)
  : bool :=
  (Booking.bus b =? bus_id this)%Z
  && (within startDate endDate (Booking.departureDate b)
      || onField (within startDate endDate) (Booking.returnDate b))
  && includes ["Confirmed"; "Pending"] (Booking.status b).

(** The Hiring query of [isAvailable] (Bus.js 124-131). *)
Definition hiringQuery (this : Bus) (startDate endDate : Instant) (h : Hiring.t)
  : bool :=
  (Hiring.bus h =? bus_id this)%Z
  && (within startDate endDate (Hiring.startDate h)
      || within startDate endDate (Hiring.endDate h))
  && includes ["Confirmed"; "Pending"] (Hiring.status h).

(** [BusSchema.methods.isAvailable] (Bus.js 109-134). *)
Definition isAvailable (store : Store) (this : Bus) (startDate endDate : Instant)
  : bool :=
  let bookings := filter (bookingQuery this startDate endDate) (bookings store) in
  let hirings := filter (hiringQuery this startDate endDate) (hirings store) in
  (Z.of_nat (List.length bookings) =? 0)%Z && (Z.of_nat (List.length hirings) =? 0)%Z.

End BusModel.

(** ** src/controllers/busController.js *)

Module BusController.

(** The body of the 200 answer of [checkBusAvailability]: for a bus that
    is not Active the reason alone, otherwise the verdict with the bus and
    the conflicting documents (of which the answer echoes the number and
    the two dates). *)
Inductive AvailabilityReport : Type :=
| NotInService (reason : string)
| Checked (available : bool) (bus : Bus)
          (conflictingBookings : list Booking.t) (conflictingHirings : list Hiring.t).

Definition bookingQuery (bus : Bus) (start end_ : Instant) (b : Booking.t) : bool :=
  (Booking.bus b =? bus_id bus)%Z
  && (within start end_ (Booking.departureDate b)
      || onField (within start end_) (Booking.returnDate b))
  && includes ["Confirmed"; "Pending"] (Booking.status b).

Definition hiringQuery (bus : Bus) (start end_ : Instant) (h : Hiring.t) : bool :=
  (Hiring.bus h =? bus_id bus)%Z
  && (within start end_ (Hiring.startDate h) || within start end_ (Hiring.endDate h))
  && includes ["Confirmed"; "Pending"; "In Progress"] (Hiring.status h).

(** [exports.checkBusAvailability] (busController.js 300-406).  A query
    parameter is [None] when it is missing and otherwise the date its text
    parses to. *)
Definition checkBusAvailability (store : Store) (id : ObjectId)
           (startDate endDate : option Instant) : response AvailabilityReport :=
  match startDate, endDate with
  | Some start, Some end_ =>
      match find (fun b => (bus_id b =? id)%Z) (buses store) with
      | None => error 404 "Bus not found"
      | Some bus =>
          if negb (String.eqb (busStatus bus) "Active") then
            success 200 (NotInService ("Bus is " ++ toLowerCase (busStatus bus)))
          else if (end_ <? start)%Z then
            error 400 "Start date must be before end date"
          else
            let bookings := filter (bookingQuery bus start end_) (bookings store) in
            let hirings := filter (hiringQuery bus start end_) (hirings store) in
            let isAvailable :=
              (Z.of_nat (List.length bookings) =? 0)%Z
              && (Z.of_nat (List.length hirings) =? 0)%Z in
            success 200
              (Checked isAvailable bus
                 (if isAvailable then [] else bookings)
                 (if isAvailable then [] else hirings))
      end
  | _, _ => error 400 "Please provide startDate and endDate parameters"
  end.

(** [Bus.findByIdAndDelete]: the first document with the id is removed. *)
Fixpoint deleteById (id : ObjectId) (l : list Bus) : list Bus :=
  match l with
  | [] => []
  | b :: rest => if (bus_id b =? id)%Z then rest else b :: deleteById id rest
  end.

(** The store after [Bus.findByIdAndDelete(id)]. *)
Definition removeBus (id : ObjectId) (store : Store) : Store :=
  mkStore (bookings store) (hirings store) (deleteById id (buses store))
          (routes store).

(** [exports.deleteBus] (busController.js 244-295). *)
Definition deleteBus (store : Store) (id : ObjectId) : Store * response unit :=
  let bookings :=
    filter (fun b => (Booking.bus b =? id)%Z
                     && includes ["Pending"; "Confirmed"] (Booking.status b))
           (bookings store) in
  if (0 <? Z.of_nat (List.length bookings))%Z then
    (store, error 400 "Cannot delete bus with active bookings")
  else
    let hirings :=
      filter (fun h => (Hiring.bus h =? id)%Z
                       && includes ["Pending"; "Confirmed"; "In Progress"]
                                   (Hiring.status h))
             (hirings store) in
    if (0 <? Z.of_nat (List.length hirings))%Z then
      (store, error 400 "Cannot delete bus with active hirings")
    else
      match find (fun b => (bus_id b =? id)%Z) (buses store) with
      | None => (store, error 404 "Bus not found")
      | Some _ =>
          (removeBus id store, success 200 tt)
      end.

End BusController.

(** ** The availability endpoint of src/controllers/hiringController.js *)

Module HiringSearch.

(** A date taken from the query string: missing (or empty), a text that
    [new Date] cannot read, or a date. *)
Inductive DateParam : Type :=
| Missing
| Unparsable
| Parsed (d : Instant).

Record Query := mkQuery {
  q_startDate : DateParam;
  q_endDate : DateParam;
  q_busType : option string;
  q_seats : option Z
}.

Record Data := mkData {
  available : bool;
  availableBuses : list Bus;
  totalAvailable : Z;
  totalUnavailable : Z
}.

Section BusType.

(** The [type] field of a Bus document, which the record [Bus] leaves
    out. *)
Variable type : Bus -> string.

(** [busQuery] (hiringController.js 332-334); [q_seats] holds
    [parseInt(seats)] when the parameter is given. *)
Definition busQuery (query : Query) (b : Bus) : bool :=
  match BookingController.truthy (q_busType query) with
  | Some busType => String.eqb (type b) busType
  | None => true
  end
  && match q_seats query with
     | Some seats => (seats <=? capacity b)%Z
     | None => true
     end.

(** The Hiring query of [checkAvailability] (hiringController.js 350-361). *)
Definition hiringQuery (busIds : list ObjectId) (start end_ : Instant) (h : Hiring.t)
  : bool :=
  existsb (Z.eqb (Hiring.bus h)) busIds
  && (within start end_ (Hiring.startDate h)
      || within start end_ (Hiring.endDate h)
      || ((Hiring.startDate h <=? start)%Z && (end_ <=? Hiring.endDate h)%Z))
  && includes ["Pending"; "Approved"; "Confirmed"] (Hiring.status h).

(** [exports.checkAvailability] (hiringController.js 297-385). *)
Definition checkAvailability (store : Store) (query : Query) : response Data :=
  match q_startDate query, q_endDate query with
  | Missing, _ | _, Missing => error 400 "Start date and end date are required"
  | Unparsable, _ | _, Unparsable => error 400 "Invalid date format"
  | Parsed start, Parsed end_ =>
      if (end_ <? start)%Z then error 400 "Start date must be before end date"
      else
        let buses := filter (busQuery query) (buses store) in
        if (Z.of_nat (List.length buses) =? 0)%Z then
          error 404 "No buses found matching your criteria"
        else
          let busIds := map bus_id buses in
          let existingHirings :=
            filter (hiringQuery busIds start end_) (hirings store) in
          let unavailableBusIds := map Hiring.bus existingHirings in
          let availableBuses :=
            filter (fun bus => negb (existsb (Z.eqb (bus_id bus)) unavailableBusIds))
                   buses in
          success 200
            (mkData (0 <? Z.of_nat (List.length availableBuses))%Z
                    availableBuses
                    (Z.of_nat (List.length availableBuses))
                    (Z.of_nat (List.length unavailableBusIds)))
  end.

End BusType.

End HiringSearch.

(** ** Schedule and seats of a route (second part of src/models/Booking.js) *)

Module RouteSchedule.

(** A Route document with the fields that the availability and schedule
    methods read besides the fare fields. *)
Record t := mk {
  fares : Route.t;
  operatingDays : list string;
  bus : ObjectId;
  departureTime : string;
  arrivalTime : string
}.

(** [d.toLocaleString('en-us', { weekday: 'long' })], with UTC as the
    local zone. *)
Definition weekday (d : Instant) : string :=
  nth (Z.to_nat (Booking.getDay d))
      ["Sunday"; "Monday"; "Tuesday"; "Wednesday"; "Thursday"; "Friday"; "Saturday"]
      "".

(** What [checkAvailability] returns: a refusal with its reason, or the
    seat count. *)
Inductive Availability : Type :=
| Unavailable (reason : string)
| Seats (available : bool) (availableSeats totalCapacity bookedSeats : Z).

(** The Booking query of [checkAvailability] (Booking.js 637-641). *)
Definition bookingQuery (this : t) (date : Instant) (b : Booking.t) : bool :=
  (Booking.route b =? Route._id (fares this))%Z
  && (Booking.departureDate b =? date)%Z
  && includes ["Confirmed"; "Pending"] (Booking.status b).

(** [RouteSchema.methods.checkAvailability] (Booking.js 605-658). *)
Definition checkAvailability (store : Store) (this : t) (date : Instant)
  : Availability :=
  let dayOfWeek := weekday date in
  if negb (includes (operatingDays this) dayOfWeek) then
    Unavailable "Route does not operate on this day"
  else
    match find (fun b => (bus_id b =? bus this)%Z) (buses store) with
    | None => Unavailable "Bus not found"
    | Some bus =>
        if negb (String.eqb (busStatus bus) "Active") then
          Unavailable ("Bus is " ++ toLowerCase (busStatus bus))
        else
          let bookings := filter (bookingQuery this date) (bookings store) in
          let bookedSeats :=
            fold_left
              (fun bookedSeats booking =>
                 (bookedSeats + Z.of_nat (List.length (Booking.passengers booking)))%Z)
              bookings 0%Z in
          let availableSeats := (capacity bus - bookedSeats)%Z in
          Seats (0 <? availableSeats)%Z availableSeats (capacity bus) bookedSeats
    end.

(** [availability.available], [availability.availableSeats || 0] and
    [availability.totalCapacity || 0]. *)
Definition availableOf (a : Availability) : bool :=
  match a with
  | Unavailable _ => false
  | Seats available _ _ _ => available
  end.

Definition availableSeatsOf (a : Availability) : Z :=
  match a with
  | Unavailable _ => 0%Z
  | Seats _ availableSeats _ _ => availableSeats
  end.

Definition totalCapacityOf (a : Availability) : Z :=
  match a with
  | Unavailable _ => 0%Z
  | Seats _ _ totalCapacity _ => totalCapacity
  end.

(** The values of [currentDate] in the loop [while (currentDate <= end)]
    whose step is [currentDate.setDate(currentDate.getDate() + 1)]: the
    start and every whole day after it up to the end. *)
Definition datesFrom (start end_ : Instant) : list Instant :=
  map (fun k => (start + Z.of_nat k * 86400000)%Z)
      (seq 0 (Z.to_nat ((end_ - start) / 86400000 + 1))).

Record ScheduleEntry := mkScheduleEntry {
  se_date : Instant;
  se_dayOfWeek : string;
  se_departureTime : string;
  se_arrivalTime : string;
  se_available : bool;
  se_availableSeats : Z;
  se_totalCapacity : Z;
  se_fare : Route.FareQuote
}.

Section Formatting.

(** [d.toISOString().split('T')[0]]. *)
Variable toISODate : Instant -> string.

(** One turn of the loop of [generateSchedule] (Booking.js 780-807). *)
Definition scheduleStep (store : Store) (this : t)
           (schedule : outcome (list ScheduleEntry)) (currentDate : Instant)
  : outcome (list ScheduleEntry) :=
  match schedule with
  | Thrown m => Thrown m
  | Returned schedule =>
      let dayOfWeek := weekday currentDate in
      if includes (operatingDays this) dayOfWeek then
        let availability := checkAvailability store this currentDate in
        let datePart := toISODate currentDate in
        let timePart := departureTime this in
        match
          Route.calculateFare (fares this)
            (Route.mkOptions false false false false false false None
                             (Some currentDate))
        with
        | Thrown m => Thrown m
        | Returned fare =>
            Returned
              (schedule ++
                 [mkScheduleEntry currentDate dayOfWeek (datePart ++ "T" ++ timePart)
                    (arrivalTime this) (availableOf availability)
                    (availableSeatsOf availability) (totalCapacityOf availability)
                    fare])%list
        end
      else Returned schedule
  end.

(** [RouteSchema.methods.generateSchedule] (Booking.js 767-810). *)
Definition generateSchedule (store : Store) (this : t) (startDate endDate : Instant)
  : outcome (list ScheduleEntry) :=
  if (endDate <? startDate)%Z then Thrown "Start date must be before end date"
  else fold_left (scheduleStep store this) (datesFrom startDate endDate) (Returned []).

End Formatting.

End RouteSchedule.

(** ** The schedule endpoint of the route controller (src/unnamed/part_000) *)

Module RouteController.

Record ScheduleEntry := mkScheduleEntry {
  se_date : Instant;
  se_dayOfWeek : string;
  se_departureTime : string;
  se_arrivalTime : string;
  se_available : bool;
  se_availableSeats : Z;
  se_totalCapacity : Z
}.

(** One turn of the loop of [getRouteSchedule] (part_000 389-410). *)
Definition scheduleStep (store : Store) (route : RouteSchedule.t)
           (schedule : list ScheduleEntry) (currentDate : Instant)
  : list ScheduleEntry :=
  let dayOfWeek := RouteSchedule.weekday currentDate in
  if includes (RouteSchedule.operatingDays route) dayOfWeek then
    let availability := RouteSchedule.checkAvailability store route currentDate in
    (schedule ++
       [mkScheduleEntry currentDate dayOfWeek (RouteSchedule.departureTime route)
          (RouteSchedule.arrivalTime route)
          (RouteSchedule.availableOf availability)
          (RouteSchedule.availableSeatsOf availability)
          (RouteSchedule.totalCapacityOf availability)])%list
  else schedule.

(** [exports.getRouteSchedule] (part_000 367-425); [routes] is the Route
    collection and [today] is [new Date()]. *)
Definition getRouteSchedule (store : Store) (routes : list RouteSchedule.t)
           (id : ObjectId) (startDate endDate : option Instant) (today : Instant)
  : response (list ScheduleEntry) :=
  let start := match startDate with Some d => d | None => today end in
  let end_ :=
    match endDate with
    | Some d => d
    | None => (today + 7 * 24 * 60 * 60 * 1000)%Z
    end in
  match find (fun r => (Route._id (RouteSchedule.fares r) =? id)%Z) routes with
  | None => error 404 "Route not found"
  | Some route =>
      success 200
        (fold_left (scheduleStep store route) (RouteSchedule.datesFrom start end_) [])
  end.

End RouteController.

(** ** Seat check of the Booking model *)

Module BookingSeats.

(** [new Date(d).setHours(0, 0, 0, 0)] and
    [new Date(d).setHours(23, 59, 59, 999)], with UTC as the local zone. *)
Definition startOfDay (d : Instant) : Instant := (d - d mod 86400000)%Z.
Definition endOfDay (d : Instant) : Instant := (startOfDay d + 86399999)%Z.

(** The Booking query of [checkSeatAvailability] for the day of [day]
    (Booking.js 227-236 and 257-266). *)
Definition dayQuery (this : Booking.t) (day : Instant) (b : Booking.t) : bool :=
  (Booking.route b =? Booking.route this)%Z
  && (Booking.bus b =? Booking.bus this)%Z
  && ((startOfDay day <=? Booking.departureDate b)%Z
      && (Booking.departureDate b <? endOfDay day)%Z)
  && includes ["Confirmed"; "Pending"] (Booking.status b)
  && negb (Booking._id b =? Booking._id this)%Z.

(** The other live bookings of the route and bus of [this] that depart on
    the day of [day]. *)
Definition bookingsOn (store : Store) (this : Booking.t) (day : Instant)
  : list Booking.t :=
  filter (dayQuery this day) (bookings store).

(** The seat numbers collected in the [Set] of booked seats. *)
Definition seatsOf (bookings : list Booking.t) : list string :=
  flat_map (fun booking => map Booking.seatNumber (Booking.passengers booking))
           bookings.

Record SeatAvailability := mkSeatAvailability {
  isAvailable : bool;
  conflictingSeats : list string;
  returnConflictingSeats : list string
}.

(** [BookingSchema.methods.checkSeatAvailability] (Booking.js 222-294).
    [returnSeats] is [this.selectedSeats.return], empty when the booking
    has none. *)
Definition checkSeatAvailability (store : Store) (this : Booking.t)
           (returnSeats : list string) : SeatAvailability :=
  let bookings := bookingsOn store this (Booking.departureDate this) in
  let bookedSeats := seatsOf bookings in
  let conflictingSeats :=
    filter (includes bookedSeats) (map Booking.seatNumber (Booking.passengers this)) in
  let returnConflictingSeats :=
    match Booking.returnDate this with
    | Some returnDate =>
        if String.eqb (Booking.bookingType this) "Round-Trip" then
          let returnBookings := bookingsOn store this returnDate in
          let returnBookedSeats := seatsOf returnBookings in
          filter (includes returnBookedSeats) returnSeats
        else []
    | None => []
    end in
  mkSeatAvailability
    ((Z.of_nat (List.length conflictingSeats) =? 0)%Z
     && (Z.of_nat (List.length returnConflictingSeats) =? 0)%Z)
    conflictingSeats returnConflictingSeats.

End BookingSeats.

(** ** Receipts and contracts

    The document that the mock [generatePDF] of each controller returns. *)




(** ** Access checks (src/unnamed/part_007, the auth middleware)

    A middleware answers the request itself ([Some] response) or calls
    [next()] ([None]). *)

Module Auth.

(** [exports.authorize] (part_007 110-130); [user] is [req.user]. *)
Definition authorize {D : Type} (roles : list string) (user : option User)
  : option (response D) :=
  match user with
  | None => Some (error 500 "Authorization middleware used without authentication")
  | Some user =>
      if negb (includes roles (role user)) then
        Some (error 403 ("User role '" ++ role user
                         ++ "' is not authorized to access this route"))
      else None
  end.

(** [exports.checkOwnership] (part_007 138-167); [resourceUserId] is the
    result of [getUserIdFromResource(req)], which is only computed when the
    user is not an admin. *)
Definition checkOwnership {D : Type} (getUserIdFromResource : unit -> option ObjectId)
           (user : User) : option (response D) :=
  if String.eqb (role user) "admin" then None
  else
    match getUserIdFromResource tt with
    | None => Some (error 403 "You are not authorized to access this resource")
    | Some resourceUserId =>
        if negb (resourceUserId =? userId user)%Z then
          Some (error 403 "You are not authorized to access this resource")
        else None
    end.

End Auth.

(** [exports.getBookingUserId] (bookingController.js 27-38). *)
Definition getBookingUserId (store : Store) (bookingId : ObjectId) : option ObjectId :=
  match find (fun b => (Booking._id b =? bookingId)%Z) (bookings store) with
  | None => None
  | Some booking => Some (Booking.user booking)
  end.

(** [exports.getHiringUserId] (hiringController.js 26-37). *)
Definition getHiringUserId (store : Store) (hiringId : ObjectId) : option ObjectId :=
  match find (fun h => (Hiring._id h =? hiringId)%Z) (hirings store) with
  | None => None
  | Some hiring => Some (Hiring.user hiring)
  end.

(** The access check that routes/bookings.js and the hiring router
    (src/unnamed/part_004) put between [protect] and each controller of
    [request]: [checkOwnership] on update, cancel and payment,
    [authorize('admin')] on the status, approve and reject endpoints, none
    on creation.  The rate limiter, the validator, the feature gate and
    the cache middleware of these routes do not touch the store and are
    left out. *)
Definition accessCheck (store : Store) (r : request) : option (response unit) :=
  match r with
  | CreateBooking _ _ _ _ => None
  | UpdateBooking id _ user =>
      Auth.checkOwnership (fun _ => getBookingUserId store id) user
  | UpdateBookingStatus _ _ user _ => Auth.authorize ["admin"] (Some user)
  | CancelBooking id user _ =>
      Auth.checkOwnership (fun _ => getBookingUserId store id) user
  | PayBooking id _ user _ _ =>
      Auth.checkOwnership (fun _ => getBookingUserId store id) user
  | CreateHiring _ _ _ _ => None
  | UpdateHiring id _ user =>
      Auth.checkOwnership (fun _ => getHiringUserId store id) user
  | UpdateHiringStatus _ _ user _ _ => Auth.authorize ["admin"] (Some user)
  | CancelHiring id user _ _ =>
      Auth.checkOwnership (fun _ => getHiringUserId store id) user
  | PayHiring id _ user _ _ =>
      Auth.checkOwnership (fun _ => getHiringUserId store id) user
  | ApproveHiring _ user _ => Auth.authorize ["admin"] (Some user)
  | RejectHiring _ _ user _ _ => Auth.authorize ["admin"] (Some user)
  end.

(** The store after a request that goes through its access check. *)
Definition handleChecked (store : Store) (r : request) : Store :=
  match accessCheck store r with
  | Some _ => store
  | None => handle store r
  end.

Definition runChecked (store : Store) (requests : list request) : Store :=
  fold_left handleChecked requests store.

(** The user who sends a request. *)
Definition sender (r : request) : User :=
  match r with
  | CreateBooking _ user _ _ => user
  | UpdateBooking _ _ user => user
  | UpdateBookingStatus _ _ user _ => user
  | CancelBooking _ user _ => user
  | PayBooking _ _ user _ _ => user
  | CreateHiring _ user _ _ => user
  | UpdateHiring _ _ user => user
  | UpdateHiringStatus _ _ user _ _ => user
  | CancelHiring _ user _ _ => user
  | PayHiring _ _ user _ _ => user
  | ApproveHiring _ user _ => user
  | RejectHiring _ _ user _ _ => user
  end.

(** The booking, respectively the hiring, that a request names by id. *)
Definition targetBooking (r : request) : option ObjectId :=
  match r with
  | UpdateBooking id _ _ => Some id
  | UpdateBookingStatus id _ _ _ => Some id
  | CancelBooking id _ _ => Some id
  | PayBooking id _ _ _ _ => Some id
  | _ => None
  end.

Definition targetHiring (r : request) : option ObjectId :=
  match r with
  | UpdateHiring id _ _ => Some id
  | UpdateHiringStatus id _ _ _ _ => Some id
  | CancelHiring id _ _ _ => Some id
  | PayHiring id _ _ _ _ => Some id
  | ApproveHiring id _ _ => Some id
  | RejectHiring id _ _ _ _ => Some id
  | _ => None
  end.

(** ** Invariants that the properties below speak of *)


(** Whether a bus with this id is in the store. *)
Definition busKnown (store : Store) (id : ObjectId) : bool :=
  present (find (fun b => (bus_id b =? id)%Z) (buses store)).

(** Another booking holds [seat] on the day of [day]: it is stored, is
    not [this], is Confirmed or Pending, has the route and the bus of
    [this], departs on that day before its last millisecond, and has a
    passenger on the seat. *)
Definition heldOn (store : Store) (this : Booking.t) (day : Instant) (seat : string)
  : Prop :=
  exists other passenger,
    In other (bookings store)
    /\ Booking._id other <> Booking._id this
    /\ Booking.route other = Booking.route this
    /\ Booking.bus other = Booking.bus this
    /\ (Booking.status other = "Confirmed" \/ Booking.status other = "Pending")
    /\ (Booking.departureDate other / 86400000 = day / 86400000)%Z
    /\ (Booking.departureDate other mod 86400000 <> 86399999)%Z
    /\ In passenger (Booking.passengers other)
    /\ Booking.seatNumber passenger = seat.

(** ** Further concrete cases *)

Module Cases.

Local Open Scope Z_scope.

(** A user who owns no reservation of the scenarios. *)
Definition stranger : User := mkUser 8 "user".


(** A confirmed hiring of 200 under the Flexible policy, paid in full. *)
Definition paidHiring : Hiring.t :=
  Scenario.hiringOf 3 "Confirmed" "Flexible" (10 * Scenario.day) (13 * Scenario.day)
    200 [Scenario.fullPayment].

(** A pending hiring on which 200 were paid. *)
Definition depositedHiring : Hiring.t :=
  Scenario.hiringOf 3 "Pending" "Standard" (10 * Scenario.day) (13 * Scenario.day)
    1500 [Scenario.fullPayment].
Definition depositedStore : Store := Scenario.storeOf [] [depositedHiring].

(** The pending hiring of 200 on which nothing was paid. *)
Definition requestedStore : Store := Scenario.storeOf [] [Scenario.flexibleHiring].

(** Two bookings of bus 1. *)
Definition twoBookings : Store :=
  Scenario.storeOf [Scenario.pendingBooking; Scenario.roundTripBooking] [].

(** A hiring request for bus 1 from day 20 to day 22 that is not stored. *)
Definition laterHiring : Hiring.t :=
  Scenario.hiringOf 9 "Pending" "Standard" (20 * Scenario.day) (22 * Scenario.day)
    1000 [].



(** Route 1 runs on Saturdays with bus 1. *)
Definition saturdayRoute : RouteSchedule.t :=
  RouteSchedule.mk Scenario.route1 ["Saturday"] 1 "12:00" "14:00".

(** The date part of the epoch, for every instant. *)
Definition epochDate (d : Instant) : string := "1970-01-01".

(** Requests of the stranger aimed at booking 1 and hiring 1. *)
Definition strangerRequests : list request :=
  [CancelBooking 1 stranger (Scenario.atDay 2);
   PayBooking 1 (BookingController.mkPaymentBody 50 "Cash" "TXN-0007") stranger
              (Scenario.atDay 2) "0A1B2C3D";
   UpdateBookingStatus 1 "Completed" stranger (Scenario.atDay 2);
   CancelHiring 1 stranger (Scenario.atDay 2) "0A1B2C3D";
   RejectHiring 1 "No driver" stranger (Scenario.atDay 2) "0A1B2C3D"].



End Cases.

(** * Properties *)

(** ** Numbers *)

Lemma Qlt_bool_iff (a b : Q) : Qlt_bool a b = true <-> a < b.
Proof.
  unfold Qlt_bool. rewrite negb_true_iff.
  split; intro H.
  - apply Qnot_le_lt. intro L. apply Qle_bool_iff in L. congruence.
  - destruct (Qle_bool b a) eqn:E; [|reflexivity].
    apply Qle_bool_iff in E. lra.
Qed.

Lemma Qlt_bool_false_iff (a b : Q) : Qlt_bool a b = false <-> b <= a.
Proof.
  unfold Qlt_bool. rewrite negb_false_iff. apply Qle_bool_iff.
Qed.

Lemma Qle_bool_false_iff (a b : Q) : Qle_bool a b = false <-> b < a.
Proof.
  rewrite <- Qlt_bool_iff. unfold Qlt_bool.
  destruct (Qle_bool a b); simpl; intuition congruence.
Qed.


Lemma Qfloor_unique (y : Q) (k : Z) :
  inject_Z k <= y -> y < inject_Z (k + 1) -> Qfloor y = k.
Proof.
  intros L U.
  pose proof (Qfloor_le y) as A. pose proof (Qlt_floor y) as B.
  assert (C : (k < Qfloor y + 1)%Z).
  { rewrite Zlt_Qlt. eapply Qle_lt_trans; eauto. }
  assert (D : (Qfloor y < k + 1)%Z).
  { rewrite Zlt_Qlt. eapply Qle_lt_trans; eauto. }
  lia.
Qed.

Lemma round2_idem (x : Q) : round2 (round2 x) = round2 x.
Proof.
  unfold round2 at 1 3.
  set (k := Qfloor (x * 100 + (1 # 2))).
  assert (F : Qfloor (round2 x * 100 + (1 # 2)) = k).
  { apply Qfloor_unique; unfold round2; fold k.
    - field_simplify. lra.
    - rewrite inject_Z_plus. field_simplify. lra. }
  rewrite F. reflexivity.
Qed.

(** ** Ledgers *)



Lemma completedTotal_push (l : list Payment) (p : Payment) :
  completedTotal (l ++ [p]) =
  if String.eqb (pstatus p) "Completed"
  then completedTotal l + amount p else completedTotal l.
Proof.
  unfold completedTotal. rewrite fold_left_app. reflexivity.
Qed.

Lemma plainTotal_push (l : list Payment) (p : Payment) :
  plainTotal (l ++ [p]) = plainTotal l + amount p.
Proof.
  unfold plainTotal. rewrite fold_left_app. reflexivity.
Qed.



(** ** Hiring cost *)

(** C7 (amended).  With a rate type outside Per Day, Per Hour,
    Per Kilometer and Fixed, [calculateTotalCost] does not fail: it returns
    a cost, the very cost it returns for the same hiring with rate type
    Per Day. *)
Theorem unknown_rate_type_is_per_day (this : Hiring.t) :
  includes knownRateTypes (Hiring.rateType this) = false ->
  exists cost,
    Hiring.calculateTotalCost this
    = Returned (Hiring.set_totalCost cost this, cost)
    /\ exists this',
      Hiring.calculateTotalCost (Hiring.set_rateType "Per Day" this)
      = Returned (this', cost).
Proof.
  intro U. unfold knownRateTypes, includes in U. simpl in U.
  repeat (apply orb_false_elim in U; destruct U as [? U]).
  unfold Hiring.calculateTotalCost.
  rewrite H, H0, H1, H2. 
  eexists. split; [reflexivity|].
  eexists. simpl. reflexivity.
Qed.

(** C7 as stated fails: a one-day hiring at 500 with rate type Per Week is
    priced 500 instead of being refused. *)
Lemma unknown_rate_type_returns_a_cost :
  includes knownRateTypes (Hiring.rateType Scenario.weeklyHiring) = false
  /\ exists this' cost,
      Hiring.calculateTotalCost Scenario.weeklyHiring = Returned (this', cost)
      /\ cost == 500.
Proof.
  split; [reflexivity|].
  do 2 eexists. split; [vm_compute; reflexivity|]. vm_compute. reflexivity.
Qed.

(** C7 (amended) at the Per Week hiring. *)
Lemma unknown_rate_type_witness :
  exists cost,
    Hiring.calculateTotalCost Scenario.weeklyHiring
    = Returned (Hiring.set_totalCost cost Scenario.weeklyHiring, cost)
    /\ exists this',
      Hiring.calculateTotalCost (Hiring.set_rateType "Per Day" Scenario.weeklyHiring)
      = Returned (this', cost).
Proof. apply (unknown_rate_type_is_per_day Scenario.weeklyHiring). reflexivity. Defined.

(** The total that [calculateTotalCost] stores is a whole number of
    cents. *)
Lemma calculateTotalCost_stores_cents (this : Hiring.t) :
  exists this' cost,
    Hiring.calculateTotalCost this = Returned (this', cost)
    /\ Hiring.totalCost this' = cost
    /\ cost == round2 cost.
Proof.
  unfold Hiring.calculateTotalCost. cbv zeta.
  do 2 eexists. split; [reflexivity|]. split.
  - destruct this; reflexivity.
  - rewrite round2_idem. reflexivity.
Qed.

(** ** Payments and refunds of a hiring *)

(** The document and the report that [processPayment] produces for a
    positive amount. *)

Lemma processPayment_spec (h : Hiring.t) (pd : Hiring.PaymentData)
      (now : Instant) (rnd : string) :
  0 < Hiring.pd_amount pd ->
  let p :=
    mkPayment (Hiring.pd_amount pd) now
      (if String.eqb (Hiring.pd_method pd) "" then "Other" else Hiring.pd_method pd)
      (if String.eqb (Hiring.pd_transactionId pd) "" then "PAY-" ++ rnd
       else Hiring.pd_transactionId pd) "Completed" in
  let paid := Hiring.totalPaid h + Hiring.pd_amount pd in
  let ps :=
    if Qle_bool (Hiring.totalCost h) paid then "Paid"
    else if Qlt_bool 0 paid then "Partially Paid" else "Pending" in
  let st :=
    if Qle_bool (Hiring.deposit h) paid && String.eqb (Hiring.status h) "Pending"
    then "Confirmed" else Hiring.status h in
  Hiring.processPayment h pd now rnd
  = Returned
      (Hiring.set_status st
         (Hiring.set_paymentStatus ps
            (Hiring.set_payments (Hiring.payments h ++ [p]) h)),
       Hiring.mkPaymentResult p ps st).
Proof.
  intros P p paid ps st. unfold Hiring.processPayment.
  apply Qle_bool_false_iff in P. rewrite P. cbv zeta. fold p.
  assert (T : completedTotal
                (Hiring.payments (Hiring.set_payments (Hiring.payments h ++ [p]) h))
              = paid).
  { simpl Hiring.payments. rewrite completedTotal_push. reflexivity. }
  rewrite T. subst ps st.
  destruct h as [i n s pc sd ed rt dist br rty ch sv da ot tc tf dep pst pays u b pol ra].
  simpl Hiring.totalCost. simpl Hiring.deposit. simpl Hiring.status.
  destruct (Qle_bool tc paid); destruct (Qlt_bool 0 paid);
    simpl; destruct (Qle_bool dep paid && String.eqb s "Pending"); reflexivity.
Qed.





(** ** Windows and conflict queries *)

Lemma overlaps_iff (s1 e1 s2 e2 : Instant) :
  overlaps s1 e1 s2 e2 = true <-> (s1 <= e2 /\ s2 <= e1)%Z.
Proof.
  unfold overlaps. rewrite andb_true_iff, !Z.leb_le. reflexivity.
Qed.

Lemma within_iff (lo hi x : Instant) :
  within lo hi x = true <-> (lo <= x /\ x <= hi)%Z.
Proof.
  unfold within. rewrite andb_true_iff, !Z.leb_le. reflexivity.
Qed.

(** The three window cases of [createHiring] cover every overlap. *)
Lemma three_cases_complete (s1 e1 s2 e2 : Instant) :
  overlaps s1 e1 s2 e2 = true ->
  within s2 e2 s1 || within s2 e2 e1 || ((s1 <=? s2)%Z && (e2 <=? e1)%Z) = true.
Proof.
  rewrite overlaps_iff. intros [A B].
  rewrite !orb_true_iff, !within_iff, andb_true_iff, !Z.leb_le. lia.
Qed.

(** On proper windows the three cases report nothing but overlaps. *)
Lemma three_cases_sound (s1 e1 s2 e2 : Instant) :
  (s1 <= e1)%Z -> (s2 <= e2)%Z ->
  within s2 e2 s1 || within s2 e2 e1 || ((s1 <=? s2)%Z && (e2 <=? e1)%Z) = true ->
  overlaps s1 e1 s2 e2 = true.
Proof.
  intros V1 V2.
  rewrite overlaps_iff, !orb_true_iff, !within_iff, andb_true_iff, !Z.leb_le. lia.
Qed.

Lemma conflictQuery_iff_overlaps (bus : ObjectId) (s2 e2 : Instant) (h : Hiring.t) :
  (Hiring.startDate h <= Hiring.endDate h)%Z -> (s2 <= e2)%Z ->
  HiringController.conflictQuery bus s2 e2 h
  = (Hiring.bus h =? bus)%Z
    && overlaps (Hiring.startDate h) (Hiring.endDate h) s2 e2
    && includes ["Pending"; "Approved"; "Confirmed"] (Hiring.status h).
Proof.
  intros V1 V2. unfold HiringController.conflictQuery.
  f_equal. f_equal. apply eq_true_iff_eq. split.
  - apply three_cases_sound; assumption.
  - apply three_cases_complete.
Qed.

Lemma filter_hit {A : Type} (f : A -> bool) (l : list A) (x : A) :
  In x l -> f x = true -> (0 <? Z.of_nat (List.length (filter f l)))%Z = true.
Proof.
  intros I F.
  assert (J : In x (filter f l)) by (apply filter_In; auto).
  destruct (filter f l); [contradiction|]. reflexivity.
Qed.




(** C2.  The conflict test of the specification is [overlaps]; the query
    of [createHiring] agrees with it on proper windows
    ([conflictQuery_iff_overlaps]).  [checkBusAvailability] does not: with
    bus 1 on a confirmed hiring from day 10 to day 13, a hiring of the same
    bus from day 11 to day 12 overlaps it, yet [checkBusAvailability]
    answers that the bus is available, while [createHiring] refuses the
    same window. *)
Theorem checkBusAvailability_misses_enclosing_hiring :
  overlaps (Hiring.startDate Scenario.outerHiring) (Hiring.endDate Scenario.outerHiring)
           (Hiring.startDate Scenario.innerHiring) (Hiring.endDate Scenario.innerHiring)
  = true
  /\ includes liveStatuses (Hiring.status Scenario.outerHiring) = true
  /\ Hiring.bus Scenario.outerHiring = Hiring.bus Scenario.innerHiring
  /\ HiringAvailability.available
       (HiringAvailability.checkBusAvailability Scenario.hiredStore Scenario.innerHiring)
     = true
  /\ HiringController.createHiring Scenario.hiredStore
       (Scenario.hiringBody (Hiring.startDate Scenario.innerHiring)
                            (Hiring.endDate Scenario.innerHiring))
       Scenario.owner 2%Z "0A1B2C3D"
     = (Scenario.hiredStore,
        error 400 "Bus is not available for the selected date range").
Proof. repeat split; vm_compute; reflexivity. Qed.

(** ** Refund tiers *)

(** Case analysis on the comparisons of a tier chain. *)
Ltac tiers :=
  repeat match goal with
         | |- context [Qlt_bool ?a ?b] => destruct (Qlt_bool a b) eqn:?
         end;
  repeat match goal with
         | H : Qlt_bool _ _ = true |- _ => apply Qlt_bool_iff in H
         | H : Qlt_bool _ _ = false |- _ => apply Qlt_bool_false_iff in H
         end.

Lemma booking_tiers (t : Q) :
  (72 < t -> Booking.refundPercentageOf t = 1)
  /\ (48 < t -> t <= 72 -> Booking.refundPercentageOf t = 3 # 4)
  /\ (24 < t -> t <= 48 -> Booking.refundPercentageOf t = 1 # 2)
  /\ (12 < t -> t <= 24 -> Booking.refundPercentageOf t = 1 # 4)
  /\ (t <= 12 -> Booking.refundPercentageOf t = 0).
Proof.
  unfold Booking.refundPercentageOf. tiers.
  all: repeat split; intros; try reflexivity; lra.
Qed.

(** C3 (amended).  [Booking.handleCancellation] returns, for [t] hours
    left, the fraction 1 if [t > 72], 3/4 if [48 < t <= 72], 1/2 if
    [24 < t <= 48], 1/4 if [12 < t <= 24] and 0 if [t <= 12].  A successful
    [cancelBooking] reports 0 for a booking that is neither Paid nor
    Partially Paid; for one that is, 1 if [t > 72], 3/4 if [48 < t <= 72],
    1/2 if [24 < t <= 48], and for [t <= 24] 1/2 to an admin and 0
    otherwise. *)
Theorem seat_booking_refund_fractions :
  (forall this now rnd,
      exists this' r,
        Booking.handleCancellation this now rnd = Returned (this', r)
        /\ let t := inject_Z (Booking.departureDate this - now) / msPerHour in
           let pct := Booking.cr_refundPercentage r in
           (72 < t -> pct = 1)
           /\ (48 < t -> t <= 72 -> pct = 3 # 4)
           /\ (24 < t -> t <= 48 -> pct = 1 # 2)
           /\ (12 < t -> t <= 24 -> pct = 1 # 4)
           /\ (t <= 12 -> pct = 0))
  /\
  (forall store id user now store' d booking,
      find (fun b => (Booking._id b =? id)%Z) (bookings store) = Some booking ->
      BookingController.cancelBooking store id user now = (store', success 200 d) ->
      let t := inject_Z (Booking.departureDate booking - now) / msPerHour in
      let pct := BookingController.cd_refundPercentage d in
      let paid :=
        String.eqb (Booking.paymentStatus booking) "Paid"
        || String.eqb (Booking.paymentStatus booking) "Partially Paid" in
      (paid = false -> pct = 0)
      /\ (paid = true ->
          (72 < t -> pct = 1)
          /\ (48 < t -> t <= 72 -> pct = 3 # 4)
          /\ (24 < t -> t <= 48 -> pct = 1 # 2)
          /\ (t <= 24 ->
              pct = if String.eqb (role user) "admin" then 1 # 2 else 0))).
Proof.
  split.
  - intros this now rnd. unfold Booking.handleCancellation. cbv zeta.
    do 2 eexists. split; [reflexivity|]. cbn [Booking.cr_refundPercentage].
    apply booking_tiers.
  - intros store id user now store' d booking F C t pct paid.
    unfold BookingController.cancelBooking in C. rewrite F in C.
    destruct (String.eqb (Booking.status booking) "Cancelled"); [discriminate|].
    destruct (String.eqb (Booking.status booking) "Completed"); [discriminate|].
    cbv zeta in C. fold t in C.
    destruct (Qlt_bool t 24 && negb (String.eqb (role user) "admin"));
      [discriminate|].
    fold paid in C. subst pct.
    destruct paid.
    + split; [discriminate|]. intros _.
      clearbody t.
      revert C. tiers; intro C; injection C as _ <-;
        cbn [BookingController.cd_refundPercentage];
        repeat split; intros; try reflexivity; lra.
    + split; [|discriminate]. intros _.
      injection C as _ <-. reflexivity.
Qed.

(** C3 as stated fails.  Ten hours before departure an admin cancelling a
    paid booking gets 1/2 where the table gives 0; exactly 24 hours before,
    the owner gets 0 where the table gives 1/4; five days before, the owner
    of an unpaid booking gets 0 where the table gives 1. *)
Lemma cancelBooking_departs_from_the_table :
  (exists store' d,
      BookingController.cancelBooking Scenario.paidStore 1%Z Scenario.admin
        (Scenario.atDay 10 - 10 * Scenario.hour)%Z
      = (store', success 200 d)
      /\ BookingController.cd_refundPercentage d = 1 # 2
      /\ specRefundFraction (inject_Z (10 * Scenario.hour) / msPerHour) = 0)
  /\ (exists store' d,
         BookingController.cancelBooking Scenario.paidStore 1%Z Scenario.owner
           (Scenario.atDay 9)
         = (store', success 200 d)
         /\ BookingController.cd_refundPercentage d = 0
         /\ specRefundFraction (inject_Z (24 * Scenario.hour) / msPerHour) = 1 # 4)
  /\ (exists store' d,
         BookingController.cancelBooking Scenario.bookedStore 1%Z Scenario.owner
           (Scenario.atDay 5)
         = (store', success 200 d)
         /\ BookingController.cd_refundPercentage d = 0
         /\ specRefundFraction (inject_Z (120 * Scenario.hour) / msPerHour) = 1).
Proof.
  split; [|split].
  all: do 2 eexists; split; [vm_compute; reflexivity|].
  all: split; vm_compute; reflexivity.
Qed.

(** C3 (amended) at cancellations five days before departure. *)
Lemma seat_booking_refund_fractions_witness :
  (exists this' r,
      Booking.handleCancellation Scenario.pendingBooking (Scenario.atDay 5) "0A1B2C3D"
      = Returned (this', r)
      /\ Booking.cr_refundPercentage r = 1)
  /\ (exists store' d,
         BookingController.cancelBooking Scenario.paidStore 1%Z Scenario.owner
           (Scenario.atDay 5)
         = (store', success 200 d)
         /\ BookingController.cd_refundPercentage d = 1).
Proof.
  destruct seat_booking_refund_fractions as [M C]. split.
  - destruct (M Scenario.pendingBooking (Scenario.atDay 5) "0A1B2C3D")
      as (this' & r & E & T & _).
    exists this', r. split; [exact E|].
    apply T. vm_compute. reflexivity.
  - do 2 eexists. split; [vm_compute; reflexivity|].
    refine (proj1 (proj2 (C Scenario.paidStore 1%Z Scenario.owner (Scenario.atDay 5)
                            _ _ Scenario.paidBooking eq_refl eq_refl) eq_refl) _).
    vm_compute. reflexivity.
Defined.

(** C8 (amended).  Two successful [cancelHiring] calls on the same hiring
    at the same instant report the same refund percentage and amount,
    whoever the two users are.  Two successful [cancelBooking] calls on the
    same booking at the same instant do so when more than 24 hours are left
    before departure. *)
Theorem refund_is_the_same_for_both_actors :
  (forall store id u1 u2 now rnd s1 d1 s2 d2,
      HiringController.cancelHiring store id u1 now rnd = (s1, success 200 d1) ->
      HiringController.cancelHiring store id u2 now rnd = (s2, success 200 d2) ->
      d1 = d2)
  /\
  (forall store id u1 u2 now s1 d1 s2 d2 booking,
      find (fun b => (Booking._id b =? id)%Z) (bookings store) = Some booking ->
      24 < inject_Z (Booking.departureDate booking - now) / msPerHour ->
      BookingController.cancelBooking store id u1 now = (s1, success 200 d1) ->
      BookingController.cancelBooking store id u2 now = (s2, success 200 d2) ->
      d1 = d2).
Proof.
  split.
  - intros store id u1 u2 now rnd s1 d1 s2 d2 C1 C2.
    unfold HiringController.cancelHiring in *.
    destruct (find _ (hirings store)) as [hiring|]; [|discriminate].
    destruct (String.eqb (Hiring.status hiring) "Cancelled"); [discriminate|].
    destruct (includes _ (Hiring.status hiring)); [discriminate|].
    cbv zeta in *.
    destruct (Qlt_bool _ 1 && negb (String.eqb (role u1) "admin")); [discriminate|].
    destruct (Qlt_bool _ 1 && negb (String.eqb (role u2) "admin")); [discriminate|].
    destruct (Hiring.handleCancellation hiring now rnd) as [[h r]|]; [|discriminate].
    congruence.
  - intros store id u1 u2 now s1 d1 s2 d2 booking F L C1 C2.
    unfold BookingController.cancelBooking in *. rewrite F in *.
    destruct (String.eqb (Booking.status booking) "Cancelled"); [discriminate|].
    destruct (String.eqb (Booking.status booking) "Completed"); [discriminate|].
    cbv zeta in *.
    set (t := inject_Z (Booking.departureDate booking - now) / msPerHour) in *.
    destruct (Qlt_bool t 24 && negb (String.eqb (role u1) "admin")); [discriminate|].
    destruct (Qlt_bool t 24 && negb (String.eqb (role u2) "admin")); [discriminate|].
    destruct (String.eqb (Booking.paymentStatus booking) "Paid"
              || String.eqb (Booking.paymentStatus booking) "Partially Paid").
    + destruct (Qlt_bool 72 t) eqn:E72; [congruence|].
      destruct (Qlt_bool 48 t) eqn:E48; [congruence|].
      destruct (Qlt_bool 24 t) eqn:E24; [congruence|].
      apply Qlt_bool_false_iff in E24. clearbody t. lra.
    + congruence.
Qed.

(** C8 as stated fails.  Exactly 24 hours before departure both the admin
    and the owner may cancel the paid booking; the admin is told 1/2, the
    owner 0. *)
Lemma admin_and_owner_differ_at_24_hours :
  exists s1 d1 s2 d2,
    BookingController.cancelBooking Scenario.paidStore 1%Z Scenario.admin
      (Scenario.atDay 9) = (s1, success 200 d1)
    /\ BookingController.cancelBooking Scenario.paidStore 1%Z Scenario.owner
         (Scenario.atDay 9) = (s2, success 200 d2)
    /\ BookingController.cd_refundPercentage d1 = 1 # 2
    /\ BookingController.cd_refundPercentage d2 = 0.
Proof.
  do 4 eexists.
  split; [vm_compute; reflexivity|].
  split; [vm_compute; reflexivity|].
  split; reflexivity.
Qed.

(** C8 (amended) at the confirmed hiring and at the paid booking, two days
    before departure. *)
Lemma refund_is_the_same_for_both_actors_witness :
  (exists s1 d1 s2 d2,
      HiringController.cancelHiring Scenario.hiredStore 1%Z Scenario.admin
        (Scenario.atDay 2) "0A1B2C3D" = (s1, success 200 d1)
      /\ HiringController.cancelHiring Scenario.hiredStore 1%Z Scenario.owner
           (Scenario.atDay 2) "0A1B2C3D" = (s2, success 200 d2)
      /\ d1 = d2)
  /\ (exists s1 d1 s2 d2,
         BookingController.cancelBooking Scenario.paidStore 1%Z Scenario.admin
           (Scenario.atDay 8) = (s1, success 200 d1)
         /\ BookingController.cancelBooking Scenario.paidStore 1%Z Scenario.owner
              (Scenario.atDay 8) = (s2, success 200 d2)
         /\ d1 = d2).
Proof.
  destruct refund_is_the_same_for_both_actors as [H B]. split.
  - do 4 eexists.
    split; [vm_compute; reflexivity|].
    split; [vm_compute; reflexivity|].
    refine (H Scenario.hiredStore 1%Z Scenario.admin Scenario.owner
              (Scenario.atDay 2) "0A1B2C3D" _ _ _ _ eq_refl eq_refl).
  - do 4 eexists.
    split; [vm_compute; reflexivity|].
    split; [vm_compute; reflexivity|].
    refine (B Scenario.paidStore 1%Z Scenario.admin Scenario.owner
              (Scenario.atDay 8) _ _ _ _ Scenario.paidBooking eq_refl _ eq_refl eq_refl).
    vm_compute. reflexivity.
Defined.

(** ** Seat-booking fares *)





(** ** Status changes

    Each request is shown to have one of the effects of [effect]; what the
    effects preserve is then preserved by every sequence of requests. *)

Lemma find_booking_id (l : list Booking.t) (id : ObjectId) (b : Booking.t) :
  find (fun x => (Booking._id x =? id)%Z) l = Some b -> Booking._id b = id.
Proof.
  intro F. apply find_some in F. destruct F as [_ E]. apply Z.eqb_eq. exact E.
Qed.

Lemma find_after_saveBooking (store : Store) (b old : Booking.t) :
  find (fun x => (Booking._id x =? Booking._id b)%Z) (bookings store) = Some old ->
  find (fun x => (Booking._id x =? Booking._id b)%Z) (bookings (saveBooking b store))
  = Some b.
Proof.
  unfold saveBooking. cbn [bookings].
  induction (bookings store) as [|x l IH]; intro F; simpl in *.
  - discriminate.
  - destruct (Booking._id x =? Booking._id b)%Z eqn:E.
    + rewrite Z.eqb_refl. reflexivity.
    + rewrite E. apply IH. exact F.
Qed.

(** Case analysis on the innermost scrutinee of the goal. *)
Ltac split_case :=
  match goal with
  | |- context [match ?x with _ => _ end] =>
      lazymatch x with
      | context [match _ with _ => _ end] => fail
      | _ => destruct x eqn:?
      end
  end.

Ltac split_cases := repeat first [progress cbv beta iota zeta | split_case].

(** The request was refused: the store is as it was. *)
Ltac unchanged := left; reflexivity.

Lemma find_hiring_id (l : list Hiring.t) (id : ObjectId) (h : Hiring.t) :
  find (fun x => (Hiring._id x =? id)%Z) l = Some h -> Hiring._id h = id.
Proof.
  intro F. apply find_some in F. destruct F as [_ E]. apply Z.eqb_eq. exact E.
Qed.

(** The request saved a new version of the stored booking [old]. *)
Ltac booking_saved old :=
  right; right; right; left; exists old; eexists;
  split; [|split; [reflexivity|]].

(** A change of a booking that leaves its id and ledger as they are, and
    its status when guarded, is a step. *)
Lemma quiet_bookingStep (old new : Booking.t) :
  Booking._id new = Booking._id old ->
  (includes guardedBookingStatuses (Booking.status old) = true ->
   Booking.status new = Booking.status old) ->
  Booking.payments new = Booking.payments old ->
  bookingStep old new.
Proof.
  intros I S P. split; [exact I|]. split; [exact S|].
  exists []. rewrite app_nil_r. split; [exact P|constructor].
Qed.

Lemma createBooking_effect store body user newId rnd :
  effect store (fst (BookingController.createBooking store body user newId rnd)).
Proof.
  unfold BookingController.createBooking.
  destruct (find _ (routes store)); [|unchanged].
  destruct (find _ (buses store)); [|unchanged].
  cbv zeta.
  destruct (0 <? _)%Z; [unchanged|].
  destruct (0 <? _)%Z; [unchanged|].
  destruct (0 <? _)%Z; [unchanged|].
  right; left. eexists. split; reflexivity.
Qed.

Lemma updateBookingStatus_effect store id status user now :
  effect store (fst (BookingController.updateBookingStatus store id status user now)).
Proof.
  unfold BookingController.updateBookingStatus. cbv zeta.
  destruct (negb _); [unchanged|].
  destruct (find _ (bookings store)) as [booking|] eqn:F; [|unchanged].
  pose proof (find_booking_id _ _ _ F) as I. subst id.
  destruct (String.eqb (Booking.status booking) "Cancelled"
            && negb (String.eqb status "Cancelled")) eqn:G1; [unchanged|].
  destruct (String.eqb (Booking.status booking) "Completed"
            && negb (String.eqb status "Completed")) eqn:G2; [unchanged|].
  booking_saved booking.
  - exact F.
  - apply quiet_bookingStep; try (destruct booking; reflexivity).
    intro G. unfold guardedBookingStatuses, includes in G. simpl in G.
    rewrite orb_false_r in G.
    destruct booking as [i n t s]; simpl in *.
    apply orb_true_iff in G.
    destruct G as [G|G]; rewrite G in *; simpl in *;
      [apply negb_false_iff in G1|apply negb_false_iff in G2];
      rewrite String.eqb_eq in *; congruence.
Qed.

Lemma guarded_booking_cases (s : string) :
  includes guardedBookingStatuses s = true ->
  String.eqb s "Cancelled" = true \/ String.eqb s "Completed" = true.
Proof.
  unfold guardedBookingStatuses, includes. simpl. rewrite orb_false_r.
  intro G. apply orb_true_iff in G. exact G.
Qed.

Lemma cancelBooking_effect store id user now :
  effect store (fst (BookingController.cancelBooking store id user now)).
Proof.
  unfold BookingController.cancelBooking.
  destruct (find _ (bookings store)) as [booking|] eqn:F; [|unchanged].
  pose proof (find_booking_id _ _ _ F) as I. subst id.
  destruct (String.eqb (Booking.status booking) "Cancelled") eqn:G1; [unchanged|].
  destruct (String.eqb (Booking.status booking) "Completed") eqn:G2; [unchanged|].
  cbv zeta.
  destruct (Qlt_bool _ 24 && _); [unchanged|].
  destruct (if _ : bool then _ else _) as [refundAmount refundPercentage].
  booking_saved booking.
  - exact F.
  - apply quiet_bookingStep; try (destruct booking; reflexivity).
    intro G. apply guarded_booking_cases in G. destruct G; congruence.
Qed.

Lemma bookingPayment_effect store id body user now rnd :
  effect store (fst (BookingController.processPayment store id body user now rnd)).
Proof.
  unfold BookingController.processPayment.
  destruct (find _ (bookings store)) as [booking|] eqn:F; [|unchanged].
  pose proof (find_booking_id _ _ _ F) as I. subst id.
  destruct (String.eqb (Booking.status booking) "Cancelled") eqn:G1; [unchanged|].
  destruct (String.eqb (Booking.paymentStatus booking) "Paid"); [unchanged|].
  destruct (Qle_bool _ 0); [unchanged|].
  cbv zeta.
  booking_saved booking.
  - destruct (Qle_bool _ _); destruct (_ && _); exact F.
  - split; [|split].
    + destruct (Qle_bool _ _); destruct (_ && _); destruct booking; reflexivity.
    + intro G. apply guarded_booking_cases in G. destruct G as [G|G]; [congruence|].
      apply String.eqb_eq in G.
      destruct booking as [i n t s]; simpl in *. subst s.
      destruct (Qle_bool _ _); reflexivity.
    + eexists. split.
      * destruct (Qle_bool _ _); destruct (_ && _); destruct booking; reflexivity.
      * repeat constructor.
Qed.

Lemma updateBooking_effect store id body user :
  effect store (fst (BookingController.updateBooking store id body user)).
Proof.
  unfold BookingController.updateBooking.
  destruct (find _ (bookings store)) as [booking|] eqn:F; [|unchanged].
  pose proof (find_booking_id _ _ _ F) as I. subst id.
  cbv zeta.
  destruct (negb _ && negb _); [unchanged|].
  destruct (String.eqb (Booking.status booking) "Completed"
            || String.eqb (Booking.status booking) "Cancelled") eqn:G; [unchanged|].
  destruct (negb _ && _); [unchanged|].
  apply orb_false_elim in G. destruct G as [G2 G1].
  assert (K : forall new,
             Booking._id new = Booking._id booking
             /\ Booking.payments new = Booking.payments booking ->
             effect store (saveBooking new store)).
  { intros new [E P]. booking_saved booking.
    - rewrite E. exact F.
    - apply quiet_bookingStep; [exact E| |exact P].
      intro G. apply guarded_booking_cases in G. destruct G; congruence. }
  apply K.
  destruct booking. simpl. split_cases; split; reflexivity.
Qed.

(** The request saved a new version of the stored hiring [old]. *)
Ltac hiring_saved old :=
  right; right; right; right; exists old; eexists;
  split; [|split; [reflexivity|]].

Lemma createHiring_effect store body user newId rnd :
  effect store (fst (HiringController.createHiring store body user newId rnd)).
Proof.
  unfold HiringController.createHiring.
  destruct (find _ (buses store)); [|unchanged].
  cbv zeta. destruct (0 <? _)%Z; [unchanged|].
  right; right; left. eexists. split; [reflexivity|]. repeat split.
Qed.

(** A change of a hiring that leaves its id, deposit, status and ledger as
    they are is a step. *)
Lemma quiet_hiringStep (old new : Hiring.t) :
  Hiring._id new = Hiring._id old ->
  Hiring.deposit new = Hiring.deposit old ->
  Hiring.status new = Hiring.status old ->
  Hiring.payments new = Hiring.payments old ->
  hiringStep old new.
Proof.
  intros I D S P. repeat split; auto.
  right. exists []. rewrite app_nil_r. split; [exact P|constructor].
Qed.

Lemma updateHiring_effect store id body user :
  effect store (fst (HiringController.updateHiring store id body user)).
Proof.
  unfold HiringController.updateHiring.
  destruct (find _ (hirings store)) as [hiring|] eqn:F; [|unchanged].
  pose proof (find_hiring_id _ _ _ F) as I. subst id.
  cbv zeta.
  destruct (negb _ && negb _); [unchanged|].
  destruct (includes _ (Hiring.status hiring)); [unchanged|].
  destruct (negb _ && negb _); [unchanged|].
  assert (K : forall new,
             Hiring._id new = Hiring._id hiring
             /\ Hiring.deposit new = Hiring.deposit hiring
             /\ Hiring.status new = Hiring.status hiring
             /\ Hiring.payments new = Hiring.payments hiring ->
             effect store (saveHiring new store)).
  { intros new (E & D & S & P). hiring_saved hiring.
    - rewrite E. exact F.
    - apply quiet_hiringStep; assumption. }
  split_cases; cbn [fst]; try unchanged; apply K; destruct hiring; repeat split.
Qed.

Lemma guarded_hiring_cases (s : string) :
  includes guardedHiringStatuses s = true ->
  s = "Cancelled" \/ s = "Completed" \/ s = "Rejected".
Proof.
  unfold guardedHiringStatuses, includes. simpl. rewrite orb_false_r.
  intro G. repeat (apply orb_true_iff in G; destruct G as [G|G]);
    apply String.eqb_eq in G; auto.
Qed.

Lemma updateHiringStatus_effect store id status user now rnd :
  effect store
         (fst (HiringController.updateHiringStatus store id status user now rnd)).
Proof.
  unfold HiringController.updateHiringStatus. cbv zeta.
  destruct (negb _); [unchanged|].
  destruct (find _ (hirings store)) as [hiring|] eqn:F; [|unchanged].
  pose proof (find_hiring_id _ _ _ F) as I. subst id.
  fold guardedHiringStatuses.
  destruct (includes guardedHiringStatuses (Hiring.status hiring)) eqn:G; [unchanged|].
  unfold Hiring.handleCancellation. cbv zeta.
  destruct (String.eqb status "Cancelled") eqn:C.
  - apply String.eqb_eq in C. subst status.
    hiring_saved hiring.
    + destruct (Qlt_bool 0 _); [destruct (Qle_bool _ _)|]; exact F.
    + split; [|split; [|split]].
      * destruct (Qlt_bool 0 _); [destruct (Qle_bool _ _)|]; destruct hiring; reflexivity.
      * destruct (Qlt_bool 0 _); [destruct (Qle_bool _ _)|]; destruct hiring; reflexivity.
      * congruence.
      * left.
        destruct (Qlt_bool 0 _); [destruct (Qle_bool _ _)|]; destruct hiring; reflexivity.
  - hiring_saved hiring.
    + exact F.
    + split; [|split; [|split]]; try (destruct hiring; reflexivity).
      * congruence.
      * right. exists []. rewrite app_nil_r.
        split; [destruct hiring; reflexivity|constructor].
Qed.

Lemma cancelHiring_effect store id user now rnd :
  effect store (fst (HiringController.cancelHiring store id user now rnd)).
Proof.
  unfold HiringController.cancelHiring.
  destruct (find _ (hirings store)) as [hiring|] eqn:F; [|unchanged].
  pose proof (find_hiring_id _ _ _ F) as I. subst id.
  destruct (String.eqb (Hiring.status hiring) "Cancelled") eqn:G1; [unchanged|].
  destruct (includes _ (Hiring.status hiring)) eqn:G2; [unchanged|].
  cbv zeta. destruct (Qlt_bool _ 1 && _); [unchanged|].
  unfold Hiring.handleCancellation. cbv zeta.
  hiring_saved hiring.
  - destruct (Qlt_bool 0 _); [destruct (Qle_bool _ _)|]; exact F.
  - split; [|split; [|split]].
    + destruct (Qlt_bool 0 _); [destruct (Qle_bool _ _)|]; destruct hiring; reflexivity.
    + destruct (Qlt_bool 0 _); [destruct (Qle_bool _ _)|]; destruct hiring; reflexivity.
    + intro G. apply guarded_hiring_cases in G.
      unfold includes in G2. simpl in G2.
      destruct G as [G|[G|G]]; rewrite G in *; simpl in *; discriminate.
    + left. reflexivity.
Qed.

Lemma hiringPayment_effect store id body user now rnd :
  effect store (fst (HiringController.processPayment store id body user now rnd)).
Proof.
  unfold HiringController.processPayment.
  destruct (find _ (hirings store)) as [hiring|] eqn:F; [|unchanged].
  pose proof (find_hiring_id _ _ _ F) as I. subst id.
  destruct (includes _ (Hiring.status hiring)) eqn:G; [unchanged|].
  destruct (String.eqb (Hiring.paymentStatus hiring) "Paid"); [unchanged|].
  destruct (Qle_bool _ 0) eqn:A; [unchanged|].
  apply Qle_bool_false_iff in A.
  cbv zeta.
  rewrite processPayment_spec by exact A.
  cbv zeta. simpl Hiring.pd_amount.
  set (p := mkPayment _ _ _ _ _).
  set (ps := if Qle_bool (Hiring.totalCost hiring) _ then _ else _).
  hiring_saved hiring.
  - destruct (_ && _); exact F.
  - split; [|split; [|split]].
    + destruct (_ && _); destruct hiring; reflexivity.
    + destruct (_ && _); destruct hiring; reflexivity.
    + intro K. apply guarded_hiring_cases in K.
      destruct hiring as [i n s]; simpl in *.
      destruct K as [K|[K|K]]; subst s; rewrite andb_false_r; reflexivity.
    + right. exists [p]. split.
      * destruct (_ && _); destruct hiring; reflexivity.
      * repeat constructor. exact A.
Qed.

Lemma approveHiring_effect store id user now :
  effect store (fst (HiringController.approveHiring store id user now)).
Proof.
  unfold HiringController.approveHiring.
  destruct (find _ (hirings store)) as [hiring|] eqn:F; [|unchanged].
  pose proof (find_hiring_id _ _ _ F) as I. subst id.
  destruct (negb _) eqn:G; [unchanged|].
  apply negb_false_iff, String.eqb_eq in G. cbv zeta.
  hiring_saved hiring.
  - exact F.
  - split; [|split; [|split]]; try (destruct hiring; reflexivity).
    + intro K. apply guarded_hiring_cases in K. rewrite G in K.
      destruct K as [K|[K|K]]; discriminate.
    + right. exists []. rewrite app_nil_r.
      split; [destruct hiring; reflexivity|constructor].
Qed.

Lemma rejectHiring_effect store id reason user now rnd :
  effect store (fst (HiringController.rejectHiring store id reason user now rnd)).
Proof.
  unfold HiringController.rejectHiring.
  destruct (String.eqb reason ""); [unchanged|].
  destruct (find _ (hirings store)) as [hiring|] eqn:F; [|unchanged].
  pose proof (find_hiring_id _ _ _ F) as I. subst id.
  destruct (negb _) eqn:G; [unchanged|].
  apply negb_false_iff, String.eqb_eq in G. cbv zeta.
  hiring_saved hiring.
  - destruct (Qlt_bool 0 _); exact F.
  - split; [|split; [|split]].
    + destruct (Qlt_bool 0 _); destruct hiring; reflexivity.
    + destruct (Qlt_bool 0 _); destruct hiring; reflexivity.
    + intro K. apply guarded_hiring_cases in K. rewrite G in K.
      destruct K as [K|[K|K]]; discriminate.
    + left. destruct (Qlt_bool 0 _); destruct hiring; reflexivity.
Qed.

Lemma handle_effect (store : Store) (r : request) : effect store (handle store r).
Proof.
  destruct r; simpl.
  - apply createBooking_effect.
  - apply updateBooking_effect.
  - apply updateBookingStatus_effect.
  - apply cancelBooking_effect.
  - apply bookingPayment_effect.
  - apply createHiring_effect.
  - apply updateHiring_effect.
  - apply updateHiringStatus_effect.
  - apply cancelHiring_effect.
  - apply hiringPayment_effect.
  - apply approveHiring_effect.
  - apply rejectHiring_effect.
Qed.

(** *** What the effects preserve *)

Lemma find_app_found {A : Type} (f : A -> bool) (l l' : list A) (x : A) :
  find f l = Some x -> find f (l ++ l') = Some x.
Proof.
  induction l as [|y l IH]; simpl; [discriminate|].
  destruct (f y); auto.
Qed.

Lemma find_replace_other {A : Type} (key : A -> ObjectId) (new : A) (id : ObjectId)
      (l : list A) :
  key new <> id ->
  find (fun x => (key x =? id)%Z)
       (map (fun x => if (key x =? key new)%Z then new else x) l)
  = find (fun x => (key x =? id)%Z) l.
Proof.
  intro N. induction l as [|y l IH]; simpl; [reflexivity|].
  destruct (key y =? key new)%Z eqn:E.
  - apply Z.eqb_eq in E.
    assert (A1 : (key new =? id)%Z = false) by (apply Z.eqb_neq; exact N).
    assert (A2 : (key y =? id)%Z = false) by (apply Z.eqb_neq; congruence).
    rewrite A1, A2. exact IH.
  - destruct (key y =? id)%Z; [reflexivity|exact IH].
Qed.

Lemma find_after_saveHiring (store : Store) (h old : Hiring.t) :
  find (fun x => (Hiring._id x =? Hiring._id h)%Z) (hirings store) = Some old ->
  find (fun x => (Hiring._id x =? Hiring._id h)%Z) (hirings (saveHiring h store))
  = Some h.
Proof.
  unfold saveHiring. cbn [hirings].
  induction (hirings store) as [|x l IH]; intro F; simpl in *.
  - discriminate.
  - destruct (Hiring._id x =? Hiring._id h)%Z eqn:E.
    + rewrite Z.eqb_refl. reflexivity.
    + rewrite E. apply IH. exact F.
Qed.

Lemma effect_keeps_booking (store store' : Store) (id : ObjectId) (b : Booking.t) :
  effect store store' ->
  find (fun x => (Booking._id x =? id)%Z) (bookings store) = Some b ->
  includes guardedBookingStatuses (Booking.status b) = true ->
  exists b',
    find (fun x => (Booking._id x =? id)%Z) (bookings store') = Some b'
    /\ Booking.status b' = Booking.status b.
Proof.
  intros E F G.
  destruct E as [E|[(x & E & _)|[(h & E & _)|[(old & new & O & E & I & S & _)|(old & new & _ & E & _)]]]];
    subst store'.
  - exists b. auto.
  - exists b. split; [|reflexivity]. apply find_app_found. exact F.
  - exists b. auto.
  - destruct (Z.eq_dec (Booking._id new) id) as [D|D].
    + subst id. rewrite F in O. injection O as <-.
      exists new. split; [|auto].
      apply (find_after_saveBooking store new b F).
    + exists b. split; [|reflexivity].
      unfold saveBooking. cbn [bookings].
      rewrite (find_replace_other Booking._id new id _ D). exact F.
  - exists b. auto.
Qed.

Lemma effect_keeps_hiring (store store' : Store) (id : ObjectId) (h : Hiring.t) :
  effect store store' ->
  find (fun x => (Hiring._id x =? id)%Z) (hirings store) = Some h ->
  includes guardedHiringStatuses (Hiring.status h) = true ->
  exists h',
    find (fun x => (Hiring._id x =? id)%Z) (hirings store') = Some h'
    /\ Hiring.status h' = Hiring.status h.
Proof.
  intros E F G.
  destruct E as [E|[(x & E & _)|[(y & E & _)|[(old & new & _ & E & _)|(old & new & O & E & I & _ & S & _)]]]];
    subst store'.
  - exists h. auto.
  - exists h. auto.
  - exists h. split; [|reflexivity]. apply find_app_found. exact F.
  - exists h. auto.
  - destruct (Z.eq_dec (Hiring._id new) id) as [D|D].
    + subst id. rewrite F in O. injection O as <-.
      exists new. split; [|auto].
      apply (find_after_saveHiring store new h F).
    + exists h. split; [|reflexivity].
      unfold saveHiring. cbn [hirings].
      rewrite (find_replace_other Hiring._id new id _ D). exact F.
Qed.

Lemma run_keeps_booking (requests : list request) (store : Store) (id : ObjectId)
      (b : Booking.t) :
  find (fun x => (Booking._id x =? id)%Z) (bookings store) = Some b ->
  includes guardedBookingStatuses (Booking.status b) = true ->
  exists b',
    find (fun x => (Booking._id x =? id)%Z) (bookings (run store requests)) = Some b'
    /\ Booking.status b' = Booking.status b.
Proof.
  revert store b. induction requests as [|r rs IH]; intros store b F G.
  - exists b. auto.
  - destruct (effect_keeps_booking store (handle store r) id b
                                   (handle_effect store r) F G) as (b1 & F1 & S1).
    destruct (IH (handle store r) b1 F1) as (b2 & F2 & S2); [congruence|].
    exists b2. split; [exact F2|congruence].
Qed.

Lemma run_keeps_hiring (requests : list request) (store : Store) (id : ObjectId)
      (h : Hiring.t) :
  find (fun x => (Hiring._id x =? id)%Z) (hirings store) = Some h ->
  includes guardedHiringStatuses (Hiring.status h) = true ->
  exists h',
    find (fun x => (Hiring._id x =? id)%Z) (hirings (run store requests)) = Some h'
    /\ Hiring.status h' = Hiring.status h.
Proof.
  revert store h. induction requests as [|r rs IH]; intros store h F G.
  - exists h. auto.
  - destruct (effect_keeps_hiring store (handle store r) id h
                                  (handle_effect store r) F G) as (h1 & F1 & S1).
    destruct (IH (handle store r) h1 F1) as (h2 & F2 & S2); [congruence|].
    exists h2. split; [exact F2|congruence].
Qed.







(** C6 (amended).  For a booking that is Cancelled or Completed,
    [updateBookingStatus] answers every request for another status with an
    error 400 and an unchanged store, leaves the status as it is whatever is
    requested, and [cancelBooking] answers with an error 400.  For a hiring
    that is Cancelled, Completed or Rejected, [updateHiringStatus] and
    [cancelHiring] answer every request with an error 400 and an unchanged
    store.  After any sequence of requests to the two controllers, such a
    booking and such a hiring are still stored with the status they had. *)
Theorem guarded_statuses_are_final :
  (forall store id status user now booking,
      find (fun b => (Booking._id b =? id)%Z) (bookings store) = Some booking ->
      includes guardedBookingStatuses (Booking.status booking) = true ->
      (status <> Booking.status booking ->
       exists message,
         BookingController.updateBookingStatus store id status user now
         = (store, error 400 message))
      /\ (exists booking',
             find (fun b => (Booking._id b =? id)%Z)
                  (bookings (fst (BookingController.updateBookingStatus
                                    store id status user now)))
             = Some booking'
             /\ Booking.status booking' = Booking.status booking)
      /\ (exists message,
             BookingController.cancelBooking store id user now
             = (store, error 400 message)))
  /\
  (forall store id status user now rnd hiring,
      find (fun h => (Hiring._id h =? id)%Z) (hirings store) = Some hiring ->
      includes guardedHiringStatuses (Hiring.status hiring) = true ->
      (exists message,
          HiringController.updateHiringStatus store id status user now rnd
          = (store, error 400 message))
      /\ (exists message,
             HiringController.cancelHiring store id user now rnd
             = (store, error 400 message)))
  /\
  (forall requests store id booking,
      find (fun b => (Booking._id b =? id)%Z) (bookings store) = Some booking ->
      includes guardedBookingStatuses (Booking.status booking) = true ->
      exists booking',
        find (fun b => (Booking._id b =? id)%Z) (bookings (run store requests))
        = Some booking'
        /\ Booking.status booking' = Booking.status booking)
  /\
  (forall requests store id hiring,
      find (fun h => (Hiring._id h =? id)%Z) (hirings store) = Some hiring ->
      includes guardedHiringStatuses (Hiring.status hiring) = true ->
      exists hiring',
        find (fun h => (Hiring._id h =? id)%Z) (hirings (run store requests))
        = Some hiring'
        /\ Hiring.status hiring' = Hiring.status hiring).
Proof.
  split; [|split; [|split]];
    [| |intros; eapply run_keeps_booking; eassumption
       |intros; eapply run_keeps_hiring; eassumption].
  - intros store id status user now booking F G.
    assert (T : Booking.status booking = "Cancelled"
                \/ Booking.status booking = "Completed").
    { unfold guardedBookingStatuses, includes in G. simpl in G.
      rewrite orb_false_r in G.
      apply orb_true_iff in G. destruct G as [G|G]; apply String.eqb_eq in G; auto. }
    split; [|split].
    + intro N. unfold BookingController.updateBookingStatus.
      destruct (negb (includes _ status)); [eexists; reflexivity|].
      rewrite F.
      assert (D : String.eqb status (Booking.status booking) = false)
        by (apply String.eqb_neq; exact N).
      destruct T as [T|T]; rewrite T in *; rewrite D; simpl; eexists; reflexivity.
    + unfold BookingController.updateBookingStatus.
      destruct (negb (includes _ status)); [exists booking; auto|].
      rewrite F.
      destruct (String.eqb status (Booking.status booking)) eqn:D.
      * apply String.eqb_eq in D.
        pose proof (find_booking_id _ _ _ F) as I. subst id.
        exists (Booking.set_status status booking).
        split; [|rewrite D; destruct booking; reflexivity].
        destruct T as [T|T]; rewrite T in *; rewrite D; simpl negb; cbv iota;
          simpl andb; cbv iota zeta; cbn [fst].
        all: exact (find_after_saveBooking
                      store (Booking.set_status _ booking) booking F).
      * exists booking.
        destruct T as [T|T]; rewrite T in *; rewrite D; simpl; auto.
    + unfold BookingController.cancelBooking. rewrite F.
      destruct T as [T|T]; rewrite T; simpl; eexists; reflexivity.
  - intros store id status user now rnd hiring F G. split.
    + unfold HiringController.updateHiringStatus.
      destruct (negb (includes _ status)); [eexists; reflexivity|].
      fold guardedHiringStatuses. rewrite F, G. eexists; reflexivity.
    + unfold HiringController.cancelHiring. rewrite F.
      destruct (String.eqb (Hiring.status hiring) "Cancelled") eqn:C;
        [eexists; reflexivity|].
      assert (G' : includes ["Completed"; "Rejected"] (Hiring.status hiring) = true).
      { unfold guardedHiringStatuses, includes in *. simpl in *.
        rewrite C in G. exact G. }
      rewrite G'. eexists; reflexivity.
Qed.

(** C6 as stated fails.  A No-Show booking is moved to Confirmed, a
    Refunded booking and a Refunded hiring are moved to Pending, and a
    request to set a Cancelled booking to Cancelled is answered with
    success. *)
Lemma unguarded_statuses_can_be_left :
  (exists store' booking',
      BookingController.updateBookingStatus Scenario.noShowStore 1%Z "Confirmed"
        Scenario.admin (Scenario.atDay 11)
      = (store', success 200 (BookingController.mkStatusData "Confirmed"))
      /\ Booking.status Scenario.noShowBooking = "No-Show"
      /\ find (fun b => (Booking._id b =? 1)%Z) (bookings store') = Some booking'
      /\ Booking.status booking' = "Confirmed")
  /\ (exists store',
         BookingController.updateBookingStatus Scenario.refundedStore 1%Z "Pending"
           Scenario.admin (Scenario.atDay 1)
         = (store', success 200 (BookingController.mkStatusData "Pending")))
  /\ (exists store',
         HiringController.updateHiringStatus Scenario.refundedStore 1%Z "Pending"
           Scenario.admin (Scenario.atDay 1) "0A1B2C3D"
         = (store', success 200 (HiringController.mkStatusData "Pending")))
  /\ (exists store',
         BookingController.updateBookingStatus Scenario.cancelledStore 1%Z
           "Cancelled" Scenario.admin (Scenario.atDay 1)
         = (store', success 200 (BookingController.mkStatusData "Cancelled"))).
Proof.
  split; [|split; [|split]].
  - do 2 eexists. split; [vm_compute; reflexivity|].
    split; [reflexivity|]. split; [vm_compute; reflexivity|reflexivity].
  - eexists. vm_compute. reflexivity.
  - eexists. vm_compute. reflexivity.
  - eexists. vm_compute. reflexivity.
Qed.

(** C6 (amended) at a cancelled booking and a cancelled hiring. *)
Lemma guarded_statuses_are_final_witness :
  (exists message,
      BookingController.updateBookingStatus Scenario.cancelledStore 1%Z "Confirmed"
        Scenario.admin (Scenario.atDay 2)
      = (Scenario.cancelledStore, error 400 message))
  /\ (exists message,
         HiringController.updateHiringStatus Scenario.cancelledStore 1%Z "Confirmed"
           Scenario.admin (Scenario.atDay 2) "0A1B2C3D"
         = (Scenario.cancelledStore, error 400 message))
  /\ (exists booking',
         find (fun b => (Booking._id b =? 1)%Z)
              (bookings (run Scenario.cancelledStore Scenario.requestsOnCancelled))
         = Some booking'
         /\ Booking.status booking' = "Cancelled")
  /\ (exists hiring',
         find (fun h => (Hiring._id h =? 1)%Z)
              (hirings (run Scenario.cancelledStore Scenario.requestsOnCancelled))
         = Some hiring'
         /\ Hiring.status hiring' = "Cancelled").
Proof.
  destruct guarded_statuses_are_final as (B & H & RB & RH).
  split; [|split; [|split]].
  - refine (proj1 (B Scenario.cancelledStore 1%Z "Confirmed" Scenario.admin
                     (Scenario.atDay 2) Scenario.cancelledBooking eq_refl eq_refl) _).
    discriminate.
  - exact (proj1 (H Scenario.cancelledStore 1%Z "Confirmed" Scenario.admin
                    (Scenario.atDay 2) "0A1B2C3D" _ eq_refl eq_refl)).
  - exact (RB Scenario.requestsOnCancelled Scenario.cancelledStore 1%Z
              Scenario.cancelledBooking eq_refl eq_refl).
  - exact (RH Scenario.requestsOnCancelled Scenario.cancelledStore 1%Z
              _ eq_refl eq_refl).
Defined.

(** The model method [updateStatus] has no guard at all: it moves a
    cancelled booking back to Pending. *)
Lemma model_updateStatus_is_unguarded :
  exists booking' change,
    Booking.updateStatus Scenario.cancelledBooking "Pending" (Scenario.atDay 2)
                         "0A1B2C3D"
    = Returned (booking', change)
    /\ Booking.status booking' = "Pending".
Proof. do 2 eexists. split; [vm_compute; reflexivity|reflexivity]. Qed.

(** A hiring made by [createHiring] is pending, has no deposit and an
    empty ledger. *)
Lemma created_hiring_defaults store body user newId rnd store' h :
  HiringController.createHiring store body user newId rnd = (store', success 201 h) ->
  Hiring.status h = "Pending" /\ Hiring.deposit h = 0 /\ Hiring.payments h = [].
Proof.
  unfold HiringController.createHiring.
  destruct (find _ (buses store)); [|discriminate].
  cbv zeta. destruct (0 <? _)%Z; [discriminate|].
  intro E. injection E as _ <-. repeat split.
Qed.



(** ** Ledgers of the stored bookings *)




(** * Further properties of the engine *)

(** ** Rounding and ceilings *)

Lemma round2_nonneg (x : Q) : 0 <= x -> 0 <= round2 x.
Proof.
  intros H. unfold round2.
  assert (0 <= Qfloor (x * 100 + (1 # 2)))%Z.
  { change 0%Z with (Qfloor 0). apply Qfloor_resp_le. lra. }
  apply Qle_shift_div_l; [reflexivity|].
  rewrite Qmult_0_l. change 0 with (inject_Z 0). rewrite <- Zle_Qle. assumption.
Qed.

Lemma round2_le (x y : Q) : x <= y -> round2 x <= round2 y.
Proof.
  intros H. unfold round2.
  apply Qmult_le_compat_r; [|discriminate].
  rewrite <- Zle_Qle. apply Qfloor_resp_le. lra.
Qed.

Lemma ceil_nonneg (x : Q) : 0 <= x -> 0 <= ceil x.
Proof.
  intros H. unfold ceil. change 0 with (inject_Z 0). rewrite <- Zle_Qle.
  change 0%Z with (Qceiling 0). apply Qceiling_resp_le. assumption.
Qed.

Lemma ceil_comp (x y : Q) : x == y -> ceil x = ceil y.
Proof. intros E. unfold ceil. rewrite E. reflexivity. Qed.

Lemma Qceiling_unique (y : Q) (n : Z) :
  inject_Z (n - 1) < y -> y <= inject_Z n -> Qceiling y = n.
Proof.
  intros L U. unfold Qceiling.
  assert (F : Qfloor (- y) = (- n)%Z).
  { apply Qfloor_unique.
    - rewrite inject_Z_opp. lra.
    - replace (- n + 1)%Z with (- (n - 1))%Z by lia. rewrite inject_Z_opp. lra. }
  rewrite F. lia.
Qed.

Lemma Qceiling_bounds (y : Q) :
  inject_Z (Qceiling y - 1) < y /\ y <= inject_Z (Qceiling y).
Proof. split; [exact (Qceiling_lt y)|apply Qle_ceiling]. Qed.

Lemma Qmult_le_left (a x y : Q) : 0 <= a -> x <= y -> a * x <= a * y.
Proof.
  intros A H. rewrite !(Qmult_comm a). apply Qmult_le_compat_r; assumption.
Qed.


(** ** Lists and queries *)

Lemma filter_nil_false {A : Type} (f : A -> bool) (l : list A) (x : A) :
  (0 <? Z.of_nat (List.length (filter f l)))%Z = false -> In x l -> f x = false.
Proof.
  intros E I. destruct (f x) eqn:H; [|reflexivity].
  rewrite (filter_hit f l x I H) in E. discriminate.
Qed.

Lemma filter_and_empty {A : Type} (f g : A -> bool) (l : list A) :
  (0 <? Z.of_nat (List.length (filter f l)))%Z = false ->
  (0 <? Z.of_nat (List.length (filter (fun x => f x && g x) l)))%Z = false.
Proof.
  intros H. destruct (filter f l) as [|y rest] eqn:E.
  - replace (filter (fun x => f x && g x) l) with (@nil A); [reflexivity|].
    symmetry. induction l as [|x l IH]; [reflexivity|].
    simpl in E |- *. destruct (f x); [discriminate|]. simpl. apply IH, E.
  - simpl in H. apply Z.ltb_ge in H. lia.
Qed.

Lemma filter_same {A : Type} (f g : A -> bool) (l : list A) :
  (forall x, In x l -> f x = g x) -> filter f l = filter g l.
Proof.
  induction l as [|x l IH]; intros H; [reflexivity|].
  simpl. rewrite (H x (or_introl eq_refl)), IH; [reflexivity|].
  intros y I. apply H. right. exact I.
Qed.

Lemma filter_none {A : Type} (f : A -> bool) (l : list A) :
  existsb f l = false -> filter f l = [].
Proof.
  induction l as [|x l IH]; [reflexivity|].
  simpl. intros E. apply orb_false_iff in E. destruct E as [E1 E2].
  rewrite E1. apply IH. exact E2.
Qed.


Lemma length_zero_nil {A : Type} (l : list A) :
  (0 <? Z.of_nat (List.length l))%Z = false -> l = [].
Proof. destruct l; [reflexivity|]. simpl. intros H. apply Z.ltb_ge in H. lia. Qed.

Lemma positive_or_zero (n : nat) :
  (Z.of_nat n =? 0)%Z = negb (0 <? Z.of_nat n)%Z.
Proof. destruct n; reflexivity. Qed.


Lemma includes_in (l : list string) (s : string) : includes l s = true <-> In s l.
Proof.
  unfold includes. rewrite existsb_exists. split.
  - intros (y & I & E). apply String.eqb_eq in E. subst. exact I.
  - intros I. exists s. split; [exact I|apply String.eqb_refl].
Qed.


(** ** Cost and fare of the model methods *)

Lemma charges_from (l : list Hiring.Charge) (a : Q) :
  Forall (fun c => 0 <= Hiring.chargeAmount c) l ->
  a <= fold_left (fun acc charge => acc + Hiring.chargeAmount charge) l a.
Proof.
  intros H. revert a. induction H as [|c l Hc _ IH]; intros a; simpl.
  - lra.
  - specialize (IH (a + Hiring.chargeAmount c)). lra.
Qed.

Lemma duration_nonneg (s e : Instant) (k : Q) :
  (s <= e)%Z -> 0 < k -> 0 <= inject_Z (e - s) / k.
Proof.
  intros H K. apply Qle_shift_div_l; [assumption|].
  rewrite Qmult_0_l. change 0 with (inject_Z 0). rewrite <- Zle_Qle. lia.
Qed.

(** X1.  For a hiring whose window is not reversed, whose base rate and
    estimated distance are not negative and whose additional charges are
    not negative, [calculateTotalCost] returns and stores a cost that is
    not negative, whatever the rate type, the allowance, the overtime rate
    and the round-trip flag. *)
Theorem calculateTotalCost_is_not_negative (this : Hiring.t) :
  (Hiring.startDate this <= Hiring.endDate this)%Z ->
  0 <= Hiring.baseRate this ->
  0 <= Hiring.estimatedDistance this ->
  Forall (fun c => 0 <= Hiring.chargeAmount c) (Hiring.additionalCharges this) ->
  exists this' cost,
    Hiring.calculateTotalCost this = Returned (this', cost)
    /\ Hiring.totalCost this' = cost
    /\ 0 <= cost.
Proof.
  intros Hw Hb Hd Hc. unfold Hiring.calculateTotalCost.
  do 2 eexists. split; [reflexivity|]. split; [reflexivity|].
  cbv zeta.
  set (hours := inject_Z (Hiring.endDate this - Hiring.startDate this) / msPerHour).
  assert (Hh : 0 <= hours) by (apply duration_nonneg; [assumption|reflexivity]).
  assert (Hdays : 0 <= hours / 24).
  { apply Qle_shift_div_l; [reflexivity|]. lra. }
  pose proof (ceil_nonneg _ Hdays) as Hcd.
  pose proof (ceil_nonneg _ Hh) as Hch.
  set (base := if String.eqb (Hiring.rateType this) "Per Day" then _ else _).
  assert (B : 0 <= base).
  { subst base.
    destruct (String.eqb _ "Per Day"); [apply Qmult_le_0_compat; assumption|].
    destruct (String.eqb _ "Per Hour"); [apply Qmult_le_0_compat; assumption|].
    destruct (String.eqb _ "Per Kilometer"); [apply Qmult_le_0_compat; assumption|].
    destruct (String.eqb _ "Fixed"); [assumption|].
    apply Qmult_le_0_compat; assumption. }
  set (withDriver := if Qlt_bool 0 (Hiring.driverAllowance this) then _ else _).
  assert (D : 0 <= withDriver).
  { subst withDriver. destruct (Qlt_bool 0 _) eqn:E; [|assumption].
    apply Qlt_bool_iff in E. lra. }
  set (withOvertime := if (_ && _)%bool then _ else _).
  assert (O : 0 <= withOvertime).
  { subst withOvertime.
    destruct (Qlt_bool (ceil (hours / 24) * 8) hours) eqn:E1; simpl; [|assumption].
    destruct (Qlt_bool 0 (Hiring.overtimeRate this)) eqn:E2; [|assumption].
    apply Qlt_bool_iff in E1, E2.
    assert (0 <= (hours - ceil (hours / 24) * 8) * Hiring.overtimeRate this).
    { apply Qmult_le_0_compat; lra. }
    lra. }
  pose proof (charges_from _ withOvertime Hc) as C.
  apply round2_nonneg.
  destruct (Hiring.isRoundTrip this).
  - apply Qmult_le_0_compat; [lra|discriminate].
  - lra.
Qed.

Lemma calculateTotalCost_is_not_negative_witness :
  exists this' cost,
    Hiring.calculateTotalCost Scenario.outerHiring = Returned (this', cost)
    /\ Hiring.totalCost this' = cost
    /\ 0 <= cost.
Proof.
  apply calculateTotalCost_is_not_negative.
  - vm_compute. discriminate.
  - vm_compute. discriminate.
  - vm_compute. discriminate.
  - constructor.
Defined.



(** X3.  The virtuals [durationDays] and [durationHours] agree: the day
    count is the hour count divided by 24 and rounded up, so the hours
    never exceed 24 times the days; both are not negative when the window
    is not reversed; and a hiring without allowance, overtime rate, extra
    charges and round trip costs the base rate times [durationDays] when
    priced per day and times [durationHours] when priced per hour. *)
Theorem durations_of_a_hiring (this : Hiring.t) :
  HiringMethods.durationDays this = ceil (HiringMethods.durationHours this / 24)
  /\ HiringMethods.durationHours this <= 24 * HiringMethods.durationDays this
  /\ ((Hiring.startDate this <= Hiring.endDate this)%Z ->
      0 <= HiringMethods.durationHours this /\ 0 <= HiringMethods.durationDays this)
  /\ (Hiring.driverAllowance this <= 0 ->
      Hiring.overtimeRate this <= 0 ->
      Hiring.additionalCharges this = [] ->
      Hiring.isRoundTrip this = false ->
      exists this' cost,
        Hiring.calculateTotalCost this = Returned (this', cost)
        /\ (Hiring.rateType this = "Per Day" ->
            cost = round2 (Hiring.baseRate this * HiringMethods.durationDays this))
        /\ (Hiring.rateType this = "Per Hour" ->
            cost = round2 (Hiring.baseRate this * HiringMethods.durationHours this))).
Proof.
  unfold HiringMethods.durationDays, HiringMethods.durationHours. cbv zeta.
  set (ms := inject_Z (Hiring.endDate this - Hiring.startDate this)).
  assert (E : ms / msPerHour / 24 == ms / msPerDay).
  { unfold msPerHour, msPerDay. field. }
  assert (E' : ms / msPerHour == 24 * (ms / msPerDay)).
  { unfold msPerHour, msPerDay. field. }
  assert (M : (Hiring.startDate this <= Hiring.endDate this)%Z ->
              0 <= ms / msPerHour).
  { intros W. apply Qle_shift_div_l; [reflexivity|].
    rewrite Qmult_0_l. unfold ms. change 0 with (inject_Z 0).
    rewrite <- Zle_Qle. lia. }
  set (h := ms / msPerHour) in *. set (d := ms / msPerDay) in *.
  destruct (Qceiling_bounds d) as [L U].
  destruct (Qceiling_bounds h) as [Lh Uh].
  set (n := Qceiling d) in *.
  set (k := Qceiling h) in *.
  assert (K : (24 * (n - 1) < k <= 24 * n)%Z).
  { split.
    - apply Z.lt_le_trans with (m := (24 * (n - 1) + 1)%Z); [lia|].
      assert (inject_Z (24 * (n - 1)) < inject_Z k).
      { rewrite inject_Z_mult. change (inject_Z 24) with 24. lra. }
      rewrite <- Zlt_Qlt in H. lia.
    - assert (X : h <= inject_Z (24 * n)).
      { rewrite inject_Z_mult. change (inject_Z 24) with 24. lra. }
      assert (Y : (Qceiling h <= Qceiling (inject_Z (24 * n)))%Z)
        by (apply Qceiling_resp_le; exact X).
      rewrite Qceiling_Z in Y. exact Y. }
  assert (K1 : 24 * inject_Z (n - 1) < inject_Z k).
  { change 24 with (inject_Z 24). rewrite <- inject_Z_mult, <- Zlt_Qlt. lia. }
  assert (K2 : inject_Z k <= 24 * inject_Z n).
  { change 24 with (inject_Z 24). rewrite <- inject_Z_mult, <- Zle_Qle. lia. }
  split; [|split; [|split]].
  - unfold ceil. f_equal. symmetry. apply Qceiling_unique.
    + apply Qlt_shift_div_l; [reflexivity|]. fold n k. lra.
    + apply Qle_shift_div_r; [reflexivity|]. fold n k. lra.
  - unfold ceil. fold n k. lra.
  - intros W. specialize (M W). unfold ceil. fold n k. split; lra.
  - intros D O C R. unfold Hiring.calculateTotalCost. cbv zeta.
    rewrite C, R. cbn [fold_left]. fold ms. fold h.
    apply Qlt_bool_false_iff in D, O. rewrite D, O, andb_false_r.
    do 2 eexists. split; [reflexivity|]. split.
    + intros ->. change (String.eqb "Per Day" "Per Day") with true. cbv iota.
      rewrite (ceil_comp _ _ E). reflexivity.
    + intros ->. reflexivity.
Qed.

Lemma durations_of_a_hiring_witness :
  0 <= HiringMethods.durationHours Scenario.outerHiring
  /\ 0 <= HiringMethods.durationDays Scenario.outerHiring
  /\ exists this' cost,
      Hiring.calculateTotalCost Scenario.outerHiring = Returned (this', cost)
      /\ cost = round2 (Hiring.baseRate Scenario.outerHiring
                        * HiringMethods.durationDays Scenario.outerHiring).
Proof.
  destruct (durations_of_a_hiring Scenario.outerHiring) as (_ & _ & N & C).
  assert (W : (Hiring.startDate Scenario.outerHiring
               <= Hiring.endDate Scenario.outerHiring)%Z)
    by (vm_compute; discriminate).
  destruct (N W) as [Nh Nd].
  split; [exact Nh|]. split; [exact Nd|].
  assert (A : Hiring.driverAllowance Scenario.outerHiring <= 0)
    by (vm_compute; discriminate).
  assert (O : Hiring.overtimeRate Scenario.outerHiring <= 0)
    by (vm_compute; discriminate).
  destruct (C A O eq_refl eq_refl) as (this' & cost & R & Pd & _).
  exists this', cost. split; [exact R|]. apply Pd. reflexivity.
Defined.


(** ** Refunds and the time left *)

Lemma hiring_tiers_monotone (policy : string) (d1 d2 : Q) :
  d1 <= d2 ->
  0 <= Hiring.refundPercentageOf policy d1
  /\ Hiring.refundPercentageOf policy d1 <= Hiring.refundPercentageOf policy d2
  /\ Hiring.refundPercentageOf policy d2 <= 1.
Proof.
  intros H. unfold Hiring.refundPercentageOf.
  destruct (String.eqb policy "Standard");
    [|destruct (String.eqb policy "Flexible");
      [|destruct (String.eqb policy "Strict")]];
    tiers; repeat split; lra.
Qed.


Lemma booking_tiers_monotone (t1 t2 : Q) :
  t1 <= t2 ->
  0 <= Booking.refundPercentageOf t1
  /\ Booking.refundPercentageOf t1 <= Booking.refundPercentageOf t2
  /\ Booking.refundPercentageOf t2 <= 1.
Proof.
  intros H. unfold Booking.refundPercentageOf. tiers; repeat split; lra.
Qed.

Lemma time_left_shrinks (start now1 now2 : Instant) (k : Q) :
  (now1 <= now2)%Z -> 0 < k ->
  inject_Z (start - now2) / k <= inject_Z (start - now1) / k.
Proof.
  intros H K. apply Qmult_le_compat_r.
  - rewrite <- Zle_Qle. lia.
  - apply Qlt_le_weak, Qinv_lt_0_compat, K.
Qed.

(** X4.  Waiting never raises a refund.  Of two calls of
    [handleCancellation] on the same hiring (the same booking), the later
    one yields a refund percentage that is not larger; percentages lie
    between 0 and 1; and when the amount paid (the total fare) is not
    negative the later refund amount is not larger either. *)
Theorem waiting_never_raises_the_refund :
  (forall (this : Hiring.t) (now1 now2 : Instant) (rnd1 rnd2 : string),
      (now1 <= now2)%Z ->
      exists h1 r1 h2 r2,
        Hiring.handleCancellation this now1 rnd1 = Returned (h1, r1)
        /\ Hiring.handleCancellation this now2 rnd2 = Returned (h2, r2)
        /\ 0 <= Hiring.cr_refundPercentage r2
        /\ Hiring.cr_refundPercentage r2 <= Hiring.cr_refundPercentage r1
        /\ Hiring.cr_refundPercentage r1 <= 1
        /\ (0 <= Hiring.totalPaid this ->
            Hiring.cr_refundAmount r2 <= Hiring.cr_refundAmount r1))
  /\
  (forall (this : Booking.t) (now1 now2 : Instant) (rnd1 rnd2 : string),
      (now1 <= now2)%Z ->
      exists b1 r1 b2 r2,
        Booking.handleCancellation this now1 rnd1 = Returned (b1, r1)
        /\ Booking.handleCancellation this now2 rnd2 = Returned (b2, r2)
        /\ 0 <= Booking.cr_refundPercentage r2
        /\ Booking.cr_refundPercentage r2 <= Booking.cr_refundPercentage r1
        /\ Booking.cr_refundPercentage r1 <= 1
        /\ (0 <= Booking.totalFare this ->
            Booking.cr_refundAmount r2 <= Booking.cr_refundAmount r1)).
Proof.
  split.
  - intros this now1 now2 rnd1 rnd2 H.
    unfold Hiring.handleCancellation. do 4 eexists.
    split; [reflexivity|]. split; [reflexivity|].
    cbn [Hiring.cr_refundPercentage Hiring.cr_refundAmount].
    pose proof (time_left_shrinks (Hiring.startDate this) now1 now2 msPerDay H eq_refl)
      as T.
    destruct (hiring_tiers_monotone (Hiring.cancellationPolicy this) _ _ T)
      as (A & B & C).
    repeat split; try assumption.
    intros P. apply round2_le. unfold Hiring.totalPaid in P.
    apply Qmult_le_left; assumption.
  - intros this now1 now2 rnd1 rnd2 H.
    unfold Booking.handleCancellation. do 4 eexists.
    split; [reflexivity|]. split; [reflexivity|].
    cbn [Booking.cr_refundPercentage Booking.cr_refundAmount].
    pose proof (time_left_shrinks (Booking.departureDate this) now1 now2 msPerHour H
                                  eq_refl) as T.
    destruct (booking_tiers_monotone _ _ T) as (A & B & C).
    repeat split; try assumption.
    intros P. apply Qmult_le_left; assumption.
Qed.

Lemma waiting_never_raises_the_refund_witness :
  (exists h1 r1 h2 r2,
      Hiring.handleCancellation Cases.paidHiring (Scenario.atDay 2) "0A1B2C3D"
      = Returned (h1, r1)
      /\ Hiring.handleCancellation Cases.paidHiring (Scenario.atDay 8) "4E5F6A7B"
         = Returned (h2, r2)
      /\ Hiring.cr_refundPercentage r2 <= Hiring.cr_refundPercentage r1
      /\ Hiring.cr_refundAmount r2 <= Hiring.cr_refundAmount r1)
  /\ (exists b1 r1 b2 r2,
         Booking.handleCancellation Scenario.paidBooking (Scenario.atDay 2) "0A1B2C3D"
         = Returned (b1, r1)
         /\ Booking.handleCancellation Scenario.paidBooking (Scenario.atDay 8)
                                       "4E5F6A7B"
            = Returned (b2, r2)
         /\ Booking.cr_refundPercentage r2 <= Booking.cr_refundPercentage r1
         /\ Booking.cr_refundAmount r2 <= Booking.cr_refundAmount r1).
Proof.
  split.
  - destruct (proj1 waiting_never_raises_the_refund Cases.paidHiring
                    (Scenario.atDay 2) (Scenario.atDay 8) "0A1B2C3D" "4E5F6A7B")
      as (h1 & r1 & h2 & r2 & E1 & E2 & _ & P & _ & A).
    { vm_compute. discriminate. }
    exists h1, r1, h2, r2. split; [exact E1|]. split; [exact E2|].
    split; [exact P|]. apply A. vm_compute. discriminate.
  - destruct (proj2 waiting_never_raises_the_refund Scenario.paidBooking
                    (Scenario.atDay 2) (Scenario.atDay 8) "0A1B2C3D" "4E5F6A7B")
      as (b1 & r1 & b2 & r2 & E1 & E2 & _ & P & _ & A).
    { vm_compute. discriminate. }
    exists b1, r1, b2, r2. split; [exact E1|]. split; [exact E2|].
    split; [exact P|]. apply A. vm_compute. discriminate.
Defined.







(** ** Payments at the endpoints *)

(** X8.  Once a payment has made a booking (a hiring) Paid, every further
    payment request for it is refused with 400 "already fully paid" and
    leaves the store as it is. *)
Theorem a_paid_reservation_takes_no_more_payments :
  (forall store id body user now rnd store' report body' user' now' rnd',
      BookingController.processPayment store id body user now rnd
      = (store', success 200 report) ->
      BookingController.rp_paymentStatus report = "Paid" ->
      BookingController.processPayment store' id body' user' now' rnd'
      = (store', error 400 "Booking is already fully paid"))
  /\
  (forall store id body user now rnd store' report body' user' now' rnd',
      HiringController.processPayment store id body user now rnd
      = (store', success 200 report) ->
      HiringController.rp_paymentStatus report = "Paid" ->
      HiringController.processPayment store' id body' user' now' rnd'
      = (store', error 400 "Hiring request is already fully paid")).
Proof.
  split.
  - intros store id body user now rnd store' report body' user' now' rnd' H P.
    unfold BookingController.processPayment in H.
    destruct (find _ (bookings store)) as [booking|] eqn:F; [|discriminate].
    destruct (String.eqb (Booking.status booking) "Cancelled") eqn:C; [discriminate|].
    destruct (String.eqb (Booking.paymentStatus booking) "Paid"); [discriminate|].
    destruct (Qle_bool (BookingController.pb_amount body) 0); [discriminate|].
    cbv zeta in H.
    pose proof (find_booking_id _ _ _ F) as I. subst id.
    assert (G : forall saved report0,
               Booking._id saved = Booking._id booking ->
               String.eqb (Booking.status saved) "Cancelled" = false ->
               (saveBooking saved store, success 200 report0)
               = (store', success 200 report) ->
               BookingController.rp_paymentStatus report0
               = Booking.paymentStatus saved ->
               BookingController.processPayment store' (Booking._id booking)
                                                body' user' now' rnd'
               = (store', error 400 "Booking is already fully paid")).
    { intros saved report0 Is Ss E Ps. injection E as <- <-.
      rewrite Ps in P.
      assert (F' : find (fun b => (Booking._id b =? Booking._id booking)%Z)
                        (bookings (saveBooking saved store)) = Some saved).
      { rewrite <- Is. apply (find_after_saveBooking store saved booking).
        rewrite Is. exact F. }
      unfold BookingController.processPayment. rewrite F', Ss, P. reflexivity. }
    destruct (Qle_bool _ _) in H;
      cbn [Booking.paymentStatus Booking.set_paymentStatus] in H;
      [change (String.eqb "Paid" "Paid") with true in H
      |change (String.eqb "Partially Paid" "Paid") with false in H];
      cbn [andb] in H.
    + cbn [Booking.status Booking.set_payments Booking.set_paymentStatus] in H.
      destruct (String.eqb (Booking.status booking) "Pending") eqn:Pe.
      * refine (G _ _ _ _ H _); reflexivity.
      * refine (G _ _ _ _ H _); [reflexivity|exact C|reflexivity].
    + refine (G _ _ _ _ H _); [reflexivity|exact C|reflexivity].
  - intros store id body user now rnd store' report body' user' now' rnd' H P.
    unfold HiringController.processPayment in H.
    destruct (find _ (hirings store)) as [hiring|] eqn:F; [|discriminate].
    destruct (includes ["Cancelled"; "Rejected"] (Hiring.status hiring)) eqn:C;
      [discriminate|].
    destruct (String.eqb (Hiring.paymentStatus hiring) "Paid"); [discriminate|].
    destruct (Qle_bool (HiringController.pb_amount body) 0) eqn:A; [discriminate|].
    cbv zeta in H.
    apply Qle_bool_false_iff in A.
    match type of H with
    | context [Hiring.processPayment hiring ?pd now rnd] =>
        pose proof (processPayment_spec hiring pd now rnd A) as S;
        cbv zeta in S; rewrite S in H
    end.
    match type of H with
    | (saveHiring ?h store, _) = _ => set (saved := h) in *
    end.
    injection H as <- <-. cbn [HiringController.rp_paymentStatus] in P.
    pose proof (find_hiring_id _ _ _ F) as I. subst id.
    assert (F' : find (fun h => (Hiring._id h =? Hiring._id hiring)%Z)
                      (hirings (saveHiring saved store)) = Some saved).
    { exact (find_after_saveHiring store saved hiring F). }
    unfold HiringController.processPayment. rewrite F'.
    assert (St : includes ["Cancelled"; "Rejected"] (Hiring.status saved) = false).
    { subst saved. cbn [Hiring.status Hiring.set_status].
      destruct (_ && _)%bool; [reflexivity|exact C]. }
    assert (P' : Hiring.paymentStatus saved = "Paid") by exact P.
    rewrite St, P'. reflexivity.
Qed.

Lemma a_paid_reservation_takes_no_more_payments_witness :
  (exists store' report,
      BookingController.processPayment Scenario.bookedStore 1%Z
        (BookingController.mkPaymentBody 100 "Cash" "TXN-0009") Scenario.owner
        (Scenario.atDay 1) "0A1B2C3D"
      = (store', success 200 report)
      /\ BookingController.processPayment store' 1%Z
           (BookingController.mkPaymentBody 5 "Cash" "TXN-0010") Scenario.owner
           (Scenario.atDay 2) "4E5F6A7B"
         = (store', error 400 "Booking is already fully paid"))
  /\ (exists store' report,
         HiringController.processPayment Cases.requestedStore 3%Z
           (HiringController.mkPaymentBody 200 "Cash" "TXN-0009") Scenario.owner
           (Scenario.atDay 1) "0A1B2C3D"
         = (store', success 200 report)
         /\ HiringController.processPayment store' 3%Z
              (HiringController.mkPaymentBody 5 "Cash" "TXN-0010") Scenario.owner
              (Scenario.atDay 2) "4E5F6A7B"
            = (store', error 400 "Hiring request is already fully paid")).
Proof.
  split.
  - do 2 eexists.
    assert (H : BookingController.processPayment Scenario.bookedStore 1%Z
                  (BookingController.mkPaymentBody 100 "Cash" "TXN-0009")
                  Scenario.owner (Scenario.atDay 1) "0A1B2C3D"
                = (_, success 200 _)) by reflexivity.
    split; [exact H|].
    apply (proj1 a_paid_reservation_takes_no_more_payments _ _ _ _ _ _ _ _
                 (BookingController.mkPaymentBody 5 "Cash" "TXN-0010") Scenario.owner
                 (Scenario.atDay 2) "4E5F6A7B" H).
    reflexivity.
  - do 2 eexists.
    assert (H : HiringController.processPayment Cases.requestedStore 3%Z
                  (HiringController.mkPaymentBody 200 "Cash" "TXN-0009")
                  Scenario.owner (Scenario.atDay 1) "0A1B2C3D"
                = (_, success 200 _)) by reflexivity.
    split; [exact H|].
    apply (proj2 a_paid_reservation_takes_no_more_payments _ _ _ _ _ _ _ _
                 (HiringController.mkPaymentBody 5 "Cash" "TXN-0010") Scenario.owner
                 (Scenario.atDay 2) "4E5F6A7B" H).
    reflexivity.
Defined.

(** X9.  A payment of an amount that is not positive is never applied:
    both payment endpoints answer with an error and leave the store as it
    is, whatever the id and the state of the reservation, and
    [Hiring.processPayment] throws "Invalid payment amount". *)
Theorem non_positive_payments_change_nothing :
  (forall store id body user now rnd,
      BookingController.pb_amount body <= 0 ->
      exists code message,
        BookingController.processPayment store id body user now rnd
        = (store, error code message))
  /\
  (forall store id body user now rnd,
      HiringController.pb_amount body <= 0 ->
      exists code message,
        HiringController.processPayment store id body user now rnd
        = (store, error code message))
  /\
  (forall this paymentData now rnd,
      Hiring.pd_amount paymentData <= 0 ->
      Hiring.processPayment this paymentData now rnd = Thrown "Invalid payment amount").
Proof.
  split; [|split].
  - intros store id body user now rnd A.
    apply Qle_bool_iff in A. unfold BookingController.processPayment.
    rewrite A. split_cases; do 2 eexists; reflexivity.
  - intros store id body user now rnd A.
    apply Qle_bool_iff in A. unfold HiringController.processPayment.
    rewrite A. split_cases; do 2 eexists; reflexivity.
  - intros this paymentData now rnd A.
    apply Qle_bool_iff in A. unfold Hiring.processPayment. rewrite A. reflexivity.
Qed.

Lemma non_positive_payments_change_nothing_witness :
  (exists code message,
      BookingController.processPayment Scenario.bookedStore 1%Z
        (BookingController.mkPaymentBody 0 "Cash" "TXN-0011") Scenario.owner
        (Scenario.atDay 1) "0A1B2C3D"
      = (Scenario.bookedStore, error code message))
  /\ (exists code message,
         HiringController.processPayment Cases.requestedStore 3%Z
           (HiringController.mkPaymentBody (- (5)) "Cash" "TXN-0011") Scenario.owner
           (Scenario.atDay 1) "0A1B2C3D"
         = (Cases.requestedStore, error code message))
  /\ Hiring.processPayment Scenario.flexibleHiring
       (Hiring.mkPaymentData 0 "Cash" "TXN-0011") (Scenario.atDay 1) "0A1B2C3D"
     = Thrown "Invalid payment amount".
Proof.
  split; [|split].
  - apply (proj1 non_positive_payments_change_nothing). vm_compute. discriminate.
  - apply (proj1 (proj2 non_positive_payments_change_nothing)).
    vm_compute. discriminate.
  - apply (proj2 (proj2 non_positive_payments_change_nothing)).
    vm_compute. discriminate.
Defined.




(** ** Creation *)

(** X11.  [createBooking] answers with the stored Pending booking (201) or
    with one of four refusals that leave the store as it is; it never
    answers "Some selected seats are already booked": a booking that holds
    one of the selected seats at the same instant on the same bus already
    makes the request fail with "Bus is not available on the selected
    date". *)
Theorem createBooking_never_reports_booked_seats
        (store : Store) (body : BookingController.CreateBody) (user : User)
        (newId : ObjectId) (rnd : string) :
  match BookingController.createBooking store body user newId rnd with
  | (store', success code booking) =>
      code = 201%Z /\ Booking.status booking = "Pending"
      /\ bookings store' = (bookings store ++ [booking])%list
  | (store', error code message) =>
      code = 400%Z /\ store' = store
      /\ In message ["Route not found"; "Bus not found";
                     "Bus is not available on the selected date";
                     "Bus is not available for the return date"]
  end.
Proof.
  unfold BookingController.createBooking.
  destruct (find _ (routes store)); [|cbn; tauto].
  destruct (find _ (buses store)); [|cbn; tauto].
  cbv zeta.
  destruct (0 <? Z.of_nat (List.length (filter _ (bookings store))))%Z eqn:B;
    [cbn; tauto|].
  match goal with
  | |- context [if (0 <? Z.of_nat (List.length ?l))%Z
                then (store, error 400 "Bus is not available for the return date")
                else _] =>
      destruct (0 <? Z.of_nat (List.length l))%Z; [cbn; tauto|]
  end.
  destruct (0 <? Z.of_nat (List.length (BookingController.seatNumbers body)))%Z.
  - rewrite (filter_and_empty _ _ _ B). cbn. repeat split; reflexivity.
  - cbn. repeat split; reflexivity.
Qed.



(** ** What an update may change *)





(** ** Requests and the reservations they do not name *)

(** After the cases of a controller are split: the store is the old one,
    a document was appended, or one document, whose id is not [id], was
    saved. *)
Ltac other_booking F :=
  cbn [fst];
  first
    [ exact F
    | unfold insertBooking; cbn [bookings]; apply find_app_found; exact F
    | unfold saveBooking; cbn [bookings];
      rewrite find_replace_other; [exact F|];
      cbn [Booking._id Booking.set_status Booking.set_paymentStatus
             Booking.set_payments Booking.set_refundAmount Booking.set_passengers
             Booking.set_departureDate Booking.set_returnDate Booking.set_route
             Booking.set_bus Booking.set_totalFare];
      congruence ].

Ltac other_hiring F :=
  cbn [fst];
  first
    [ exact F
    | unfold insertHiring; cbn [hirings]; apply find_app_found; exact F
    | unfold saveHiring; cbn [hirings];
      rewrite find_replace_other; [exact F|];
      cbn [Hiring._id Hiring.set_status Hiring.set_paymentStatus
             Hiring.set_payments Hiring.set_refundAmount
             Hiring.set_numberOfPassengers Hiring.set_additionalServices
             Hiring.set_startDate Hiring.set_endDate Hiring.set_bus
             Hiring.set_totalFare];
      congruence ].

Lemma handle_other_booking (store : Store) (r : request) (id : ObjectId)
      (b : Booking.t) :
  targetBooking r <> Some id ->
  find (fun x => (Booking._id x =? id)%Z) (bookings store) = Some b ->
  find (fun x => (Booking._id x =? id)%Z) (bookings (handle store r)) = Some b.
Proof.
  intros T F.
  destruct r; cbn [handle targetBooking] in *.
  - unfold BookingController.createBooking. split_cases; other_booking F.
  - assert (N : id0 <> id) by congruence.
    unfold BookingController.updateBooking.
    destruct (find (fun x => (Booking._id x =? id0)%Z) (bookings store))
      as [booking|] eqn:Fb; [|exact F].
    pose proof (find_booking_id _ _ _ Fb) as I.
    split_cases; other_booking F.
  - assert (N : id0 <> id) by congruence.
    unfold BookingController.updateBookingStatus.
    destruct (negb _); [exact F|].
    destruct (find (fun x => (Booking._id x =? id0)%Z) (bookings store))
      as [booking|] eqn:Fb; [|exact F].
    pose proof (find_booking_id _ _ _ Fb) as I.
    split_cases; other_booking F.
  - assert (N : id0 <> id) by congruence.
    unfold BookingController.cancelBooking.
    destruct (find (fun x => (Booking._id x =? id0)%Z) (bookings store))
      as [booking|] eqn:Fb; [|exact F].
    pose proof (find_booking_id _ _ _ Fb) as I.
    split_cases; other_booking F.
  - assert (N : id0 <> id) by congruence.
    unfold BookingController.processPayment.
    destruct (find (fun x => (Booking._id x =? id0)%Z) (bookings store))
      as [booking|] eqn:Fb; [|exact F].
    pose proof (find_booking_id _ _ _ Fb) as I.
    split_cases; other_booking F.
  - unfold HiringController.createHiring. split_cases; exact F.
  - unfold HiringController.updateHiring. split_cases; exact F.
  - unfold HiringController.updateHiringStatus. split_cases; exact F.
  - unfold HiringController.cancelHiring. split_cases; exact F.
  - unfold HiringController.processPayment. split_cases; exact F.
  - unfold HiringController.approveHiring. split_cases; exact F.
  - unfold HiringController.rejectHiring. split_cases; exact F.
Qed.

Lemma handle_other_hiring (store : Store) (r : request) (id : ObjectId)
      (h : Hiring.t) :
  targetHiring r <> Some id ->
  find (fun x => (Hiring._id x =? id)%Z) (hirings store) = Some h ->
  find (fun x => (Hiring._id x =? id)%Z) (hirings (handle store r)) = Some h.
Proof.
  intros T F.
  destruct r; cbn [handle targetHiring] in *.
  - unfold BookingController.createBooking. split_cases; exact F.
  - unfold BookingController.updateBooking. split_cases; exact F.
  - unfold BookingController.updateBookingStatus. split_cases; exact F.
  - unfold BookingController.cancelBooking. split_cases; exact F.
  - unfold BookingController.processPayment. split_cases; exact F.
  - unfold HiringController.createHiring. split_cases; other_hiring F.
  - assert (N : id0 <> id) by congruence.
    unfold HiringController.updateHiring.
    destruct (find (fun x => (Hiring._id x =? id0)%Z) (hirings store))
      as [hiring|] eqn:Fh; [|exact F].
    pose proof (find_hiring_id _ _ _ Fh) as I.
    split_cases; other_hiring F.
  - assert (N : id0 <> id) by congruence.
    unfold HiringController.updateHiringStatus, Hiring.handleCancellation.
    destruct (negb _); [exact F|].
    destruct (find (fun x => (Hiring._id x =? id0)%Z) (hirings store))
      as [hiring|] eqn:Fh; [|exact F].
    pose proof (find_hiring_id _ _ _ Fh) as I.
    split_cases; other_hiring F.
  - assert (N : id0 <> id) by congruence.
    unfold HiringController.cancelHiring, Hiring.handleCancellation.
    destruct (find (fun x => (Hiring._id x =? id0)%Z) (hirings store))
      as [hiring|] eqn:Fh; [|exact F].
    pose proof (find_hiring_id _ _ _ Fh) as I.
    split_cases; other_hiring F.
  - assert (N : id0 <> id) by congruence.
    unfold HiringController.processPayment, Hiring.processPayment.
    destruct (find (fun x => (Hiring._id x =? id0)%Z) (hirings store))
      as [hiring|] eqn:Fh; [|exact F].
    pose proof (find_hiring_id _ _ _ Fh) as I.
    split_cases; other_hiring F.
  - assert (N : id0 <> id) by congruence.
    unfold HiringController.approveHiring.
    destruct (find (fun x => (Hiring._id x =? id0)%Z) (hirings store))
      as [hiring|] eqn:Fh; [|exact F].
    pose proof (find_hiring_id _ _ _ Fh) as I.
    split_cases; other_hiring F.
  - assert (N : id0 <> id) by congruence.
    unfold HiringController.rejectHiring.
    destruct (String.eqb reason ""); [exact F|].
    destruct (find (fun x => (Hiring._id x =? id0)%Z) (hirings store))
      as [hiring|] eqn:Fh; [|exact F].
    pose proof (find_hiring_id _ _ _ Fh) as I.
    split_cases; other_hiring F.
Qed.

(** X15.  A request changes only the reservation it names: after any
    request to the two controllers, a stored booking (hiring) whose id the
    request does not name is found under its id exactly as it was; a
    creation changes no stored reservation. *)
Theorem a_request_changes_only_the_reservation_it_names :
  (forall store r id b,
      targetBooking r <> Some id ->
      find (fun x => (Booking._id x =? id)%Z) (bookings store) = Some b ->
      find (fun x => (Booking._id x =? id)%Z) (bookings (handle store r)) = Some b)
  /\
  (forall store r id h,
      targetHiring r <> Some id ->
      find (fun x => (Hiring._id x =? id)%Z) (hirings store) = Some h ->
      find (fun x => (Hiring._id x =? id)%Z) (hirings (handle store r)) = Some h).
Proof.
  split.
  - exact handle_other_booking.
  - exact handle_other_hiring.
Qed.

Lemma a_request_changes_only_the_reservation_it_names_witness :
  find (fun x => (Booking._id x =? 2)%Z)
       (bookings (handle Cases.twoBookings
                         (CancelBooking 1%Z Scenario.admin (Scenario.atDay 2))))
  = Some Scenario.roundTripBooking
  /\ find (fun x => (Hiring._id x =? 3)%Z)
          (hirings (handle Cases.depositedStore
                           (CreateHiring
                              (Scenario.hiringBody (Scenario.atDay 20)
                                                   (Scenario.atDay 22))
                              Scenario.owner 3%Z "0A1B2C3D")))
     = Some Cases.depositedHiring.
Proof.
  split.
  - apply (proj1 a_request_changes_only_the_reservation_it_names).
    + discriminate.
    + reflexivity.
  - apply (proj2 a_request_changes_only_the_reservation_it_names).
    + discriminate.
    + reflexivity.
Defined.

(** ** Ledgers never shrink *)






(** ** Access checks in front of the controllers *)

Lemma not_admin (user : User) :
  role user <> "admin" -> includes ["admin"] (role user) = false.
Proof.
  intros A. apply String.eqb_neq in A. unfold includes. simpl.
  rewrite A. reflexivity.
Qed.

Lemma stranger_keeps_booking (store : Store) (r : request) (id : ObjectId)
      (b : Booking.t) :
  find (fun x => (Booking._id x =? id)%Z) (bookings store) = Some b ->
  role (sender r) <> "admin" ->
  userId (sender r) <> Booking.user b ->
  find (fun x => (Booking._id x =? id)%Z) (bookings (handleChecked store r)) = Some b.
Proof.
  intros F A U. unfold handleChecked.
  destruct (accessCheck store r) eqn:C; [exact F|].
  apply handle_other_booking; [|exact F].
  intros T.
  pose proof (not_admin _ A) as NA. apply String.eqb_neq in A.
  assert (O : (Booking.user b =? userId (sender r))%Z = false)
    by (apply Z.eqb_neq; congruence).
  destruct r; cbn [targetBooking] in T; try discriminate T;
    injection T as ->; cbn [accessCheck sender] in *;
    unfold Auth.checkOwnership, Auth.authorize, getBookingUserId in C;
    rewrite ?F, ?A, ?NA, ?O in C; discriminate C.
Qed.

Lemma stranger_keeps_hiring (store : Store) (r : request) (id : ObjectId)
      (h : Hiring.t) :
  find (fun x => (Hiring._id x =? id)%Z) (hirings store) = Some h ->
  role (sender r) <> "admin" ->
  userId (sender r) <> Hiring.user h ->
  find (fun x => (Hiring._id x =? id)%Z) (hirings (handleChecked store r)) = Some h.
Proof.
  intros F A U. unfold handleChecked.
  destruct (accessCheck store r) eqn:C; [exact F|].
  apply handle_other_hiring; [|exact F].
  intros T.
  pose proof (not_admin _ A) as NA. apply String.eqb_neq in A.
  assert (O : (Hiring.user h =? userId (sender r))%Z = false)
    by (apply Z.eqb_neq; congruence).
  destruct r; cbn [targetHiring] in T; try discriminate T;
    injection T as ->; cbn [accessCheck sender] in *;
    unfold Auth.checkOwnership, Auth.authorize, getHiringUserId in C;
    rewrite ?F, ?A, ?NA, ?O in C; discriminate C.
Qed.

(** X17.  Behind the access checks of the routers ([checkOwnership] on
    update, cancel and payment, [authorize('admin')] on the status, approve
    and reject endpoints) only the owner or an admin changes a reservation:
    after any sequence of requests sent by users who are neither admins
    nor the owner, a stored booking (hiring) is found under its id exactly
    as it was. *)
Theorem only_the_owner_or_an_admin_changes_a_reservation :
  (forall requests store id b,
      find (fun x => (Booking._id x =? id)%Z) (bookings store) = Some b ->
      Forall (fun r => role (sender r) <> "admin"
                       /\ userId (sender r) <> Booking.user b) requests ->
      find (fun x => (Booking._id x =? id)%Z) (bookings (runChecked store requests))
      = Some b)
  /\
  (forall requests store id h,
      find (fun x => (Hiring._id x =? id)%Z) (hirings store) = Some h ->
      Forall (fun r => role (sender r) <> "admin"
                       /\ userId (sender r) <> Hiring.user h) requests ->
      find (fun x => (Hiring._id x =? id)%Z) (hirings (runChecked store requests))
      = Some h).
Proof.
  split.
  - induction requests as [|r rs IH]; intros store id b F S; [exact F|].
    inversion S as [|? ? [A U] S']; subst.
    apply IH; [|exact S'].
    apply stranger_keeps_booking; assumption.
  - induction requests as [|r rs IH]; intros store id h F S; [exact F|].
    inversion S as [|? ? [A U] S']; subst.
    apply IH; [|exact S'].
    apply stranger_keeps_hiring; assumption.
Qed.

Lemma only_the_owner_or_an_admin_changes_a_reservation_witness :
  find (fun x => (Booking._id x =? 1)%Z)
       (bookings (runChecked (Scenario.storeOf [Scenario.pendingBooking]
                                               [Scenario.outerHiring])
                             Cases.strangerRequests))
  = Some Scenario.pendingBooking
  /\ find (fun x => (Hiring._id x =? 1)%Z)
          (hirings (runChecked (Scenario.storeOf [Scenario.pendingBooking]
                                                 [Scenario.outerHiring])
                               Cases.strangerRequests))
     = Some Scenario.outerHiring.
Proof.
  split.
  - apply (proj1 only_the_owner_or_an_admin_changes_a_reservation).
    + reflexivity.
    + repeat constructor; discriminate.
  - apply (proj2 only_the_owner_or_an_admin_changes_a_reservation).
    + reflexivity.
    + repeat constructor; discriminate.
Defined.

(** ** Three ways to cancel a hiring *)




(** ** Availability of buses *)



(** X20.  The three availability checks of a bus agree on a hiring that is
    not stored and whose window is not reversed: the model method
    [checkBusAvailability] of the hiring says available exactly when the
    endpoint of the bus controller answers available for the bus and the
    window of the hiring, and then [isAvailable] of the Bus model is true
    as well. *)
Theorem bus_availability_checks_agree
        (store : Store) (this : Hiring.t) :
  (Hiring.startDate this <= Hiring.endDate this)%Z ->
  (forall h, In h (hirings store) -> Hiring._id h <> Hiring._id this) ->
  (HiringAvailability.available (HiringAvailability.checkBusAvailability store this)
   = true
   <-> exists bus,
      BusController.checkBusAvailability store (Hiring.bus this)
        (Some (Hiring.startDate this)) (Some (Hiring.endDate this))
      = success 200 (BusController.Checked true bus [] []))
  /\ (forall bus,
         BusController.checkBusAvailability store (Hiring.bus this)
           (Some (Hiring.startDate this)) (Some (Hiring.endDate this))
         = success 200 (BusController.Checked true bus [] []) ->
         BusModel.isAvailable store bus (Hiring.startDate this) (Hiring.endDate this)
         = true).
Proof.
  intros W Fresh.
  pose (q := fun h : Hiring.t =>
               (Hiring.bus h =? Hiring.bus this)%Z
               && (within (Hiring.startDate this) (Hiring.endDate this)
                          (Hiring.startDate h)
                   || within (Hiring.startDate this) (Hiring.endDate this)
                             (Hiring.endDate h))
               && includes ["Confirmed"; "Pending"; "In Progress"] (Hiring.status h)).
  assert (Hq : filter (HiringAvailability.hiringQuery this) (hirings store)
               = filter q (hirings store)).
  { apply filter_same. intros h I. unfold HiringAvailability.hiringQuery.
    assert (N : (Hiring._id h =? Hiring._id this)%Z = false)
      by (apply Z.eqb_neq, Fresh, I).
    rewrite N. cbn [negb]. rewrite andb_true_r. reflexivity. }
  assert (W' : (Hiring.endDate this <? Hiring.startDate this)%Z = false)
    by (apply Z.ltb_ge; exact W).
  unfold HiringAvailability.checkBusAvailability, BusController.checkBusAvailability.
  destruct (find _ (buses store)) as [bus|] eqn:Fb.
  2:{ split.
      - split; [intros X; discriminate X|]. intros (b0 & H). discriminate H.
      - intros bus H. discriminate. }
  pose proof (find_some _ _ Fb) as [_ Ib]. apply Z.eqb_eq in Ib.
  destruct (negb (String.eqb (busStatus bus) "Active")).
  { split.
    - split; [intros X; discriminate X|]. intros (b0 & H). discriminate H.
    - intros b H. discriminate. }
  rewrite W'. cbv zeta. rewrite Hq.
  assert (Bq : filter (BusController.bookingQuery bus (Hiring.startDate this)
                                                  (Hiring.endDate this))
                      (bookings store)
               = filter (HiringAvailability.bookingQuery this) (bookings store)).
  { apply filter_same. intros b _.
    unfold BusController.bookingQuery, HiringAvailability.bookingQuery.
    rewrite Ib. reflexivity. }
  assert (Hq' : filter (BusController.hiringQuery bus (Hiring.startDate this)
                                                  (Hiring.endDate this))
                       (hirings store)
                = filter q (hirings store)).
  { apply filter_same. intros h _. unfold BusController.hiringQuery.
    rewrite Ib. reflexivity. }
  rewrite Bq, Hq'. rewrite !positive_or_zero.
  set (bs := filter (HiringAvailability.bookingQuery this) (bookings store)) in *.
  set (hs := filter q (hirings store)) in *.
  split.
  - destruct (0 <? Z.of_nat (List.length bs))%Z;
      [|destruct (0 <? Z.of_nat (List.length hs))%Z]; cbn.
    + split; [intros X; discriminate X|]. intros (b0 & H). discriminate H.
    + split; [intros X; discriminate X|]. intros (b0 & H). discriminate H.
    + split; [|reflexivity]. intros _. exists bus. reflexivity.
  - intros b H. unfold BusModel.isAvailable.
    destruct (0 <? Z.of_nat (List.length bs))%Z eqn:E1; [discriminate|].
    destruct (0 <? Z.of_nat (List.length hs))%Z eqn:E2; [discriminate|].
    cbn in H. injection H as <-.
    apply length_zero_nil in E1, E2.
    replace (filter (BusModel.bookingQuery bus (Hiring.startDate this)
                                           (Hiring.endDate this)) (bookings store))
      with bs by (symmetry; exact Bq).
    rewrite E1. cbn.
    destruct (filter (BusModel.hiringQuery bus (Hiring.startDate this)
                                           (Hiring.endDate this)) (hirings store))
      as [|h rest] eqn:Fl; [reflexivity|].
    exfalso.
    assert (Ih : In h (filter (BusModel.hiringQuery bus (Hiring.startDate this)
                                                    (Hiring.endDate this))
                              (hirings store))) by (rewrite Fl; left; reflexivity).
    apply filter_In in Ih. destruct Ih as [Ih Q].
    unfold BusModel.hiringQuery in Q.
    apply andb_prop in Q. destruct Q as [Q S].
    assert (In h hs).
    { subst hs. apply filter_In. split; [exact Ih|].
      unfold q. rewrite <- Ib, Q. cbn [andb].
      unfold includes in S |- *. cbn [existsb] in S |- *.
      destruct (String.eqb (Hiring.status h) "Confirmed"); [reflexivity|].
      destruct (String.eqb (Hiring.status h) "Pending"); [reflexivity|].
      discriminate. }
    rewrite E2 in H. contradiction.
Qed.

Lemma bus_availability_checks_agree_witness :
  HiringAvailability.available
    (HiringAvailability.checkBusAvailability Scenario.hiredStore Cases.laterHiring)
  = true
  /\ BusController.checkBusAvailability Scenario.hiredStore 1%Z
       (Some (Scenario.atDay 20)) (Some (Scenario.atDay 22))
     = success 200 (BusController.Checked true Scenario.bus1 [] [])
  /\ BusModel.isAvailable Scenario.hiredStore Scenario.bus1 (Scenario.atDay 20)
                          (Scenario.atDay 22)
     = true.
Proof.
  destruct (bus_availability_checks_agree Scenario.hiredStore Cases.laterHiring)
    as [A B].
  - vm_compute. discriminate.
  - intros h [<-|[]]. discriminate.
  - assert (E : BusController.checkBusAvailability Scenario.hiredStore 1%Z
                  (Some (Scenario.atDay 20)) (Some (Scenario.atDay 22))
                = success 200 (BusController.Checked true Scenario.bus1 [] []))
      by reflexivity.
    split; [|split].
    + apply A. exists Scenario.bus1. exact E.
    + exact E.
    + apply (B Scenario.bus1). exact E.
Defined.



(** ** Deleting a bus *)

Lemma find_deleteById_other (id other : ObjectId) (l : list Bus) :
  other <> id ->
  find (fun b => (bus_id b =? other)%Z) (BusController.deleteById id l)
  = find (fun b => (bus_id b =? other)%Z) l.
Proof.
  intros N. induction l as [|b l IH]; [reflexivity|].
  simpl. destruct (bus_id b =? id)%Z eqn:E.
  - apply Z.eqb_eq in E.
    assert (X : (bus_id b =? other)%Z = false) by (apply Z.eqb_neq; congruence).
    rewrite X. reflexivity.
  - simpl. rewrite IH. reflexivity.
Qed.

(** X22.  [deleteBus] never takes the bus away from an active reservation:
    whatever its answer, bookings and hirings are left as they were, and
    every Pending or Confirmed booking and every Pending, Confirmed or In
    Progress hiring whose bus was in the store still has its bus in the
    store. *)
Theorem deleteBus_leaves_no_active_reservation_without_bus
        (store : Store) (id : ObjectId) (store' : Store) (r : response unit) :
  BusController.deleteBus store id = (store', r) ->
  bookings store' = bookings store
  /\ hirings store' = hirings store
  /\ (forall b,
         In b (bookings store) ->
         includes ["Pending"; "Confirmed"] (Booking.status b) = true ->
         busKnown store (Booking.bus b) = true ->
         busKnown store' (Booking.bus b) = true)
  /\ (forall h,
         In h (hirings store) ->
         includes ["Pending"; "Confirmed"; "In Progress"] (Hiring.status h) = true ->
         busKnown store (Hiring.bus h) = true ->
         busKnown store' (Hiring.bus h) = true).
Proof.
  unfold BusController.deleteBus. cbv zeta.
  destruct (0 <? _)%Z eqn:Eb.
  { intros H. apply pair_equal_spec in H. destruct H as [<- <-]. auto. }
  destruct (0 <? Z.of_nat (List.length (filter _ (hirings store))))%Z eqn:Eh.
  { intros H. apply pair_equal_spec in H. destruct H as [<- <-]. auto. }
  destruct (find _ (buses store)) as [bus|].
  2:{ intros H. apply pair_equal_spec in H. destruct H as [<- <-]. auto. }
  intros H. apply pair_equal_spec in H. destruct H as [<- <-].
  split; [reflexivity|]. split; [reflexivity|]. split.
  - intros b I S K.
    pose proof (filter_nil_false _ _ b Eb I) as Q. cbv beta in Q.
    rewrite S, andb_true_r in Q. apply Z.eqb_neq in Q.
    unfold busKnown, BusController.removeBus in *. cbn [buses].
    rewrite find_deleteById_other; assumption.
  - intros h I S K.
    pose proof (filter_nil_false _ _ h Eh I) as Q. cbv beta in Q.
    rewrite S, andb_true_r in Q. apply Z.eqb_neq in Q.
    unfold busKnown, BusController.removeBus in *. cbn [buses].
    rewrite find_deleteById_other; assumption.
Qed.

Lemma deleteBus_leaves_no_active_reservation_without_bus_witness :
  BusController.deleteBus Scenario.hiredStore 1%Z
  = (Scenario.hiredStore, error 400 "Cannot delete bus with active hirings")
  /\ busKnown (fst (BusController.deleteBus Scenario.hiredStore 1%Z))
              (Hiring.bus Scenario.outerHiring)
     = true
  /\ BusController.deleteBus (Scenario.storeOf [] []) 1%Z
     = (mkStore [] [] [] [Scenario.route1], success 200 tt).
Proof.
  split; [reflexivity|]. split; [|reflexivity].
  destruct (deleteBus_leaves_no_active_reservation_without_bus
              Scenario.hiredStore 1%Z _ _ eq_refl) as (_ & _ & _ & H).
  apply (H Scenario.outerHiring).
  - left. reflexivity.
  - reflexivity.
  - reflexivity.
Defined.

(** ** Seats and schedule of a route *)

(** X23.  [checkAvailability] of a route counts the passengers of the
    live bookings of the route at the instant asked for: available seats
    plus booked seats are the capacity of the bus, and after
    [createBooking] has accepted a booking of the route for that instant
    the booked seats are up, and the available seats down, by the number
    of its passengers (the availability flag being "more than 0 seats
    left"). *)
Theorem a_new_booking_takes_its_seats
        (store : Store) (this : RouteSchedule.t) (body : BookingController.CreateBody)
        (user : User) (newId : ObjectId) (rnd : string) (store' : Store)
        (booking : Booking.t) (available : bool)
        (availableSeats totalCapacity bookedSeats : Z) :
  BookingController.createBooking store body user newId rnd
  = (store', success 201 booking) ->
  BookingController.route body = Route._id (RouteSchedule.fares this) ->
  RouteSchedule.checkAvailability store this (BookingController.departureDate body)
  = RouteSchedule.Seats available availableSeats totalCapacity bookedSeats ->
  let seats := Z.of_nat (List.length (BookingController.passengers body)) in
  (availableSeats + bookedSeats = totalCapacity)%Z
  /\ available = (0 <? availableSeats)%Z
  /\ RouteSchedule.checkAvailability store' this (BookingController.departureDate body)
     = RouteSchedule.Seats (0 <? availableSeats - seats)%Z (availableSeats - seats)%Z
                           totalCapacity (bookedSeats + seats)%Z.
Proof.
  intros H R A seats.
  unfold RouteSchedule.checkAvailability in *.
  destruct (negb (includes _ _)); [discriminate|].
  assert (S : exists b, store' = insertBooking b store
                        /\ Booking.route b = BookingController.route body
                        /\ Booking.departureDate b = BookingController.departureDate body
                        /\ Booking.status b = "Pending"
                        /\ Booking.passengers b = BookingController.passengers body).
  { unfold BookingController.createBooking in H.
    repeat match type of H with
           | context [match ?x with _ => _ end] =>
               destruct x; try discriminate H
           | _ => progress cbv zeta in H
           end.
    apply pair_equal_spec in H. destruct H as [<- _].
    eexists. split; [reflexivity|]. repeat split. }
  destruct S as (b & -> & Rb & Db & Sb & Pb).
  cbn [buses insertBooking bookings].
  destruct (find _ (buses store)) as [bus|]; [|discriminate].
  destruct (negb (String.eqb _ "Active")); [discriminate|].
  cbv zeta in A |- *. injection A as <- <- <- <-.
  rewrite filter_app. cbn [filter].
  assert (Q : RouteSchedule.bookingQuery this (BookingController.departureDate body) b
              = true).
  { unfold RouteSchedule.bookingQuery. rewrite Rb, R, Db, Sb, !Z.eqb_refl.
    reflexivity. }
  rewrite Q, fold_left_app. cbn [fold_left]. rewrite Pb. fold seats.
  set (k := fold_left _ (filter _ (bookings store)) 0%Z).
  split; [lia|]. split; [reflexivity|].
  f_equal; [f_equal|]; lia.
Qed.

Lemma a_new_booking_takes_its_seats_witness :
  exists store' booking,
    BookingController.createBooking (Scenario.storeOf [] [])
      (Scenario.bookingBody Scenario.saturdayNoon None "One-Way")
      Scenario.owner 5%Z "0A1B2C3D"
    = (store', success 201 booking)
    /\ RouteSchedule.checkAvailability (Scenario.storeOf [] []) Cases.saturdayRoute
                                       Scenario.saturdayNoon
       = RouteSchedule.Seats true 40 40 0
    /\ RouteSchedule.checkAvailability store' Cases.saturdayRoute Scenario.saturdayNoon
       = RouteSchedule.Seats true 39 40 1.
Proof.
  do 2 eexists.
  assert (H : BookingController.createBooking (Scenario.storeOf [] [])
                (Scenario.bookingBody Scenario.saturdayNoon None "One-Way")
                Scenario.owner 5%Z "0A1B2C3D"
              = (_, success 201 _)) by reflexivity.
  split; [exact H|]. split; [reflexivity|].
  exact (proj2 (proj2 (a_new_booking_takes_its_seats
                         (Scenario.storeOf [] []) Cases.saturdayRoute
                         (Scenario.bookingBody Scenario.saturdayNoon None "One-Way")
                         Scenario.owner 5%Z "0A1B2C3D" _ _ true 40%Z 40%Z 0%Z
                         H eq_refl eq_refl))).
Defined.

Lemma datesFrom_spec (start end_ d : Instant) :
  In d (RouteSchedule.datesFrom start end_)
  <-> exists k : Z, (0 <= k /\ d = start + k * 86400000 /\ d <= end_)%Z.
Proof.
  unfold RouteSchedule.datesFrom. rewrite in_map_iff. split.
  - intros (n & <- & I). apply in_seq in I. exists (Z.of_nat n).
    split; [lia|]. split; [reflexivity|].
    assert (Z.of_nat n < (end_ - start) / 86400000 + 1)%Z by lia.
    assert (Z.of_nat n <= (end_ - start) / 86400000)%Z by lia.
    pose proof (Z.mul_div_le (end_ - start) 86400000 eq_refl).
    nia.
  - intros (k & K0 & -> & Le). exists (Z.to_nat k).
    split; [rewrite Z2Nat.id by lia; reflexivity|].
    apply in_seq. split; [lia|]. simpl.
    assert (k <= (end_ - start) / 86400000)%Z.
    { apply Z.div_le_lower_bound; lia. }
    lia.
Qed.

Lemma schedule_thrown (toISODate : Instant -> string) (store : Store)
      (this : RouteSchedule.t) (l : list Instant) (m : string) :
  fold_left (RouteSchedule.scheduleStep toISODate store this) l (Thrown m) = Thrown m.
Proof. induction l as [|d l IH]; [reflexivity|]. simpl. exact IH. Qed.

Lemma schedule_loop (toISODate : Instant -> string) (store : Store)
      (this : RouteSchedule.t) (l : list Instant)
      (schedule : list RouteSchedule.ScheduleEntry) :
  fold_left (RouteSchedule.scheduleStep toISODate store this) l (Returned schedule)
  = if existsb (fun d => includes (RouteSchedule.operatingDays this)
                                  (RouteSchedule.weekday d)) l
    then Thrown "TypeError: isPeakTime is not a function"
    else Returned schedule.
Proof.
  induction l as [|d l IH]; [reflexivity|].
  simpl. destruct (includes _ _).
  - simpl. apply schedule_thrown.
  - simpl. exact IH.
Qed.

(** X24.  [generateSchedule] of the Route model never returns a trip.  It
    throws when the start is after the end; it returns the empty schedule
    when the route operates on none of the days from the start to the end;
    and as soon as the route operates on one of them it throws a
    TypeError, because the fare of the first trip is asked with a date
    ([calculateFare] then calls the boolean [isPeakTime]). *)
Theorem generateSchedule_returns_no_trip
        (toISODate : Instant -> string) (store : Store) (this : RouteSchedule.t)
        (startDate endDate : Instant) :
  ((endDate < startDate)%Z ->
   RouteSchedule.generateSchedule toISODate store this startDate endDate
   = Thrown "Start date must be before end date")
  /\ ((startDate <= endDate)%Z ->
      (forall k : Z,
          (0 <= k)%Z -> (startDate + k * 86400000 <= endDate)%Z ->
          includes (RouteSchedule.operatingDays this)
                   (RouteSchedule.weekday (startDate + k * 86400000)%Z) = false) ->
      RouteSchedule.generateSchedule toISODate store this startDate endDate
      = Returned [])
  /\ (forall k : Z,
         (0 <= k)%Z -> (startDate + k * 86400000 <= endDate)%Z ->
         includes (RouteSchedule.operatingDays this)
                  (RouteSchedule.weekday (startDate + k * 86400000)%Z) = true ->
         RouteSchedule.generateSchedule toISODate store this startDate endDate
         = Thrown "TypeError: isPeakTime is not a function")
  /\ (forall schedule,
         RouteSchedule.generateSchedule toISODate store this startDate endDate
         = Returned schedule ->
         schedule = []).
Proof.
  unfold RouteSchedule.generateSchedule.
  split; [|split; [|split]].
  - intros W. apply Z.ltb_lt in W. rewrite W. reflexivity.
  - intros W N. assert (W' : (endDate <? startDate)%Z = false) by (apply Z.ltb_ge; lia).
    rewrite W', schedule_loop.
    destruct (existsb _ _) eqn:E; [|reflexivity].
    apply existsb_exists in E. destruct E as (d & I & O).
    apply datesFrom_spec in I.
    destruct I as (k & K0 & -> & Le). rewrite (N k K0 Le) in O. discriminate.
  - intros k K0 Le O.
    assert (W' : (endDate <? startDate)%Z = false) by (apply Z.ltb_ge; lia).
    rewrite W', schedule_loop.
    replace (existsb _ _) with true; [reflexivity|].
    symmetry. apply existsb_exists. exists (startDate + k * 86400000)%Z.
    split; [|exact O]. apply datesFrom_spec.
    exists k. auto.
  - intros schedule. destruct (endDate <? startDate)%Z; [discriminate|].
    rewrite schedule_loop. destruct (existsb _ _); [discriminate|].
    intros H. injection H as <-. reflexivity.
Qed.

Lemma generateSchedule_returns_no_trip_witness :
  RouteSchedule.generateSchedule Cases.epochDate (Scenario.storeOf [] [])
    Cases.saturdayRoute (Scenario.atDay 2) (Scenario.atDay 1)
  = Thrown "Start date must be before end date"
  /\ RouteSchedule.generateSchedule Cases.epochDate (Scenario.storeOf [] [])
       Cases.saturdayRoute (Scenario.atDay 0) (Scenario.atDay 7)
     = Thrown "TypeError: isPeakTime is not a function"
  /\ RouteSchedule.generateSchedule Cases.epochDate (Scenario.storeOf [] [])
       Cases.saturdayRoute (Scenario.atDay 3) (Scenario.atDay 3)
     = Returned [].
Proof.
  split; [|split].
  - apply (proj1 (generateSchedule_returns_no_trip _ _ _ _ _)).
    vm_compute. reflexivity.
  - apply (proj1 (proj2 (proj2 (generateSchedule_returns_no_trip _ _ _ _ _))) 2%Z).
    + vm_compute. discriminate.
    + vm_compute. discriminate.
    + reflexivity.
  - apply (proj1 (proj2 (generateSchedule_returns_no_trip _ _ _ _ _))).
    + vm_compute. discriminate.
    + intros k K0 Le.
      assert (k = 0)%Z by (unfold Scenario.atDay, Scenario.day in Le; lia).
      subst k. reflexivity.
Defined.

(** The endpoint of the route controller has the same loop without the
    fare. *)
Lemma controller_loop (store : Store) (route : RouteSchedule.t) (l : list Instant)
      (schedule : list RouteController.ScheduleEntry) :
  map RouteController.se_date
      (fold_left (RouteController.scheduleStep store route) l schedule)
  = (map RouteController.se_date schedule
     ++ filter (fun d => includes (RouteSchedule.operatingDays route)
                                  (RouteSchedule.weekday d)) l)%list.
Proof.
  revert schedule. induction l as [|d l IH]; intros schedule.
  - simpl. rewrite app_nil_r. reflexivity.
  - simpl. rewrite IH. unfold RouteController.scheduleStep.
    destruct (includes _ _).
    + rewrite map_app, <- app_assoc. reflexivity.
    + reflexivity.
Qed.

(** X25.  For a route that is found, [getRouteSchedule] answers 200 with
    one entry for each day on which the route operates among the start
    (today when not given), the start plus one day, and so on up to the
    end (seven days after today when not given), in this order and no
    other entry; and whenever this schedule is not empty, the model
    method [generateSchedule] throws for the same route and range. *)
Theorem getRouteSchedule_lists_the_operating_days
        (store : Store) (routes : list RouteSchedule.t) (id : ObjectId)
        (startDate endDate : option Instant) (today : Instant)
        (route : RouteSchedule.t) :
  find (fun r => (Route._id (RouteSchedule.fares r) =? id)%Z) routes = Some route ->
  let start := match startDate with Some d => d | None => today end in
  let end_ := match endDate with Some d => d | None => (today + 604800000)%Z end in
  exists schedule,
    RouteController.getRouteSchedule store routes id startDate endDate today
    = success 200 schedule
    /\ map RouteController.se_date schedule
       = filter (fun d => includes (RouteSchedule.operatingDays route)
                                   (RouteSchedule.weekday d))
                (RouteSchedule.datesFrom start end_)
    /\ (forall d,
           In d (map RouteController.se_date schedule)
           <-> includes (RouteSchedule.operatingDays route) (RouteSchedule.weekday d)
               = true
               /\ exists k : Z, (0 <= k /\ d = start + k * 86400000 /\ d <= end_)%Z)
    /\ (schedule <> [] ->
        forall toISODate,
          RouteSchedule.generateSchedule toISODate store route start end_
          = Thrown "TypeError: isPeakTime is not a function").
Proof.
  intros F start end_. unfold RouteController.getRouteSchedule. rewrite F.
  change (today + 7 * 24 * 60 * 60 * 1000)%Z with (today + 604800000)%Z.
  fold start. fold end_.
  eexists. split; [reflexivity|].
  pose proof (controller_loop store route (RouteSchedule.datesFrom start end_) []) as L.
  simpl in L. split; [exact L|]. split.
  - intros d. rewrite L, filter_In, (datesFrom_spec start end_ d). tauto.
  - intros N toISODate.
    unfold RouteSchedule.generateSchedule.
    destruct (end_ <? start)%Z eqn:W.
    + exfalso. apply N. apply map_eq_nil with (f := RouteController.se_date).
      rewrite L. unfold RouteSchedule.datesFrom.
      apply Z.ltb_lt in W.
      assert (X : ((end_ - start) / 86400000 + 1 <= 0)%Z).
      { assert ((end_ - start) / 86400000 < 0)%Z
          by (apply Z.div_lt_upper_bound; lia).
        lia. }
      replace (Z.to_nat ((end_ - start) / 86400000 + 1)) with 0%nat by lia.
      reflexivity.
    + rewrite schedule_loop.
      destruct (existsb _ _) eqn:E; [reflexivity|].
      exfalso. apply N.
      apply map_eq_nil with (f := RouteController.se_date). rewrite L.
      apply filter_none. exact E.
Qed.

Lemma getRouteSchedule_lists_the_operating_days_witness :
  exists schedule,
    RouteController.getRouteSchedule (Scenario.storeOf [] []) [Cases.saturdayRoute]
      1%Z None None (Scenario.atDay 0)
    = success 200 schedule
    /\ map RouteController.se_date schedule = [Scenario.atDay 2]
    /\ RouteSchedule.generateSchedule Cases.epochDate (Scenario.storeOf [] [])
         Cases.saturdayRoute (Scenario.atDay 0) (Scenario.atDay 7)
       = Thrown "TypeError: isPeakTime is not a function".
Proof.
  destruct (getRouteSchedule_lists_the_operating_days
              (Scenario.storeOf [] []) [Cases.saturdayRoute] 1%Z None None
              (Scenario.atDay 0) Cases.saturdayRoute eq_refl)
    as (schedule & E & M & _ & G).
  exists schedule. split; [exact E|]. split; [exact M|].
  apply (G ltac:(intros ->; discriminate M) Cases.epochDate).
Defined.

(** ** Seats of a booking *)

Lemma same_day_iff (day x : Instant) :
  ((BookingSeats.startOfDay day <=? x) && (x <? BookingSeats.endOfDay day) = true
   <-> x / 86400000 = day / 86400000 /\ x mod 86400000 <> 86399999)%Z.
Proof.
  unfold BookingSeats.endOfDay, BookingSeats.startOfDay.
  rewrite andb_true_iff, Z.leb_le, Z.ltb_lt.
  pose proof (Z.div_mod day 86400000 ltac:(lia)) as D.
  pose proof (Z.mod_pos_bound day 86400000 eq_refl) as Dm.
  pose proof (Z.div_mod x 86400000 ltac:(lia)) as X.
  pose proof (Z.mod_pos_bound x 86400000 eq_refl) as Xm.
  split.
  - intros [L U]. split; [|lia].
    assert (day / 86400000 <= x / 86400000)%Z by (apply Z.div_le_lower_bound; lia).
    assert (x / 86400000 < day / 86400000 + 1)%Z by (apply Z.div_lt_upper_bound; lia).
    lia.
  - intros [E N]. rewrite <- E in D. lia.
Qed.

Lemma bookedSeats_iff (store : Store) (this : Booking.t) (day : Instant) (seat : string) :
  includes (BookingSeats.seatsOf (BookingSeats.bookingsOn store this day)) seat = true
  <-> heldOn store this day seat.
Proof.
  rewrite includes_in. unfold BookingSeats.seatsOf, BookingSeats.bookingsOn, heldOn.
  rewrite in_flat_map. split.
  - intros (other & I & S). apply filter_In in I. destruct I as [I Q].
    apply in_map_iff in S. destruct S as (p & Sp & Ip).
    unfold BookingSeats.dayQuery in Q.
    apply andb_prop in Q. destruct Q as [Q N].
    apply andb_prop in Q. destruct Q as [Q St].
    apply andb_prop in Q. destruct Q as [Q D].
    apply andb_prop in Q. destruct Q as [R B].
    apply same_day_iff in D. destruct D as [D1 D2].
    apply Z.eqb_eq in R, B. apply negb_true_iff, Z.eqb_neq in N.
    exists other, p. repeat split; try assumption.
    apply includes_in in St. simpl in St. intuition congruence.
  - intros (other & p & I & N & R & B & St & D1 & D2 & Ip & Sp).
    exists other. split.
    + apply filter_In. split; [exact I|].
      unfold BookingSeats.dayQuery.
      rewrite R, B, !Z.eqb_refl. cbn [andb].
      rewrite (proj2 (same_day_iff day (Booking.departureDate other)) (conj D1 D2)).
      apply Z.eqb_neq in N. rewrite N. cbn [andb negb]. rewrite andb_true_r.
      apply includes_in. simpl. intuition congruence.
    + apply in_map_iff. exists p. split; assumption.
Qed.

(** X26.  [checkSeatAvailability] reports exactly the held seats: a seat
    is among the conflicting seats when a passenger of the booking has it
    and another Confirmed or Pending booking of the same route and bus,
    departing on the same day before its last millisecond, has a passenger
    on it; a seat is among the return conflicts when the booking is a
    round trip with a return date, the seat is one of its selected return
    seats, and such a booking departing on the return day holds it; and
    the booking is available exactly when both lists are empty. *)
Theorem checkSeatAvailability_reports_the_held_seats
        (store : Store) (this : Booking.t) (returnSeats : list string) :
  let result := BookingSeats.checkSeatAvailability store this returnSeats in
  (forall seat,
      In seat (BookingSeats.conflictingSeats result)
      <-> (exists passenger,
              In passenger (Booking.passengers this)
              /\ Booking.seatNumber passenger = seat)
          /\ heldOn store this (Booking.departureDate this) seat)
  /\ (forall seat,
         In seat (BookingSeats.returnConflictingSeats result)
         <-> Booking.bookingType this = "Round-Trip"
             /\ In seat returnSeats
             /\ exists returnDate,
                 Booking.returnDate this = Some returnDate
                 /\ heldOn store this returnDate seat)
  /\ (BookingSeats.isAvailable result = true
      <-> BookingSeats.conflictingSeats result = []
          /\ BookingSeats.returnConflictingSeats result = []).
Proof.
  unfold BookingSeats.checkSeatAvailability. cbv zeta.
  cbn [BookingSeats.conflictingSeats BookingSeats.returnConflictingSeats
         BookingSeats.isAvailable].
  split; [|split].
  - intros seat. rewrite filter_In, in_map_iff, bookedSeats_iff.
    split.
    + intros [(p & S & I) H]. split; [exists p; auto|exact H].
    + intros [(p & I & S) H]. split; [exists p; auto|exact H].
  - intros seat. destruct (Booking.returnDate this) as [returnDate|].
    + destruct (String.eqb (Booking.bookingType this) "Round-Trip") eqn:T.
      * apply String.eqb_eq in T. rewrite filter_In, bookedSeats_iff. split.
        -- intros [I H]. split; [exact T|]. split; [exact I|]. eauto.
        -- intros (_ & I & r & E & H). injection E as <-. auto.
      * apply String.eqb_neq in T. simpl. split; [contradiction|].
        intros (T' & _). contradiction.
    + simpl. split; [contradiction|]. intros (_ & _ & r & E & _). discriminate.
  - rewrite andb_true_iff, !Z.eqb_eq.
    split.
    + intros [A B]. split.
      * destruct (filter _ (map _ _)); [reflexivity|simpl in A; lia].
      * match goal with
        | |- ?l = [] => destruct l; [reflexivity|simpl in B; lia]
        end.
    + intros [-> ->]. split; reflexivity.
Qed.


(** ** Receipts and contracts *)



